(** * Lily: the security-rule transformer and its fan-out

    A shallow embedding of [src/outbound/security/transformer.py]
    ([SecurityTransformer]) and of the fan-out and gate of
    [src/outbound/processor.py] ([OutboundProcessor]), with the update path of
    [src/api/main.py].

    Python objects are untyped JSON-like values; a [dict] keeps its insertion
    order, so it is an association list read by first match.  A call either
    returns or raises: [result A] is [exn + A]. *)

From Stdlib Require Import List String Ascii ZArith Bool Lia.
Import ListNotations.
Open Scope string_scope.

(** ** Values *)

#[local] Set Warnings "-register-all".

Inductive value : Type :=
| VNone
| VBool (b : bool)
| VInt (z : Z)
| VFloat (bits : Z)          (* an IEEE double, by its 64 bits; never inspected *)
| VStr (s : string)
| VList (l : list value)
| VDict (d : list (string * value)).

Definition dict : Type := list (string * value).

(** ** Exceptions *)

Inductive exn : Type :=
| ValueError (msg : string)
| TypeError
| KeyError (k : string)
| AttributeError.

Definition result (A : Type) : Type := (exn + A)%type.

Definition ret {A : Type} (a : A) : result A := inr a.
Definition raise {A : Type} (e : exn) : result A := inl e.
Definition bind {A B : Type} (m : result A) (k : A -> result B) : result B :=
  match m with
  | inl e => inl e
  | inr a => k a
  end.

Notation "x <- m ;; k" := (bind m (fun x => k))
  (at level 61, m at next level, right associativity).

(** ** Dictionaries *)

Fixpoint dict_lookup (k : string) (d : dict) : option value :=
  match d with
  | [] => None
  | (k', v) :: d' => if String.eqb k k' then Some v else dict_lookup k d'
  end.

(** [k in d] *)
Definition dict_mem (k : string) (d : dict) : bool :=
  match dict_lookup k d with
  | Some _ => true
  | None => false
  end.

(** [d.get(k, default)] *)
Definition dict_get (k : string) (default : value) (d : dict) : value :=
  match dict_lookup k d with
  | Some v => v
  | None => default
  end.

(** [d[k]] *)
Definition dict_getitem (d : dict) (k : string) : result value :=
  match dict_lookup k d with
  | Some v => ret v
  | None => raise (KeyError k)
  end.

(** [d[k] = v]: an existing key keeps its place, a new one goes last. *)
Fixpoint dict_set (k : string) (v : value) (d : dict) : dict :=
  match d with
  | [] => [(k, v)]
  | (k', v') :: d' =>
      if String.eqb k k' then (k, v) :: d' else (k', v') :: dict_set k v d'
  end.

(** [{**a, **b}] *)
Definition dict_merge (a b : dict) : dict :=
  fold_left (fun acc kv => dict_set (fst kv) (snd kv) acc) b a.

(** ** The operations of Python the transformer applies to values of
       unknown type *)

(** [p in s] on two strings *)
Fixpoint is_substring (p s : string) : bool :=
  String.prefix p s ||
  match s with
  | EmptyString => false
  | String _ s' => is_substring p s'
  end.

Definition is_VStr (k : string) (v : value) : bool :=
  match v with
  | VStr s => String.eqb k s
  | _ => false
  end.

(** [for x in v] *)
Definition py_iter (v : value) : result (list value) :=
  match v with
  | VList l => ret l
  | VDict d => ret (map (fun kv => VStr (fst kv)) d)
  | VStr s => ret (map (fun c => VStr (String c EmptyString)) (list_ascii_of_string s))
  | VNone | VBool _ | VInt _ | VFloat _ => raise TypeError
  end.

(** [k in v], for a string [k] *)
Definition py_in (k : string) (v : value) : result bool :=
  match v with
  | VDict d => ret (dict_mem k d)
  | VList l => ret (existsb (is_VStr k) l)
  | VStr s => ret (is_substring k s)
  | VNone | VBool _ | VInt _ | VFloat _ => raise TypeError
  end.

(** [v[k]], for a string [k] *)
Definition py_getitem (v : value) (k : string) : result value :=
  match v with
  | VDict d => dict_getitem d k
  | _ => raise TypeError
  end.

(** [v.get(k, default)] *)
Definition py_get (v : value) (k : string) (default : value) : result value :=
  match v with
  | VDict d => ret (dict_get k default d)
  | _ => raise AttributeError
  end.

(** [all(k in v for k in ks)]: stops at the first key that is not in [v]. *)
Fixpoint all_in (ks : list string) (v : value) : result bool :=
  match ks with
  | [] => ret true
  | k :: ks' => b <- py_in k v ;; if b then all_in ks' v else ret false
  end.

(** A [for] loop that appends [body x] to an accumulator for each [x]. *)
Fixpoint for_append (body : value -> result value) (xs : list value)
    (acc : list value) : result (list value) :=
  match xs with
  | [] => ret acc
  | x :: xs' => y <- body x ;; for_append body xs' (acc ++ [y])
  end.

(** A list comprehension [[body x for x in xs]]. *)
Fixpoint comprehension (body : value -> result value) (xs : list value)
    : result (list value) :=
  match xs with
  | [] => ret []
  | x :: xs' => y <- body x ;; ys <- comprehension body xs' ;; ret (y :: ys)
  end.

(** ** Time *)

(** One reading of [datetime.utcnow()], by the two renderings the code takes. *)
Record datetime : Type := {
  strftime_YmdHMS : string;     (* strftime('%Y%m%d%H%M%S') *)
  isoformat : string
}.

(** The readings one call of [transform_security_rule] takes, in order. *)
Record clock : Type := {
  at_rule_id : datetime;
  at_created : datetime;
  at_updated : datetime
}.

Section Transformer.

(** Python's [repr] on values that are not strings: a builtin, left abstract. *)
Variable repr : value -> string.

(** [str(v)], as an f-string renders [{v}]. *)
Definition py_str (v : value) : string :=
  match v with
  | VStr s => s
  | _ => repr v
  end.

(** ** SecurityTransformer *)

Definition supported_rule_types : list string := ["PII"; "GDPR"; "CUSTOM"].

(** [v in self.supported_rule_types] *)
Definition is_supported (v : value) : bool :=
  existsb (fun t => is_VStr t v) supported_rule_types.

Definition condition_keys : list string := ["field"; "operator"; "value"].

Definition transform_condition (condition : value) : result value :=
  ok <- all_in condition_keys condition ;;
  if negb ok then raise (ValueError "Invalid condition format")
  else
    f <- py_getitem condition "field" ;;
    o <- py_getitem condition "operator" ;;
    v <- py_getitem condition "value" ;;
    d <- py_get condition "description" (VStr "") ;;
    s <- py_get condition "severity" (VStr "medium") ;;
    ret (VDict [("field", f); ("operator", o); ("value", v);
                ("metadata", VDict [("description", d); ("severity", s)])]).

Definition _transform_conditions (conditions : value) : result value :=
  cs <- py_iter conditions ;;
  transformed_conditions <- for_append transform_condition cs [] ;;
  ret (VList transformed_conditions).

Definition transform_action (action : value) : result value :=
  has_type <- py_in "type" action ;;
  if negb has_type then raise (ValueError "Invalid action format")
  else
    t <- py_getitem action "type" ;;
    p <- py_get action "parameters" (VDict []) ;;
    d <- py_get action "description" (VStr "") ;;
    pr <- py_get action "priority" (VStr "normal") ;;
    ret (VDict [("type", t); ("parameters", p);
                ("metadata", VDict [("description", d); ("priority", pr)])]).

Definition _transform_actions (actions : value) : result value :=
  xs <- py_iter actions ;;
  transformed_actions <- for_append transform_action xs [] ;;
  ret (VList transformed_actions).

Definition _generate_rule_id (now : datetime) : string :=
  "rule_" ++ strftime_YmdHMS now.

Definition transform_security_rule (now : clock) (rule_data : dict)
    : result dict :=
  match dict_lookup "rule_type" rule_data with
  | None => raise (ValueError "Missing required field: rule_type")
  | Some rule_type =>
      if negb (is_supported rule_type)
      then raise (ValueError ("Unsupported rule type: " ++ py_str rule_type))
      else
        let rule_id :=
          dict_get "rule_id" (VStr (_generate_rule_id (at_rule_id now))) rule_data in
        conditions <- _transform_conditions (dict_get "conditions" (VList []) rule_data) ;;
        actions <- _transform_actions (dict_get "actions" (VList []) rule_data) ;;
        ret [("rule_id", rule_id);
             ("rule_type", rule_type);
             ("asset_id", dict_get "asset_id" VNone rule_data);
             ("asset_type", dict_get "asset_type" VNone rule_data);
             ("conditions", conditions);
             ("actions", actions);
             ("metadata", VDict [("created_at", VStr (isoformat (at_created now)));
                                 ("updated_at", VStr (isoformat (at_updated now)));
                                 ("source", VStr "atlan");
                                 ("version", VStr "1.0")])]
  end.

(** The loop [for x in xs: if not check(x): return False]; [true] when it
    runs to its end. *)
Fixpoint for_all (check : value -> result bool) (xs : list value)
    : result bool :=
  match xs with
  | [] => ret true
  | x :: xs' => ok <- check x ;; if negb ok then ret false else for_all check xs'
  end.

Definition required_fields : list string :=
  ["rule_type"; "asset_id"; "conditions"; "actions"].

Definition validate_rule (rule : dict) : result bool :=
  if negb (forallb (fun field => dict_mem field rule) required_fields)
  then ret false
  else
    rule_type <- dict_getitem rule "rule_type" ;;
    if negb (is_supported rule_type) then ret false
    else
      conditions <- dict_getitem rule "conditions" ;;
      cs <- py_iter conditions ;;
      conditions_ok <- for_all (all_in condition_keys) cs ;;
      if negb conditions_ok then ret false
      else
        actions <- dict_getitem rule "actions" ;;
        xs <- py_iter actions ;;
        actions_ok <- for_all (py_in "type") xs ;;
        if negb actions_ok then ret false else ret true.

Definition format_condition (condition : value) : result value :=
  f <- py_getitem condition "field" ;;
  o <- py_getitem condition "operator" ;;
  v <- py_getitem condition "value" ;;
  ret (VDict [("column", f); ("operator", o); ("value", v)]).

Definition format_action (action : value) : result value :=
  t <- py_getitem action "type" ;;
  p <- py_getitem action "parameters" ;;
  ret (VDict [("type", t); ("parameters", p)]).

Definition _format_snowflake_conditions (conditions : value) : result value :=
  cs <- py_iter conditions ;;
  l <- comprehension format_condition cs ;;
  ret (VList l).

Definition _format_databricks_conditions (conditions : value) : result value :=
  cs <- py_iter conditions ;;
  l <- comprehension format_condition cs ;;
  ret (VList l).

Definition _format_snowflake_actions (actions : value) : result value :=
  xs <- py_iter actions ;;
  l <- comprehension format_action xs ;;
  ret (VList l).

Definition _format_databricks_actions (actions : value) : result value :=
  xs <- py_iter actions ;;
  l <- comprehension format_action xs ;;
  ret (VList l).

Definition _format_for_snowflake (rule : dict) : result dict :=
  rule_id <- dict_getitem rule "rule_id" ;;
  rule_conditions <- dict_getitem rule "conditions" ;;
  conditions <- _format_snowflake_conditions rule_conditions ;;
  rule_actions <- dict_getitem rule "actions" ;;
  actions <- _format_snowflake_actions rule_actions ;;
  ret [("type", VStr "snowflake_policy");
       ("name", VStr ("atlan_" ++ py_str rule_id));
       ("database", dict_get "database" (VStr "PUBLIC") rule);
       ("schema", dict_get "schema" (VStr "PUBLIC") rule);
       ("table", dict_get "table" VNone rule);
       ("conditions", conditions);
       ("actions", actions)].

Definition _format_for_databricks (rule : dict) : result dict :=
  rule_id <- dict_getitem rule "rule_id" ;;
  rule_conditions <- dict_getitem rule "conditions" ;;
  conditions <- _format_databricks_conditions rule_conditions ;;
  rule_actions <- dict_getitem rule "actions" ;;
  actions <- _format_databricks_actions rule_actions ;;
  ret [("type", VStr "databricks_policy");
       ("name", VStr ("atlan_" ++ py_str rule_id));
       ("catalog", dict_get "catalog" (VStr "hive_metastore") rule);
       ("schema", dict_get "schema" (VStr "default") rule);
       ("table", dict_get "table" VNone rule);
       ("conditions", conditions);
       ("actions", actions)].

Definition format_for_downstream (rule : dict) (target_system : string)
    : result dict :=
  if String.eqb target_system "snowflake" then _format_for_snowflake rule
  else if String.eqb target_system "databricks" then _format_for_databricks rule
  else raise (ValueError ("Unsupported target system: " ++ target_system)).

(** ** OutboundProcessor *)

(** What [_format_for_downstream_systems] leaves behind: the mapping it
    returns, and the lines it prints (each by its prefix and the exception it
    renders). *)
Record fan_out : Type := {
  downstream_rules : dict;
  printed : list (string * exn)
}.

(** One [try: ... except Exception as e: print(...)] block: every [exn] of
    this model is a Python [Exception], so the handler takes them all. *)
Definition try_format (format : dict -> string -> result dict)
    (rule : dict) (target label : string) (acc : fan_out) : fan_out :=
  match format rule target with
  | inr policy =>
      {| downstream_rules := dict_set target (VDict policy) (downstream_rules acc);
         printed := printed acc |}
  | inl e =>
      {| downstream_rules := downstream_rules acc;
         printed := printed acc ++ [("Error formatting for " ++ label ++ ": ", e)] |}
  end.

(** The fan-out over a transformer's [format_for_downstream] method. *)
Definition fan_out_with (format : dict -> string -> result dict) (rule : dict)
    : fan_out :=
  let acc := {| downstream_rules := []; printed := [] |} in
  let acc := try_format format rule "snowflake" "Snowflake" acc in
  try_format format rule "databricks" "Databricks" acc.

Definition _format_for_downstream_systems (rule : dict) : fan_out :=
  fan_out_with format_for_downstream rule.

(** The two collaborators of the pipeline that reach AWS: the store's
    [store_metadata] and the EventBridge client's [put_events]. *)
Variable store_metadata : dict -> result value.
Variable put_events : dict -> result unit.

(** [process_security_event] after its validation gate. *)
Definition process_validated (transformed_rule : dict) : result dict :=
  rule_id <- dict_getitem transformed_rule "rule_id" ;;
  metadata <- dict_getitem transformed_rule "metadata" ;;
  created_at <- py_getitem metadata "created_at" ;;
  event_id <- store_metadata [("event_id", rule_id);
                              ("event_type", VStr "security_rule");
                              ("timestamp", created_at);
                              ("source", VStr "atlan");
                              ("payload", VDict transformed_rule)] ;;
  let downstream := _format_for_downstream_systems transformed_rule in
  _ <- put_events transformed_rule ;;
  ret [("event_id", event_id);
       ("status", VStr "processed");
       ("downstream_rules", VDict (downstream_rules downstream))].

Definition process_security_event (now : clock) (event : dict) : result dict :=
  transformed_rule <- transform_security_rule now event ;;
  valid <- validate_rule transformed_rule ;;
  if negb valid then raise (ValueError "Invalid security rule")
  else process_validated transformed_rule.

(** ** The update path of the API *)

(** [update_security_rule], from the stored payload to the transformed rule:
    [{**existing_rule["payload"], **rule}] goes through the transformer
    again. *)
Definition update_transform (now : clock) (payload rule : dict) : result dict :=
  transform_security_rule now (dict_merge payload rule).

End Transformer.

Arguments transform_security_rule repr now rule_data : simpl never.

(** ** Shapes of values *)

Definition is_dict (v : value) : bool :=
  match v with
  | VDict _ => true
  | _ => false
  end.

(** A mapping that has every key of [ks]. *)
Definition has_keys (ks : list string) (v : value) : bool :=
  match v with
  | VDict d => forallb (fun k => dict_mem k d) ks
  | _ => false
  end.

(** A sequence whose items all satisfy [p]. *)
Definition sequence_of (p : value -> bool) (v : value) : bool :=
  match v with
  | VList l => forallb p l
  | _ => false
  end.

(** The raw conditions and actions the transformer accepts. *)
Definition well_formed_conditions (rule_data : dict) : bool :=
  sequence_of (has_keys condition_keys) (dict_get "conditions" (VList []) rule_data).

Definition well_formed_actions (rule_data : dict) : bool :=
  sequence_of (has_keys ["type"]) (dict_get "actions" (VList []) rule_data).

(** ** What the transformer builds *)

(** The record the transformer builds from the mapping [d] of a condition. *)
Definition canonical_condition (d : dict) (f o v : value) : value :=
  VDict [("field", f); ("operator", o); ("value", v);
         ("metadata", VDict [("description", dict_get "description" (VStr "") d);
                             ("severity", dict_get "severity" (VStr "medium") d)])].

(** The record the transformer builds from the mapping [d] of an action. *)
Definition canonical_action (d : dict) (t : value) : value :=
  VDict [("type", t);
         ("parameters", dict_get "parameters" (VDict []) d);
         ("metadata", VDict [("description", dict_get "description" (VStr "") d);
                             ("priority", dict_get "priority" (VStr "normal") d)])].

Definition transforms_condition (raw c : value) : Prop :=
  exists d f o v,
    raw = VDict d /\
    dict_lookup "field" d = Some f /\
    dict_lookup "operator" d = Some o /\
    dict_lookup "value" d = Some v /\
    c = canonical_condition d f o v.

Definition transforms_action (raw a : value) : Prop :=
  exists d t,
    raw = VDict d /\ dict_lookup "type" d = Some t /\ a = canonical_action d t.

(** The rule of a successful transformation, field by field. *)
Definition transformed (now : clock) (rule_data : dict) (rule_type : value)
    (conditions actions : list value) : dict :=
  [("rule_id", dict_get "rule_id" (VStr (_generate_rule_id (at_rule_id now))) rule_data);
   ("rule_type", rule_type);
   ("asset_id", dict_get "asset_id" VNone rule_data);
   ("asset_type", dict_get "asset_type" VNone rule_data);
   ("conditions", VList conditions);
   ("actions", VList actions);
   ("metadata", VDict [("created_at", VStr (isoformat (at_created now)));
                       ("updated_at", VStr (isoformat (at_updated now)));
                       ("source", VStr "atlan");
                       ("version", VStr "1.0")])].

(** ** What the formatter builds *)

(** The policy entry of the condition [c]: [{column, operator, value}] from
    its [field], [operator] and [value]. *)
Definition formats_condition (c p : value) : Prop :=
  exists f o v,
    py_getitem c "field" = inr f /\
    py_getitem c "operator" = inr o /\
    py_getitem c "value" = inr v /\
    p = VDict [("column", f); ("operator", o); ("value", v)].

(** The policy entry of the action [a]: its [type] and [parameters]. *)
Definition formats_action (a p : value) : Prop :=
  exists t ps,
    py_getitem a "type" = inr t /\
    py_getitem a "parameters" = inr ps /\
    p = VDict [("type", t); ("parameters", ps)].

(** What both targets need of a rule: an identifier, conditions that are a
    sequence of mappings with [field], [operator] and [value], and actions
    that are a sequence of mappings with [type] and [parameters]. *)
Definition formattable (rule : dict) : bool :=
  dict_mem "rule_id" rule &&
  sequence_of (has_keys condition_keys) (dict_get "conditions" VNone rule) &&
  sequence_of (has_keys ["type"; "parameters"]) (dict_get "actions" VNone rule).

(** The two policies of a rule, field by field. *)
Definition snowflake_policy (repr : value -> string) (rule : dict) (rule_id : value)
    (conditions actions : list value) : dict :=
  [("type", VStr "snowflake_policy");
   ("name", VStr ("atlan_" ++ py_str repr rule_id));
   ("database", dict_get "database" (VStr "PUBLIC") rule);
   ("schema", dict_get "schema" (VStr "PUBLIC") rule);
   ("table", dict_get "table" VNone rule);
   ("conditions", VList conditions);
   ("actions", VList actions)].

Definition databricks_policy (repr : value -> string) (rule : dict) (rule_id : value)
    (conditions actions : list value) : dict :=
  [("type", VStr "databricks_policy");
   ("name", VStr ("atlan_" ++ py_str repr rule_id));
   ("catalog", dict_get "catalog" (VStr "hive_metastore") rule);
   ("schema", dict_get "schema" (VStr "default") rule);
   ("table", dict_get "table" VNone rule);
   ("conditions", VList conditions);
   ("actions", VList actions)].

(** ** What the validator is given *)

(** A rule whose conditions and actions, where it has them, are sequences of
    mappings. *)
Definition rule_typed (rule : dict) : bool :=
  sequence_of is_dict (dict_get "conditions" (VList []) rule) &&
  sequence_of is_dict (dict_get "actions" (VList []) rule).

Definition minimal_rule : dict :=
  [("rule_type", VStr "PII"); ("asset_id", VStr "a1");
   ("conditions", VList []); ("actions", VList [])].

(** ** What a second pass leaves *)

Definition default_condition_metadata : value :=
  VDict [("description", VStr ""); ("severity", VStr "medium")].

Definition default_action_metadata : value :=
  VDict [("description", VStr ""); ("priority", VStr "normal")].

(** [c'] is the canonical condition [c] with its metadata at the defaults. *)
Definition resets_condition (c c' : value) : Prop :=
  exists f o v m,
    c = VDict [("field", f); ("operator", o); ("value", v); ("metadata", m)] /\
    c' = VDict [("field", f); ("operator", o); ("value", v);
                ("metadata", default_condition_metadata)].

(** [a'] is the canonical action [a] with its metadata at the defaults. *)
Definition resets_action (a a' : value) : Prop :=
  exists t p m,
    a = VDict [("type", t); ("parameters", p); ("metadata", m)] /\
    a' = VDict [("type", t); ("parameters", p);
                ("metadata", default_action_metadata)].

(** ** Sample runs: a clock, rules and collaborators *)

(** A rendering for the runs below, none of which renders a value that is
    not a string. *)
Definition plain_repr (v : value) : string := "".

Definition noon : clock :=
  {| at_rule_id := {| strftime_YmdHMS := "20240315120000";
                      isoformat := "2024-03-15T12:00:00" |};
     at_created := {| strftime_YmdHMS := "20240315120000";
                      isoformat := "2024-03-15T12:00:00.000100" |};
     at_updated := {| strftime_YmdHMS := "20240315120000";
                      isoformat := "2024-03-15T12:00:00.000200" |} |}.

Definition later : clock :=
  {| at_rule_id := {| strftime_YmdHMS := "20240316090000";
                      isoformat := "2024-03-16T09:00:00" |};
     at_created := {| strftime_YmdHMS := "20240316090000";
                      isoformat := "2024-03-16T09:00:00.000100" |};
     at_updated := {| strftime_YmdHMS := "20240316090000";
                      isoformat := "2024-03-16T09:00:00.000200" |} |}.

(** A raw rule whose condition and action carry metadata of their own. *)
Definition email_rule_data : dict :=
  [("rule_type", VStr "PII");
   ("asset_id", VStr "asset_123");
   ("asset_type", VStr "table");
   ("conditions",
    VList [VDict [("field", VStr "email"); ("operator", VStr "contains");
                  ("value", VStr "@"); ("description", VStr "emails");
                  ("severity", VStr "high")]]);
   ("actions",
    VList [VDict [("type", VStr "mask");
                  ("parameters", VDict [("mask_type", VStr "email")]);
                  ("priority", VStr "high")]])].

Definition email_condition : value :=
  VDict [("field", VStr "email"); ("operator", VStr "contains");
         ("value", VStr "@");
         ("metadata", VDict [("description", VStr "emails");
                             ("severity", VStr "high")])].

Definition email_action : value :=
  VDict [("type", VStr "mask");
         ("parameters", VDict [("mask_type", VStr "email")]);
         ("metadata", VDict [("description", VStr "");
                             ("priority", VStr "high")])].

Definition email_rule : dict :=
  [("rule_id", VStr "rule_20240315120000");
   ("rule_type", VStr "PII");
   ("asset_id", VStr "asset_123");
   ("asset_type", VStr "table");
   ("conditions", VList [email_condition]);
   ("actions", VList [email_action]);
   ("metadata", VDict [("created_at", VStr "2024-03-15T12:00:00.000100");
                       ("updated_at", VStr "2024-03-15T12:00:00.000200");
                       ("source", VStr "atlan");
                       ("version", VStr "1.0")])].

(** Raw rules whose only condition lacks one key. *)
Definition no_field_rule_data : dict :=
  [("rule_type", VStr "PII");
   ("conditions",
    VList [VDict [("operator", VStr "contains"); ("value", VStr "@")]])].

Definition no_value_rule_data : dict :=
  [("rule_type", VStr "PII");
   ("conditions",
    VList [VDict [("field", VStr "email"); ("operator", VStr "contains")]])].

(** Collaborators that answer at once. *)
Definition store_by_id (metadata : dict) : result value :=
  dict_getitem metadata "event_id".

(** A transformer whose [format_for_downstream] knows snowflake and no other
    target. *)
Definition snowflake_only (rule : dict) (target : string) : result dict :=
  if String.eqb target "snowflake"
  then format_for_downstream plain_repr rule target
  else raise (ValueError ("Unsupported target system: " ++ target)).

Definition put_nothing (event : dict) : result unit := ret tt.

(** * The services around the transformer *)

(** ** What can be raised, and what is asked of the outside *)

(** An exception in flight: one of the four classes above; one of a class
    of some library (a client error of the table, a decoding error), of which
    the code only ever asks whether [except ValueError] takes it; or the
    [HTTPException] of the API, whose detail is a text or the [str] of the
    exception it was made from. *)
Inductive failure : Type :=
| Raised (e : exn)
| External (class_name : string) (is_value_error : bool)
| HTTPException (status_code : Z) (detail : detail)
with detail : Type :=
| Text (s : string)
| StrOf (e : failure).

(** A request to a service, or a line printed. *)
Inductive call : Type :=
| PutItem (item : dict)
| BatchPutItem (item : dict)
| GetItem (key : dict)
| UpdateItem (key : dict) (update_expression : string)
    (expression_values expression_names : dict)
| DeleteItem (key : dict)
| Scan (params : dict)
| PutEvents (entry : dict)
| ReceiveMessage (queue_url : string)
| DeleteMessage (queue_url : string) (receipt_handle : value)
| HttpGet (url : string) (headers : dict)
| Print (text : string) (e : failure).

(** The readings of the clock one [store_metadata] takes, in order. *)
Record store_clock : Type := {
  at_timestamp : datetime;
  at_item_created : datetime;
  at_item_updated : datetime
}.

(** What the code is run against: the answers of the services, given the
    calls made so far, the functions of libraries it applies, and the
    settings it reads. *)
Record services : Type := {
  respond : list call -> call -> failure + value;
  json_loads : string -> failure + value;
  json_dumps : value -> string;
  render : value -> string;                      (* [repr] of a non-string *)
  hmac_sha256_hexdigest : string -> string -> string;
  compare_digest : string -> string -> failure + bool;
  EVENT_BUS_NAME : string;
  INBOUND_QUEUE_URL : string;
  OUTBOUND_QUEUE_URL : string;
  MONTE_CARLO_API_KEY : string;
  MONTE_CARLO_WEBHOOK_SECRET : string;
  transform_clock : list call -> clock;          (* the readings of the clock, *)
  storage_clock : list call -> store_clock       (* given the calls so far *)
}.

(** A computation that makes calls: from the calls made so far to what it
    returns or raises and the calls made by then. *)
Definition io (A : Type) : Type := list call -> (failure + A) * list call.

Definition io_ret {A : Type} (a : A) : io A := fun h => (inr a, h).
Definition io_raise {A : Type} (e : failure) : io A := fun h => (inl e, h).
Definition io_bind {A B : Type} (m : io A) (k : A -> io B) : io B :=
  fun h =>
    match m h with
    | (inl e, h') => (inl e, h')
    | (inr a, h') => k a h'
    end.

Notation "x <-- m ;; k" := (io_bind m (fun x => k))
  (at level 61, m at next level, right associativity).

(** A pure step inside a computation. *)
Definition lift {A : Type} (r : result A) : io A :=
  fun h =>
    match r with
    | inl e => (inl (Raised e), h)
    | inr a => (inr a, h)
    end.

Definition lift_outcome {A : Type} (r : failure + A) : io A := fun h => (r, h).

(** [try: body except Exception as e: handler(e)] *)
Definition try_except {A : Type} (body : io A) (handler : failure -> io A)
    : io A :=
  fun h =>
    match body h with
    | (inl e, h') => handler e h'
    | (inr a, h') => (inr a, h')
    end.

(** A request to a service: the call is made, then answered. *)
Definition request (env : services) (c : call) : io value :=
  fun h => (respond env h c, (h ++ [c])%list).

(** The calls made so far. *)
Definition history : io (list call) := fun h => (inr h, h).

(** [print(f"{text}{str(e)}")] *)
Definition print (text : string) (e : failure) : io unit :=
  fun h => (inr tt, (h ++ [Print text e])%list).

(** [if v:] *)
Definition py_truthy (v : value) : bool :=
  match v with
  | VNone => false
  | VBool b => b
  | VInt z => negb (Z.eqb z 0)
  | VFloat bits => negb (Z.eqb (Z.land bits (Z.ones 63)) 0)
  | VStr s => negb (String.eqb s "")
  | VList l => match l with [] => false | _ => true end
  | VDict d => match d with [] => false | _ => true end
  end.

(** [{**v}]: the items of a mapping. *)
Definition py_unpack (v : value) : result dict :=
  match v with
  | VDict d => ret d
  | _ => raise TypeError
  end.

(** ** DynamoDBStorage *)

Module DynamoDBStorage.
Section Storage.

Variable env : services.

Definition build_item (now : store_clock) (metadata : dict) : result dict :=
  event_id <- dict_getitem metadata "event_id" ;;
  ret [("event_id", event_id);
       ("event_type", dict_get "event_type" (VStr "unknown") metadata);
       ("timestamp",
        dict_get "timestamp" (VStr (isoformat (at_timestamp now))) metadata);
       ("source", dict_get "source" (VStr "unknown") metadata);
       ("tenant_id", dict_get "tenant_id" (VStr "default") metadata);
       ("payload", dict_get "payload" (VDict []) metadata);
       ("metadata", dict_get "metadata" (VDict []) metadata);
       ("created_at", VStr (isoformat (at_item_created now)));
       ("updated_at", VStr (isoformat (at_item_updated now)))].

Definition store_metadata (now : store_clock) (metadata : dict) : io value :=
  if negb (dict_mem "event_id" metadata)
  then io_raise (Raised (ValueError "Missing required field: event_id"))
  else
    item <-- lift (build_item now metadata) ;;
    _ <-- request env (PutItem item) ;;
    lift (dict_getitem item "event_id").

Definition get_metadata (event_id : value) : io value :=
  response <-- request env (GetItem [("event_id", event_id)]) ;;
  lift (py_get response "Item" VNone).

(** The state of the loop of [update_metadata]: the clauses, the values and
    the names. *)
Record update_parts : Type := {
  update_expressions : list string;
  expression_values : dict;
  expression_names : dict
}.

Definition immutable (key : string) : bool :=
  existsb (String.eqb key) ["event_id"; "created_at"].

Definition add_update (parts : update_parts) (key : string) (v : value)
    : update_parts :=
  {| update_expressions :=
       (update_expressions parts ++ [("#" ++ key ++ " = :" ++ key)%string])%list;
     expression_values := dict_set (":" ++ key) v (expression_values parts);
     expression_names := dict_set ("#" ++ key) (VStr key) (expression_names parts) |}.

Fixpoint collect_updates (updates : dict) (parts : update_parts) : update_parts :=
  match updates with
  | [] => parts
  | (key, v) :: rest =>
      if immutable key then collect_updates rest parts
      else collect_updates rest (add_update parts key v)
  end.

Definition update_metadata (now : datetime) (event_id : value) (updates : dict)
    : io bool :=
  let parts :=
    collect_updates updates
      {| update_expressions := []; expression_values := []; expression_names := [] |} in
  match update_expressions parts with
  | [] => io_ret false
  | _ :: _ =>
      let parts := add_update parts "updated_at" (VStr (isoformat now)) in
      try_except
        (_ <-- request env (UpdateItem [("event_id", event_id)]
                          ("SET " ++ String.concat ", " (update_expressions parts))
                          (expression_values parts)
                          (expression_names parts)) ;;
         io_ret true)
        (fun e => _ <-- print "Error updating metadata: " e ;; io_ret false)
  end.

Definition delete_metadata (event_id : value) : io bool :=
  try_except
    (_ <-- request env (DeleteItem [("event_id", event_id)]) ;; io_ret true)
    (fun e => _ <-- print "Error deleting metadata: " e ;; io_ret false).

(** The loop of [batch_store_metadata]; [now i] is the clock at item [i]. *)
Fixpoint batch_loop (now : nat -> store_clock) (i : nat)
    (metadata_list : list dict) (stored_ids : list value) : io (list value) :=
  match metadata_list with
  | [] => io_ret stored_ids
  | metadata :: rest =>
      if negb (dict_mem "event_id" metadata)
      then batch_loop now (S i) rest stored_ids
      else
        item <-- lift (build_item (now i) metadata) ;;
        _ <-- request env (BatchPutItem item) ;;
        event_id <-- lift (dict_getitem item "event_id") ;;
        batch_loop now (S i) rest (stored_ids ++ [event_id])
  end.

Definition batch_store_metadata (now : nat -> store_clock)
    (metadata_list : list dict) : io (list value) :=
  batch_loop now 0 metadata_list [].

(** The state of [query_metadata] as it reads its filters: the clauses and
    the values. *)
Record filter_parts : Type := {
  filter_expressions : list string;
  filter_values : dict
}.

(** [if x: filter_expressions.append(clause); expression_values[placeholder]
    = x], for an optional string [x]. *)
Definition add_filter (parts : filter_parts) (clause placeholder : string)
    (x : option string) : filter_parts :=
  match x with
  | Some text =>
      if py_truthy (VStr text)
      then {| filter_expressions := (filter_expressions parts ++ [clause])%list;
              filter_values := dict_set placeholder (VStr text) (filter_values parts) |}
      else parts
  | None => parts
  end.

Definition query_params (event_type source tenant_id start_time end_time
    : option string) (limit : Z) : dict :=
  let parts := {| filter_expressions := []; filter_values := [] |} in
  let expression_names : dict := [] in
  let parts := add_filter parts "event_type = :event_type" ":event_type" event_type in
  let parts := add_filter parts "source = :source" ":source" source in
  let parts := add_filter parts "tenant_id = :tenant_id" ":tenant_id" tenant_id in
  let parts := add_filter parts "timestamp >= :start_time" ":start_time" start_time in
  let parts := add_filter parts "timestamp <= :end_time" ":end_time" end_time in
  let params := [("Limit", VInt limit)] in
  match filter_expressions parts with
  | [] => params
  | _ :: _ =>
      let params :=
        dict_set "FilterExpression"
          (VStr (String.concat " AND " (filter_expressions parts))) params in
      let params :=
        dict_set "ExpressionAttributeValues" (VDict (filter_values parts)) params in
      if py_truthy (VDict expression_names)
      then dict_set "ExpressionAttributeNames" (VDict expression_names) params
      else params
  end.

Definition query_metadata (event_type source tenant_id start_time end_time
    : option string) (limit : Z) : io value :=
  response <-- request env
                 (Scan (query_params event_type source tenant_id start_time
                          end_time limit)) ;;
  lift (py_get response "Items" (VList [])).

End Storage.
End DynamoDBStorage.

(** ** MonteCarloClient *)

Module MonteCarloClient.

Definition required_fields : list string := ["id"; "type"; "timestamp"; "data"].

(** The loop [for field in required_fields: if field not in payload: raise
    ValueError(f"Missing required field: {field}")]. *)
Fixpoint require_fields (fields : list string) (payload : value) : result unit :=
  match fields with
  | [] => ret tt
  | field :: rest =>
      present <- py_in field payload ;;
      if negb present
      then raise (ValueError ("Missing required field: " ++ field))
      else require_fields rest payload
  end.

Definition parse_webhook_event (payload : value) : result dict :=
  _ <- require_fields required_fields payload ;;
  id <- py_getitem payload "id" ;;
  type <- py_getitem payload "type" ;;
  timestamp <- py_getitem payload "timestamp" ;;
  data <- py_getitem payload "data" ;;
  ret [("event_id", id);
       ("event_type", type);
       ("timestamp", timestamp);
       ("source", VStr "monte_carlo");
       ("payload", data)].

Section Client.

Variable env : services.

Definition base_url : string := "https://api.getmontecarlo.com/v1".

Definition verify_webhook_signature (payload signature : string) : io bool :=
  if negb (py_truthy (VStr (MONTE_CARLO_WEBHOOK_SECRET env)))
  then io_ret true
  else
    let expected_signature :=
      hmac_sha256_hexdigest env (MONTE_CARLO_WEBHOOK_SECRET env) payload in
    lift_outcome (compare_digest env signature expected_signature).

Definition headers : dict :=
  [("Authorization", VStr ("Bearer " ++ MONTE_CARLO_API_KEY env));
   ("Content-Type", VStr "application/json")].

(** [requests.get], [raise_for_status] and [json] are one request: the
    decoded answer, or what any of the three raised. *)
Definition get_incident_details (incident_id : value) : io value :=
  request env
    (HttpGet (base_url ++ "/incidents/" ++ py_str (render env) incident_id)
       headers).

Definition get_affected_assets (incident_id : value) : io value :=
  request env
    (HttpGet (base_url ++ "/incidents/" ++ py_str (render env) incident_id
              ++ "/assets")
       headers).

Definition enrich_incident_data (incident_data : value) : io dict :=
  incident_id <-- lift (py_getitem incident_data "id") ;;
  incident_details <-- get_incident_details incident_id ;;
  affected_assets <-- get_affected_assets incident_id ;;
  items <-- lift (py_unpack incident_data) ;;
  enrichment_timestamp <-- lift (py_get incident_details "updated_at" VNone) ;;
  io_ret (dict_set "metadata"
            (VDict [("source", VStr "monte_carlo");
                    ("enrichment_timestamp", enrichment_timestamp)])
            (dict_set "affected_assets" affected_assets
               (dict_set "details" incident_details items))).

End Client.
End MonteCarloClient.

(** ** InboundProcessor *)

Module InboundProcessor.
Section Processor.

Variable env : services.

Definition _publish_to_eventbridge (event : dict) : io unit :=
  try_except
    (detail_type <-- lift (dict_getitem event "event_type") ;;
     _ <-- request env
             (PutEvents [("Source", VStr "atlan.lily");
                         ("DetailType", detail_type);
                         ("Detail", VStr (json_dumps env (VDict event)));
                         ("EventBusName", VStr (EVENT_BUS_NAME env))]) ;;
     io_ret tt)
    (fun e => _ <-- print "Error publishing to EventBridge: " e ;; io_raise e).

Definition process_webhook (now : store_clock) (payload signature : string)
    : io dict :=
  verified <-- MonteCarloClient.verify_webhook_signature env payload signature ;;
  if negb verified
  then io_raise (Raised (ValueError "Invalid webhook signature"))
  else
    event_data <-- lift_outcome (json_loads env payload) ;;
    parsed_event <-- lift (MonteCarloClient.parse_webhook_event event_data) ;;
    incident_data <-- lift (dict_getitem parsed_event "payload") ;;
    enriched_data <-- MonteCarloClient.enrich_incident_data env incident_data ;;
    event_id <-- DynamoDBStorage.store_metadata env now
                   (dict_set "payload" (VDict enriched_data) parsed_event) ;;
    _ <-- _publish_to_eventbridge parsed_event ;;
    io_ret [("event_id", event_id); ("status", VStr "processed")].

End Processor.
End InboundProcessor.

(** ** OutboundProcessor, with its services *)

Module OutboundProcessor.
Section Processor.

Variable env : services.

(** The lines [_format_for_downstream_systems] prints. *)
Fixpoint print_all (lines : list (string * exn)) : io unit :=
  match lines with
  | [] => io_ret tt
  | (text, e) :: rest => _ <-- print text (Raised e) ;; print_all rest
  end.

Definition _publish_to_eventbridge (event : dict) : io unit :=
  try_except
    (_ <-- request env
             (PutEvents [("Source", VStr "atlan.lily");
                         ("DetailType", VStr "security_rule");
                         ("Detail", VStr (json_dumps env (VDict event)));
                         ("EventBusName", VStr (EVENT_BUS_NAME env))]) ;;
     io_ret tt)
    (fun e => _ <-- print "Error publishing to EventBridge: " e ;; io_raise e).

Definition process_security_event (now : clock) (stored : store_clock)
    (event : dict) : io dict :=
  transformed_rule <-- lift (transform_security_rule (render env) now event) ;;
  valid <-- lift (validate_rule transformed_rule) ;;
  if negb valid
  then io_raise (Raised (ValueError "Invalid security rule"))
  else
    rule_id <-- lift (dict_getitem transformed_rule "rule_id") ;;
    metadata <-- lift (dict_getitem transformed_rule "metadata") ;;
    created_at <-- lift (py_getitem metadata "created_at") ;;
    event_id <-- DynamoDBStorage.store_metadata env stored
                   [("event_id", rule_id);
                    ("event_type", VStr "security_rule");
                    ("timestamp", created_at);
                    ("source", VStr "atlan");
                    ("payload", VDict transformed_rule)] ;;
    let downstream := _format_for_downstream_systems (render env) transformed_rule in
    _ <-- print_all (printed downstream) ;;
    _ <-- _publish_to_eventbridge transformed_rule ;;
    io_ret [("event_id", event_id);
            ("status", VStr "processed");
            ("downstream_rules", VDict (downstream_rules downstream))].

(** [process_security_event] on what [json.loads] returned, a mapping or
    not. *)
Definition process_body (now : clock) (stored : store_clock) (body : value)
    : io dict :=
  match body with
  | VDict event => process_security_event now stored event
  | _ =>
      present <-- lift (py_in "rule_type" body) ;;
      if negb present
      then io_raise (Raised (ValueError "Missing required field: rule_type"))
      else _ <-- lift (py_getitem body "rule_type") ;; io_raise (Raised TypeError)
  end.

(** [json.loads(v)] *)
Definition loads (v : value) : io value :=
  match v with
  | VStr s => lift_outcome (json_loads env s)
  | _ => io_raise (Raised TypeError)
  end.

(** [print(f"{text}{str(e)}")] of an error of the message being processed.
    The text of such an error may carry text of the message itself (the rule
    type it names), and standard output raises on a text it cannot encode:
    standard output is asked like a service, and when it raises nothing is
    printed and [print] raises the same.  Elsewhere what is printed is the
    exception of a client, or an error this [print] has already taken. *)
Definition print_checked (text : string) (e : failure) : io unit :=
  fun h =>
    match respond env h (Print text e) with
    | inl refused => (inl refused, h)
    | inr _ => (inr tt, (h ++ [Print text e])%list)
    end.

Definition process_sqs_message (now : clock) (stored : store_clock)
    (message : value) : io dict :=
  try_except
    (text <-- lift (py_getitem message "Body") ;;
     body <-- loads text ;;
     result <-- process_body now stored body ;;
     receipt_handle <-- lift (py_getitem message "ReceiptHandle") ;;
     _ <-- request env (DeleteMessage (OUTBOUND_QUEUE_URL env) receipt_handle) ;;
     io_ret result)
    (fun e =>
       _ <-- print_checked "Error processing SQS message: " e ;; io_raise e).

(** The [for] loop of [start_processing] over the messages received. *)
Fixpoint process_messages (messages : list value) : io unit :=
  match messages with
  | [] => io_ret tt
  | message :: rest =>
      _ <-- try_except
              (h <-- history ;;
               _ <-- process_sqs_message (transform_clock env h)
                       (storage_clock env h) message ;;
               io_ret tt)
              (fun e => print "Error processing message: " e) ;;
      process_messages rest
  end.



End Processor.
End OutboundProcessor.

(** ** The API *)

Module Api.
Section Endpoints.

Variable env : services.

(** [except ValueError] takes it. *)
Definition is_ValueError (e : failure) : bool :=
  match e with
  | Raised (ValueError _) => true
  | External _ is_value_error => is_value_error
  | _ => false
  end.

(** The two handlers the endpoints share: [except ValueError as e: raise
    HTTPException(400, str(e))] and [except Exception as e: raise
    HTTPException(500, str(e))]. *)
Definition handlers {A : Type} (e : failure) : io A :=
  if is_ValueError e then io_raise (HTTPException 400 (StrOf e))
  else io_raise (HTTPException 500 (StrOf e)).

(** [security_transformer.format_for_downstream(transformed_rule)]: the
    method takes a rule and a target, the call gives it the rule alone. *)
Definition format_without_target (transformed_rule : dict) : io value :=
  io_raise (Raised TypeError).

Definition get_event (event_id : value) : io value :=
  event <-- DynamoDBStorage.get_metadata env event_id ;;
  if negb (py_truthy event)
  then io_raise (HTTPException 404 (Text "Event not found"))
  else io_ret event.

Definition create_security_rule (now : clock) (stored : store_clock)
    (rule : dict) : io dict :=
  try_except
    (transformed_rule <-- lift (transform_security_rule (render env) now rule) ;;
     valid <-- lift (validate_rule transformed_rule) ;;
     if negb valid
     then io_raise (HTTPException 400 (Text "Invalid rule format"))
     else
       rule_id <-- lift (dict_getitem transformed_rule "rule_id") ;;
       metadata <-- lift (dict_getitem transformed_rule "metadata") ;;
       created_at <-- lift (py_getitem metadata "created_at") ;;
       _ <-- DynamoDBStorage.store_metadata env stored
               [("event_id", rule_id);
                ("event_type", VStr "security_rule");
                ("timestamp", created_at);
                ("source", VStr "atlan");
                ("payload", VDict transformed_rule)] ;;
       downstream_rules <-- format_without_target transformed_rule ;;
       rule_id <-- lift (dict_getitem transformed_rule "rule_id") ;;
       io_ret [("rule_id", rule_id);
               ("status", VStr "created");
               ("downstream_rules", downstream_rules)])
    handlers.

Definition update_security_rule (now : clock) (updated stored : datetime)
    (rule_id : value) (rule : dict) : io dict :=
  try_except
    (existing_rule <-- DynamoDBStorage.get_metadata env rule_id ;;
     if negb (py_truthy existing_rule)
     then io_raise (HTTPException 404 (Text "Rule not found"))
     else
       payload <-- lift (py_getitem existing_rule "payload") ;;
       items <-- lift (py_unpack payload) ;;
       transformed_rule <--
         lift (update_transform (render env) now items rule) ;;
       valid <-- lift (validate_rule transformed_rule) ;;
       if negb valid
       then io_raise (HTTPException 400 (Text "Invalid rule format"))
       else
         _ <-- DynamoDBStorage.update_metadata env stored rule_id
                 [("payload", VDict transformed_rule);
                  ("updated_at", VStr (isoformat updated))] ;;
         downstream_rules <-- format_without_target transformed_rule ;;
         io_ret [("rule_id", rule_id);
                 ("status", VStr "updated");
                 ("downstream_rules", downstream_rules)])
    handlers.

Definition delete_security_rule (rule_id : value) : io dict :=
  try_except
    (deleted <-- DynamoDBStorage.delete_metadata env rule_id ;;
     if negb deleted
     then io_raise (HTTPException 404 (Text "Rule not found"))
     else io_ret [("rule_id", rule_id); ("status", VStr "deleted")])
    (fun e => io_raise (HTTPException 500 (StrOf e))).

Definition query_security_rules (rule_type asset_id asset_type : option string)
    (limit : Z) : io dict :=
  try_except
    (rules <-- DynamoDBStorage.query_metadata env (Some "security_rule")
                 (Some "atlan") None None None limit ;;
     items <-- lift (py_iter rules) ;;
     payloads <-- lift (comprehension (fun rule => py_getitem rule "payload") items) ;;
     io_ret [("rules", VList payloads)])
    (fun e => io_raise (HTTPException 500 (StrOf e))).

End Endpoints.
End Api.

(** ** What the transformer accepts *)

(** The three tests a raw rule has to pass. *)
Definition accepted (rule_data : dict) : bool :=
  is_supported (dict_get "rule_type" VNone rule_data) &&
  well_formed_conditions rule_data &&
  well_formed_actions rule_data.

(** ** What a query filters on *)

(** The five filters [query_metadata] takes, each with its clause and its
    placeholder, in the order the code looks at them. *)
Definition scan_filters (event_type source tenant_id start_time end_time
    : option string) : list (string * string * option string) :=
  [("event_type = :event_type", ":event_type", event_type);
   ("source = :source", ":source", source);
   ("tenant_id = :tenant_id", ":tenant_id", tenant_id);
   ("timestamp >= :start_time", ":start_time", start_time);
   ("timestamp <= :end_time", ":end_time", end_time)].

(** Those of them that count: the ones given as a string that is not
    empty. *)
Definition effective (filters : list (string * string * option string))
    : list (string * string * string) :=
  flat_map (fun f =>
              match snd f with
              | Some text =>
                  if String.eqb text "" then []
                  else [(fst (fst f), snd (fst f), text)]
              | None => []
              end) filters.

(** Services with a webhook secret, and a comparison that raises on a
    signature that is not ASCII. *)
Definition is_ascii (s : string) : bool :=
  forallb (fun c => Nat.ltb (nat_of_ascii c) 128) (list_ascii_of_string s).

Definition signing (digest : string) : services :=
  {| respond := fun _ _ => inr (VDict []);
     json_loads := fun _ => inr VNone;
     json_dumps := fun _ => "";
     render := fun _ => "";
     hmac_sha256_hexdigest := fun _ _ => digest;
     compare_digest := fun a b =>
       if is_ascii a && is_ascii b then inr (String.eqb a b)
       else inl (Raised TypeError);
     EVENT_BUS_NAME := "atlan-lily-bus";
     INBOUND_QUEUE_URL := "inbound";
     OUTBOUND_QUEUE_URL := "outbound";
     MONTE_CARLO_API_KEY := "";
     MONTE_CARLO_WEBHOOK_SECRET := "s3cret";
     transform_clock := fun _ =>
       {| at_rule_id := {| strftime_YmdHMS := ""; isoformat := "" |};
          at_created := {| strftime_YmdHMS := ""; isoformat := "" |};
          at_updated := {| strftime_YmdHMS := ""; isoformat := "" |} |};
     storage_clock := fun _ =>
       {| at_timestamp := {| strftime_YmdHMS := ""; isoformat := "" |};
          at_item_created := {| strftime_YmdHMS := ""; isoformat := "" |};
          at_item_updated := {| strftime_YmdHMS := ""; isoformat := "" |} |} |}.

(** ** What a computation asks for *)

(** Every call [m] makes, from any point on, passes the test [p]. *)
Definition only_calls {A : Type} (p : call -> bool) (m : io A) : Prop :=
  forall h, exists calls,
    snd (m h) = (h ++ calls)%list /\ forallb p calls = true.

(** [m] raises nothing. *)
Definition returns {A : Type} (m : io A) : Prop :=
  forall h, exists a h', m h = (inr a, h').

Definition not_delete_message (c : call) : bool :=
  match c with
  | DeleteMessage _ _ => false
  | _ => true
  end.

(** The message was processed from the calls [h] on: its body was decoded
    and [process_security_event] returned [result] on it, having made the
    [calls], none of them a [delete_message]. *)
Definition processed (env : services) (now : clock) (stored : store_clock)
    (message : value) (h : list call) (result : dict) (calls : list call)
    : Prop :=
  exists text body,
    py_getitem message "Body" = inr text /\
    OutboundProcessor.loads env text h = (inr body, h) /\
    OutboundProcessor.process_body env now stored body h
      = (inr result, (h ++ calls)%list) /\
    forallb not_delete_message calls = true.

(** [m] returns nothing: it always ends in an [HTTPException] whose status
    is 400 or 500. *)
Definition answers_400_or_500 {A : Type} (m : io A) : Prop :=
  forall h, exists status detail h',
    m h = (inl (HTTPException status detail), h') /\
    (status = 400%Z \/ status = 500%Z).

(** [m] raises, whatever it is run against. *)
Definition always_raises {A : Type} (m : io A) : Prop :=
  forall h, exists e h', m h = (inl e, h').

(** ** What the validator decides *)

(** The four checks of [validate_rule], as one test of the rule. *)
Definition valid_shape (rule : dict) : bool :=
  forallb (fun field => dict_mem field rule) required_fields &&
  is_supported (dict_get "rule_type" VNone rule) &&
  sequence_of (has_keys condition_keys) (dict_get "conditions" VNone rule) &&
  sequence_of (has_keys ["type"]) (dict_get "actions" VNone rule).

(** ** More sample runs *)

(** A raw rule that asks for a placement. *)
Definition placed_rule_data : dict :=
  [("rule_id", VStr "r7");
   ("rule_type", VStr "GDPR");
   ("database", VStr "SALES");
   ("schema", VStr "EU");
   ("table", VStr "customers");
   ("catalog", VStr "main");
   ("conditions",
    VList [VDict [("field", VStr "country"); ("operator", VStr "equals");
                  ("value", VStr "DE")]])].

(** A raw rule whose action has no [type]. *)
Definition no_type_rule_data : dict :=
  [("rule_type", VStr "PII");
   ("actions", VList [VDict [("parameters", VDict [])]])].

(** A rule whose conditions are no sequence. *)
Definition untyped_rule : dict :=
  [("rule_type", VStr "PII"); ("asset_id", VStr "a1");
   ("conditions", VNone); ("actions", VList [])].

(** The same with a rule type that is not supported, and one with no
    [asset_id] and actions that are no sequence. *)
Definition untyped_other_rule : dict :=
  [("rule_type", VStr "HIPAA"); ("asset_id", VStr "a1");
   ("conditions", VNone); ("actions", VList [])].

Definition untyped_partial_rule : dict :=
  [("rule_type", VStr "PII"); ("conditions", VList []); ("actions", VInt 3)].

(** A webhook payload, decoded. *)
Definition incident_event : value :=
  VDict [("id", VStr "evt_1");
         ("type", VStr "incident_created");
         ("timestamp", VStr "2024-03-15T10:00:00Z");
         ("data", VDict [("id", VStr "inc_123"); ("severity", VStr "high");
                         ("details", VStr "none yet")])].

(** Services that take every request and answer with an empty mapping, and
    a decoder that reads every text as the payload above. *)
Definition quiet : services :=
  {| respond := fun _ _ => inr (VDict []);
     json_loads := fun _ => inr incident_event;
     json_dumps := fun _ => "";
     render := plain_repr;
     hmac_sha256_hexdigest := fun _ _ => "";
     compare_digest := fun a b => inr (String.eqb a b);
     EVENT_BUS_NAME := "atlan-lily-bus";
     INBOUND_QUEUE_URL := "inbound";
     OUTBOUND_QUEUE_URL := "outbound";
     MONTE_CARLO_API_KEY := "";
     MONTE_CARLO_WEBHOOK_SECRET := "";
     transform_clock := fun _ => noon;
     storage_clock := fun _ =>
       {| at_timestamp := at_rule_id noon;
          at_item_created := at_created noon;
          at_item_updated := at_updated noon |} |}.

(** Services whose table refuses every request. *)
Definition refusing : services :=
  {| respond := fun _ _ => inl (External "ClientError" false);
     json_loads := json_loads quiet;
     json_dumps := json_dumps quiet;
     render := plain_repr;
     hmac_sha256_hexdigest := hmac_sha256_hexdigest quiet;
     compare_digest := compare_digest quiet;
     EVENT_BUS_NAME := "atlan-lily-bus";
     INBOUND_QUEUE_URL := "inbound";
     OUTBOUND_QUEUE_URL := "outbound";
     MONTE_CARLO_API_KEY := "";
     MONTE_CARLO_WEBHOOK_SECRET := "";
     transform_clock := fun _ => noon;
     storage_clock := fun _ =>
       {| at_timestamp := at_rule_id noon;
          at_item_created := at_created noon;
          at_item_updated := at_updated noon |} |}.

(** A queue whose messages all decode to the rule on emails, with services
    that take every request; the same with a standard output that cannot
    encode what it is given; and a queue that refuses to delete. *)
Definition rule_queue : services :=
  {| respond := respond quiet;
     json_loads := fun _ => inr (VDict email_rule_data);
     json_dumps := json_dumps quiet;
     render := plain_repr;
     hmac_sha256_hexdigest := hmac_sha256_hexdigest quiet;
     compare_digest := compare_digest quiet;
     EVENT_BUS_NAME := "atlan-lily-bus";
     INBOUND_QUEUE_URL := "inbound";
     OUTBOUND_QUEUE_URL := "outbound";
     MONTE_CARLO_API_KEY := "";
     MONTE_CARLO_WEBHOOK_SECRET := "";
     transform_clock := transform_clock quiet;
     storage_clock := storage_clock quiet |}.

Definition mute_queue : services :=
  {| respond := fun _ c =>
       match c with
       | Print _ _ => inl (External "UnicodeEncodeError" true)
       | _ => inr (VDict [])
       end;
     json_loads := json_loads quiet;
     json_dumps := json_dumps quiet;
     render := plain_repr;
     hmac_sha256_hexdigest := hmac_sha256_hexdigest quiet;
     compare_digest := compare_digest quiet;
     EVENT_BUS_NAME := "atlan-lily-bus";
     INBOUND_QUEUE_URL := "inbound";
     OUTBOUND_QUEUE_URL := "outbound";
     MONTE_CARLO_API_KEY := "";
     MONTE_CARLO_WEBHOOK_SECRET := "";
     transform_clock := transform_clock quiet;
     storage_clock := storage_clock quiet |}.

Definition keeping_queue : services :=
  {| respond := fun _ c =>
       match c with
       | DeleteMessage _ _ => inl (External "ClientError" false)
       | _ => inr (VDict [])
       end;
     json_loads := json_loads rule_queue;
     json_dumps := json_dumps quiet;
     render := plain_repr;
     hmac_sha256_hexdigest := hmac_sha256_hexdigest quiet;
     compare_digest := compare_digest quiet;
     EVENT_BUS_NAME := "atlan-lily-bus";
     INBOUND_QUEUE_URL := "inbound";
     OUTBOUND_QUEUE_URL := "outbound";
     MONTE_CARLO_API_KEY := "";
     MONTE_CARLO_WEBHOOK_SECRET := "";
     transform_clock := transform_clock quiet;
     storage_clock := storage_clock quiet |}.

(** A message of the queue. *)
Definition queued_message : value :=
  VDict [("Body", VStr "{}"); ("ReceiptHandle", VStr "r1")].

Definition morning : datetime :=
  {| strftime_YmdHMS := "20240317080000"; isoformat := "2024-03-17T08:00:00" |}.

(** ** The result monad *)

Lemma bind_inr {A B : Type} (m : result A) (k : A -> result B) (b : B) :
  bind m k = inr b -> exists a, m = inr a /\ k a = inr b.
Proof.
  destruct m as [e | a]; simpl; intros H.
  - discriminate.
  - exists a. split; [reflexivity | exact H].
Qed.

Ltac bind_inv H :=
  let a := fresh "a" in
  let Ha := fresh "Ha" in
  apply bind_inr in H; destruct H as [a [Ha H]].

(** ** Dictionaries *)

Lemma dict_lookup_set_other (k k' : string) (v : value) (d : dict) :
  k <> k' -> dict_lookup k (dict_set k' v d) = dict_lookup k d.
Proof.
  intros Hne. induction d as [| [k0 v0] d IH]; simpl.
  - destruct (String.eqb_spec k k'); [contradiction | reflexivity].
  - destruct (String.eqb_spec k' k0) as [-> | Hk0]; simpl.
    + destruct (String.eqb_spec k k0); [contradiction | reflexivity].
    + destruct (String.eqb_spec k k0); [reflexivity | exact IH].
Qed.

Lemma dict_lookup_set_same (k : string) (v : value) (d : dict) :
  dict_lookup k (dict_set k v d) = Some v.
Proof.
  induction d as [| [k0 v0] d IH]; simpl.
  - now rewrite String.eqb_refl.
  - destruct (String.eqb_spec k k0) as [-> | Hk0]; simpl.
    + now rewrite String.eqb_refl.
    + destruct (String.eqb_spec k k0); [contradiction | exact IH].
Qed.

Lemma dict_lookup_In (k : string) (d : dict) :
  dict_lookup k d = None -> forall v, ~ In (k, v) d.
Proof.
  induction d as [| [k0 v0] d IH]; simpl; intros H v Hin.
  - exact Hin.
  - destruct Hin as [Heq | Hin].
    + inversion Heq; subst. now rewrite String.eqb_refl in H.
    + destruct (String.eqb k k0); [discriminate | exact (IH H v Hin)].
Qed.

(** An incoming mapping without the key [k] leaves the stored value of [k]
    as it was. *)
Lemma dict_lookup_merge_absent (k : string) (a b : dict) :
  dict_lookup k b = None -> dict_lookup k (dict_merge a b) = dict_lookup k a.
Proof.
  unfold dict_merge. revert a.
  induction b as [| [k0 v0] b IH]; simpl; intros a H.
  - reflexivity.
  - destruct (String.eqb_spec k k0) as [-> | Hne]; [discriminate |].
    rewrite (IH _ H). now apply dict_lookup_set_other.
Qed.

(** ** Loops *)

Lemma for_append_inr (body : value -> result value) (xs acc l : list value) :
  for_append body xs acc = inr l ->
  exists ys, l = (acc ++ ys)%list /\ Forall2 (fun x y => body x = inr y) xs ys.
Proof.
  revert acc. induction xs as [| x xs IH]; simpl; intros acc H.
  - exists []. inversion H. rewrite app_nil_r. split; constructor.
  - bind_inv H. destruct (IH _ H) as [ys [-> HF]].
    exists (a :: ys). rewrite <- app_assoc. split; [reflexivity |].
    constructor; assumption.
Qed.

Lemma for_append_Forall2 (body : value -> result value) (xs ys acc : list value) :
  Forall2 (fun x y => body x = inr y) xs ys ->
  for_append body xs acc = inr (acc ++ ys)%list.
Proof.
  intros HF. revert acc. induction HF as [| x y xs ys Hx _ IH]; simpl; intros acc.
  - now rewrite app_nil_r.
  - rewrite Hx. simpl. rewrite IH, <- app_assoc. reflexivity.
Qed.

Lemma comprehension_Forall2 (body : value -> result value) (xs ys : list value) :
  Forall2 (fun x y => body x = inr y) xs ys ->
  comprehension body xs = inr ys.
Proof.
  induction 1 as [| x y xs ys Hx _ IH]; simpl.
  - reflexivity.
  - rewrite Hx. simpl. rewrite IH. reflexivity.
Qed.

Lemma for_all_true (check : value -> result bool) (xs : list value) :
  Forall (fun x => check x = inr true) xs -> for_all check xs = inr true.
Proof.
  induction 1 as [| x xs Hx _ IH]; simpl.
  - reflexivity.
  - rewrite Hx. simpl. exact IH.
Qed.

(** On mappings the check never raises, so the loop returns. *)
Lemma for_all_total (check : value -> result bool) (xs : list value) :
  Forall (fun x => exists b, check x = inr b) xs ->
  exists b, for_all check xs = inr b.
Proof.
  induction 1 as [| x xs [b Hx] _ [b' IH]]; simpl.
  - now exists true.
  - rewrite Hx. simpl. destruct b; simpl.
    + now exists b'.
    + now exists false.
Qed.

(** ** Conditions and actions, one at a time *)

Lemma all_in_dict (ks : list string) (d : dict) :
  all_in ks (VDict d) = inr (forallb (fun k => dict_mem k d) ks).
Proof.
  induction ks as [| k ks IH]; simpl.
  - reflexivity.
  - destruct (dict_mem k d); simpl; [exact IH | reflexivity].
Qed.

Lemma dict_mem_lookup (k : string) (d : dict) :
  dict_mem k d = true -> exists v, dict_lookup k d = Some v.
Proof.
  unfold dict_mem. destruct (dict_lookup k d) as [v |]; intros H.
  - now exists v.
  - discriminate.
Qed.

Lemma transform_condition_inr (raw c : value) :
  transform_condition raw = inr c -> transforms_condition raw c.
Proof.
  unfold transform_condition. intros H. bind_inv H.
  destruct a; simpl in H; [| discriminate].
  destruct raw as [| | | | s | l | d]; simpl in H; try discriminate.
  unfold dict_getitem in H.
  destruct (dict_lookup "field" d) as [f |] eqn:Hf; simpl in H; [| discriminate].
  destruct (dict_lookup "operator" d) as [o |] eqn:Ho; simpl in H; [| discriminate].
  destruct (dict_lookup "value" d) as [v |] eqn:Hv; simpl in H; [| discriminate].
  inversion H. exists d, f, o, v. repeat split; assumption.
Qed.

Lemma transform_condition_dict (d : dict) :
  (has_keys condition_keys (VDict d) = true /\
   exists c, transform_condition (VDict d) = inr c) \/
  (has_keys condition_keys (VDict d) = false /\
   transform_condition (VDict d) = inl (ValueError "Invalid condition format")).
Proof.
  unfold transform_condition. rewrite all_in_dict. simpl.
  destruct (dict_mem "field" d) eqn:Hf; simpl;
    [| right; split; reflexivity].
  destruct (dict_mem "operator" d) eqn:Ho; simpl;
    [| right; split; reflexivity].
  destruct (dict_mem "value" d) eqn:Hv; simpl;
    [| right; split; reflexivity].
  left. split; [reflexivity |].
  apply dict_mem_lookup in Hf, Ho, Hv.
  destruct Hf as [f Hf], Ho as [o Ho], Hv as [v Hv].
  unfold dict_getitem. rewrite Hf, Ho, Hv. simpl. eauto.
Qed.

Lemma transform_action_inr (raw a : value) :
  transform_action raw = inr a -> transforms_action raw a.
Proof.
  unfold transform_action. intros H. bind_inv H.
  destruct a0; simpl in H; [| discriminate].
  destruct raw as [| | | | s | l | d]; simpl in H; try discriminate.
  unfold dict_getitem in H.
  destruct (dict_lookup "type" d) as [t |] eqn:Ht; simpl in H; [| discriminate].
  inversion H. exists d, t. repeat split; assumption.
Qed.

Lemma transform_action_dict (d : dict) :
  (has_keys ["type"] (VDict d) = true /\
   exists a, transform_action (VDict d) = inr a) \/
  (has_keys ["type"] (VDict d) = false /\
   transform_action (VDict d) = inl (ValueError "Invalid action format")).
Proof.
  unfold transform_action. simpl.
  destruct (dict_mem "type" d) eqn:Ht; simpl;
    [| right; split; reflexivity].
  left. split; [reflexivity |].
  apply dict_mem_lookup in Ht. destruct Ht as [t Ht].
  unfold dict_getitem. rewrite Ht. simpl. eauto.
Qed.

(** A sequence of well-formed items goes through the loop. *)
Lemma for_append_well_formed (ks : list string) (body : value -> result value)
    (xs acc : list value) :
  (forall d, has_keys ks (VDict d) = true -> exists y, body (VDict d) = inr y) ->
  forallb (has_keys ks) xs = true ->
  exists l, for_append body xs acc = inr l.
Proof.
  intros Hbody. revert acc.
  induction xs as [| x xs IH]; simpl; intros acc Hxs.
  - now exists acc.
  - apply andb_true_iff in Hxs. destruct Hxs as [Hx Hxs].
    destruct x as [| | | | s | l | d]; try discriminate.
    destruct (Hbody d Hx) as [y Hy]. rewrite Hy. simpl. now apply IH.
Qed.

(** A sequence of mappings with a malformed one stops the loop with the
    loop's own error. *)
Lemma for_append_malformed (ks : list string) (body : value -> result value)
    (e : exn) (xs acc : list value) :
  (forall d, (has_keys ks (VDict d) = true /\ exists y, body (VDict d) = inr y) \/
             (has_keys ks (VDict d) = false /\ body (VDict d) = inl e)) ->
  forallb is_dict xs = true ->
  existsb (fun x => negb (has_keys ks x)) xs = true ->
  for_append body xs acc = inl e.
Proof.
  intros Hbody. revert acc.
  induction xs as [| x xs IH]; simpl; intros acc Hd Hbad.
  - discriminate.
  - apply andb_true_iff in Hd. destruct Hd as [Hx Hd].
    destruct x as [| | | | s | l | d]; try discriminate.
    destruct (Hbody d) as [[Hk [y Hy]] | [Hk He]].
    + rewrite Hy. simpl. apply IH; [exact Hd |].
      rewrite Hk in Hbad. exact Hbad.
    + rewrite He. reflexivity.
Qed.

(** ** The transformer *)



Section Properties.

Variable repr : value -> string.

Lemma transform_inr (now : clock) (rule_data rule : dict) :
  transform_security_rule repr now rule_data = inr rule ->
  exists rule_type raw_conditions conditions raw_actions actions,
    dict_lookup "rule_type" rule_data = Some rule_type /\
    is_supported rule_type = true /\
    py_iter (dict_get "conditions" (VList []) rule_data) = inr raw_conditions /\
    Forall2 transforms_condition raw_conditions conditions /\
    py_iter (dict_get "actions" (VList []) rule_data) = inr raw_actions /\
    Forall2 transforms_action raw_actions actions /\
    rule = transformed now rule_data rule_type conditions actions.
Proof.
  unfold transform_security_rule. intros H.
  destruct (dict_lookup "rule_type" rule_data) as [rt |]; [| discriminate].
  destruct (is_supported rt) eqn:Hrt; simpl in H; [| discriminate].
  bind_inv H. rename a into cv, Ha into Hc.
  bind_inv H. rename a into av, Ha into Hx.
  unfold _transform_conditions in Hc. bind_inv Hc. rename a into cs, Ha into Hcs.
  bind_inv Hc. rename a into cs', Ha into Hloop.
  unfold _transform_actions in Hx. bind_inv Hx. rename a into xs, Ha into Hxs.
  bind_inv Hx. rename a into xs', Ha into Hloop'.
  apply for_append_inr in Hloop, Hloop'.
  destruct Hloop as [ys [-> Hys]], Hloop' as [zs [-> Hzs]]. simpl in *.
  inversion Hc; inversion Hx; inversion H; subst.
  exists rt, cs, ys, xs, zs. repeat split; try assumption.
  - eapply Forall2_impl; [| exact Hys]. intros; now apply transform_condition_inr.
  - eapply Forall2_impl; [| exact Hzs]. intros; now apply transform_action_inr.
Qed.


(** ** The formatter *)

Lemma format_condition_inr (c p : value) :
  format_condition c = inr p -> formats_condition c p.
Proof.
  unfold format_condition. intros H.
  bind_inv H. rename a into f, Ha into Hf.
  bind_inv H. rename a into o, Ha into Ho.
  bind_inv H. rename a into v, Ha into Hv.
  inversion H. exists f, o, v. repeat split; assumption.
Qed.

Lemma format_action_inr (a p : value) :
  format_action a = inr p -> formats_action a p.
Proof.
  unfold format_action. intros H.
  bind_inv H. rename a0 into t, Ha into Ht.
  bind_inv H. rename a0 into ps, Ha into Hps.
  inversion H. exists t, ps. repeat split; assumption.
Qed.

Lemma format_condition_keys (c : value) :
  has_keys condition_keys c = true -> exists p, format_condition c = inr p.
Proof.
  destruct c as [| | | | s | l | d]; try discriminate. simpl.
  rewrite !andb_true_iff. intros [Hf [Ho [Hv _]]].
  apply dict_mem_lookup in Hf, Ho, Hv.
  destruct Hf as [f Hf], Ho as [o Ho], Hv as [v Hv].
  unfold format_condition, py_getitem, dict_getitem.
  rewrite Hf, Ho, Hv. simpl. eauto.
Qed.

Lemma format_action_keys (a : value) :
  has_keys ["type"; "parameters"] a = true -> exists p, format_action a = inr p.
Proof.
  destruct a as [| | | | s | l | d]; try discriminate. simpl.
  rewrite !andb_true_iff. intros [Ht [Hps _]].
  apply dict_mem_lookup in Ht, Hps.
  destruct Ht as [t Ht], Hps as [ps Hps].
  unfold format_action, py_getitem, dict_getitem.
  rewrite Ht, Hps. simpl. eauto.
Qed.

(** A comprehension over items its body accepts returns, item by item. *)
Lemma comprehension_total (p : value -> bool) (body : value -> result value)
    (xs : list value) :
  (forall x, p x = true -> exists y, body x = inr y) ->
  forallb p xs = true ->
  exists ys, comprehension body xs = inr ys /\
             Forall2 (fun x y => body x = inr y) xs ys.
Proof.
  intros Hbody. induction xs as [| x xs IH]; simpl; intros Hxs.
  - exists []. split; constructor.
  - apply andb_true_iff in Hxs. destruct Hxs as [Hx Hxs].
    destruct (Hbody x Hx) as [y Hy]. destruct (IH Hxs) as [ys [Hys HF]].
    exists (y :: ys). rewrite Hy. simpl. rewrite Hys. simpl.
    split; [reflexivity | constructor; assumption].
Qed.

Lemma Forall2_nth_error {A B : Type} (R : A -> B -> Prop) (xs : list A)
    (ys : list B) (i : nat) (x : A) :
  Forall2 R xs ys -> nth_error xs i = Some x ->
  exists y, nth_error ys i = Some y /\ R x y.
Proof.
  intros HF. revert i. induction HF as [| x0 y0 xs ys HR _ IH]; intros i Hi.
  - destruct i; discriminate.
  - destruct i as [| i]; simpl in *.
    + inversion Hi; subst. eauto.
    + now apply IH.
Qed.

Lemma formattable_inv (rule : dict) :
  formattable rule = true ->
  exists rule_id cs xs ps qs,
    dict_lookup "rule_id" rule = Some rule_id /\
    dict_lookup "conditions" rule = Some (VList cs) /\
    dict_lookup "actions" rule = Some (VList xs) /\
    comprehension format_condition cs = inr ps /\
    Forall2 formats_condition cs ps /\
    comprehension format_action xs = inr qs /\
    Forall2 formats_action xs qs.
Proof.
  unfold formattable, dict_get. rewrite !andb_true_iff. intros [[Hid Hc] Hx].
  apply dict_mem_lookup in Hid. destruct Hid as [rule_id Hid].
  destruct (dict_lookup "conditions" rule) as [[| | | | | cs |] |];
    try discriminate.
  destruct (dict_lookup "actions" rule) as [[| | | | | xs |] |];
    try discriminate.
  simpl in Hc, Hx.
  destruct (comprehension_total _ format_condition cs format_condition_keys Hc)
    as [ps [Hps HFc]].
  destruct (comprehension_total _ format_action xs format_action_keys Hx)
    as [qs [Hqs HFx]].
  exists rule_id, cs, xs, ps, qs. repeat split; try assumption; try reflexivity.
  - eapply Forall2_impl; [| exact HFc]. intros; now apply format_condition_inr.
  - eapply Forall2_impl; [| exact HFx]. intros; now apply format_action_inr.
Qed.

Lemma transformed_conditions_keys (cs cs' : list value) :
  Forall2 transforms_condition cs cs' ->
  forallb (has_keys condition_keys) cs' = true.
Proof.
  induction 1 as [| c c' cs cs' Hc _ IH]; simpl.
  - reflexivity.
  - rewrite IH, andb_true_r.
    destruct Hc as [d [f [o [v [_ [_ [_ [_ ->]]]]]]]]. reflexivity.
Qed.

Lemma transformed_actions_keys (xs xs' : list value) :
  Forall2 transforms_action xs xs' ->
  forallb (has_keys ["type"; "parameters"]) xs' = true.
Proof.
  induction 1 as [| x x' xs xs' Hx _ IH]; simpl.
  - reflexivity.
  - rewrite IH, andb_true_r.
    destruct Hx as [d [t [_ [_ ->]]]]. reflexivity.
Qed.

(** Every rule the transformer returns can be formatted. *)
Lemma transformed_formattable (now : clock) (rule_data rule : dict) :
  transform_security_rule repr now rule_data = inr rule ->
  formattable rule = true.
Proof.
  intros H. apply transform_inr in H.
  destruct H as [rt [cs [cs' [xs [xs' [_ [_ [_ [Hc [_ [Hx ->]]]]]]]]]]].
  unfold formattable. rewrite !andb_true_iff. repeat split.
  - exact (transformed_conditions_keys _ _ Hc).
  - exact (transformed_actions_keys _ _ Hx).
Qed.

Lemma format_formattable (rule : dict) :
  formattable rule = true ->
  exists rule_id cs xs ps qs,
    dict_lookup "rule_id" rule = Some rule_id /\
    dict_lookup "conditions" rule = Some (VList cs) /\
    dict_lookup "actions" rule = Some (VList xs) /\
    Forall2 formats_condition cs ps /\
    Forall2 formats_action xs qs /\
    format_for_downstream repr rule "snowflake"
      = inr (snowflake_policy repr rule rule_id ps qs) /\
    format_for_downstream repr rule "databricks"
      = inr (databricks_policy repr rule rule_id ps qs).
Proof.
  intros H. apply formattable_inv in H.
  destruct H as [rule_id [cs [xs [ps [qs [Hid [Hc [Hx [Hps [HFc [Hqs HFx]]]]]]]]]]].
  exists rule_id, cs, xs, ps, qs. repeat split; try assumption.
  - unfold format_for_downstream. simpl.
    unfold _format_for_snowflake, dict_getitem. rewrite Hid, Hc, Hx. simpl.
    unfold _format_snowflake_conditions, _format_snowflake_actions. simpl.
    rewrite Hps, Hqs. reflexivity.
  - unfold format_for_downstream. simpl.
    unfold _format_for_databricks, dict_getitem. rewrite Hid, Hc, Hx. simpl.
    unfold _format_databricks_conditions, _format_databricks_actions. simpl.
    rewrite Hps, Hqs. reflexivity.
Qed.

(** C8: for a rule with an identifier, conditions carrying [field],
    [operator], [value] and actions carrying [type], [parameters], the
    snowflake policy has type "snowflake_policy", the name "atlan_" followed
    by the rule's identifier, and the database and the schema "PUBLIC" where
    the rule has no such key; the databricks policy has the same shape with
    type "databricks_policy", catalog "hive_metastore" and schema "default"
    by default. *)
Theorem format_policy_fields (rule : dict) :
  formattable rule = true ->
  exists rule_id sf db,
    dict_lookup "rule_id" rule = Some rule_id /\
    format_for_downstream repr rule "snowflake" = inr sf /\
    format_for_downstream repr rule "databricks" = inr db /\
    map fst sf = ["type"; "name"; "database"; "schema"; "table"; "conditions"; "actions"] /\
    map fst db = ["type"; "name"; "catalog"; "schema"; "table"; "conditions"; "actions"] /\
    dict_lookup "type" sf = Some (VStr "snowflake_policy") /\
    dict_lookup "type" db = Some (VStr "databricks_policy") /\
    dict_lookup "name" sf = Some (VStr ("atlan_" ++ py_str repr rule_id)) /\
    dict_lookup "name" db = Some (VStr ("atlan_" ++ py_str repr rule_id)) /\
    (forall s, rule_id = VStr s -> py_str repr rule_id = s) /\
    (dict_lookup "database" rule = None ->
     dict_lookup "database" sf = Some (VStr "PUBLIC")) /\
    (forall v, dict_lookup "database" rule = Some v ->
     dict_lookup "database" sf = Some v) /\
    (dict_lookup "catalog" rule = None ->
     dict_lookup "catalog" db = Some (VStr "hive_metastore")) /\
    (forall v, dict_lookup "catalog" rule = Some v ->
     dict_lookup "catalog" db = Some v) /\
    (dict_lookup "schema" rule = None ->
     dict_lookup "schema" sf = Some (VStr "PUBLIC") /\
     dict_lookup "schema" db = Some (VStr "default")) /\
    (forall v, dict_lookup "schema" rule = Some v ->
     dict_lookup "schema" sf = Some v /\ dict_lookup "schema" db = Some v).
Proof.
  intros H. apply format_formattable in H.
  destruct H as [rule_id [cs [xs [ps [qs [Hid [_ [_ [_ [_ [Hsf Hdb]]]]]]]]]]].
  exists rule_id, (snowflake_policy repr rule rule_id ps qs),
    (databricks_policy repr rule rule_id ps qs).
  unfold snowflake_policy, databricks_policy, dict_get. simpl.
  repeat split; try assumption.
  all: try (intros s ->; reflexivity).
  all: try (intros ->; reflexivity).
  all: match goal with H : dict_lookup _ _ = _ |- _ => now rewrite H end.
Qed.

(** C2: on a rule the transformer returned, the snowflake policy lists one
    entry per condition of the rule, in the rule's order, and entry [i] is
    [{column, operator, value}] of condition [i]'s [field], [operator] and
    [value]. *)
Theorem snowflake_conditions_round_trip (now : clock) (rule_data rule : dict) :
  transform_security_rule repr now rule_data = inr rule ->
  exists cs policy ps,
    dict_lookup "conditions" rule = Some (VList cs) /\
    format_for_downstream repr rule "snowflake" = inr policy /\
    dict_lookup "conditions" policy = Some (VList ps) /\
    List.length ps = List.length cs /\
    forall i c, nth_error cs i = Some c ->
      exists f o v,
        py_getitem c "field" = inr f /\
        py_getitem c "operator" = inr o /\
        py_getitem c "value" = inr v /\
        nth_error ps i = Some (VDict [("column", f); ("operator", o); ("value", v)]).
Proof.
  intros H. apply transformed_formattable, format_formattable in H.
  destruct H as [rule_id [cs [xs [ps [qs [_ [Hc [_ [HF [_ [Hsf _]]]]]]]]]]].
  exists cs, (snowflake_policy repr rule rule_id ps qs), ps.
  repeat split; try assumption.
  - symmetry. exact (Forall2_length HF).
  - intros i c Hi.
    destruct (Forall2_nth_error _ _ _ _ _ HF Hi) as [p [Hp [f [o [v [Hf [Ho [Hv ->]]]]]]]].
    exists f, o, v. repeat split; assumption.
Qed.

(** C6: a target other than "snowflake" and "databricks" makes
    [format_for_downstream] raise [ValueError] (the code's
    UnsupportedTargetError) and return no policy. *)
Theorem format_unsupported_target (rule : dict) (target : string) :
  target <> "snowflake" -> target <> "databricks" ->
  format_for_downstream repr rule target
    = inl (ValueError ("Unsupported target system: " ++ target)).
Proof.
  intros Hs Hd. unfold format_for_downstream.
  destruct (String.eqb_spec target "snowflake"); [contradiction |].
  destruct (String.eqb_spec target "databricks"); [contradiction |].
  reflexivity.
Qed.

(** ** The validator *)

Lemma for_all_dicts (check : value -> result bool) (xs : list value) :
  (forall d, exists b, check (VDict d) = inr b) ->
  forallb is_dict xs = true ->
  exists b, for_all check xs = inr b.
Proof.
  intros Hcheck Hxs. apply for_all_total.
  induction xs as [| x xs IH]; simpl in *.
  - constructor.
  - apply andb_true_iff in Hxs. destruct Hxs as [Hx Hxs].
    destruct x as [| | | | s | l | d]; try discriminate.
    constructor; [apply Hcheck | now apply IH].
Qed.

(** C5: on a rule whose conditions and actions are sequences of mappings,
    [validate_rule] returns a boolean and raises nothing; it returns false
    for a rule without one of the keys rule_type, asset_id, conditions,
    actions, and true for the minimal rule with PII, "a1" and no condition
    and no action. *)
Theorem validate_rule_yes_no :
  (forall rule, rule_typed rule = true ->
     exists b, validate_rule rule = inr b) /\
  (forall rule k, In k required_fields -> dict_lookup k rule = None ->
     validate_rule rule = inr false) /\
  validate_rule minimal_rule = inr true.
Proof.
  repeat split.
  - intros rule Ht. unfold validate_rule.
    destruct (forallb (fun field => dict_mem field rule) required_fields) eqn:Hreq;
      cbn [negb]; [| now exists false].
    simpl in Hreq. rewrite !andb_true_iff in Hreq.
    destruct Hreq as [Hrt [_ [Hc [Hx _]]]].
    apply dict_mem_lookup in Hrt, Hc, Hx.
    destruct Hrt as [rt Hrt], Hc as [c Hc], Hx as [x Hx].
    unfold rule_typed, dict_get in Ht. rewrite Hc, Hx in Ht.
    apply andb_true_iff in Ht. destruct Ht as [Htc Htx].
    destruct c as [| | | | | cs |]; try discriminate.
    destruct x as [| | | | | xs |]; try discriminate.
    simpl in Htc, Htx.
    unfold dict_getitem. rewrite Hrt, Hc, Hx. cbn [bind ret negb py_iter].
    destruct (is_supported rt); cbn [bind ret negb]; [| now exists false].
    destruct (for_all_dicts (all_in condition_keys) cs) as [b Hb];
      [intros d; rewrite all_in_dict; eauto | exact Htc |].
    rewrite Hb. cbn [bind ret negb].
    destruct b; cbn [bind ret negb]; [| now exists false].
    destruct (for_all_dicts (py_in "type") xs) as [b' Hb'];
      [intros d; simpl; eauto | exact Htx |].
    rewrite Hb'. destruct b'; cbn [bind ret negb]; eauto.
  - intros rule k Hk Hnone. unfold validate_rule.
    assert (Hreq : forallb (fun field => dict_mem field rule) required_fields = false).
    { apply not_true_is_false. intros Hall.
      rewrite forallb_forall in Hall. specialize (Hall k Hk).
      unfold dict_mem in Hall. rewrite Hnone in Hall. discriminate. }
    rewrite Hreq. reflexivity.
Qed.

(** Outside that type the validator does raise: conditions that are no
    sequence at all. *)
Lemma validate_rule_untyped_raises :
  validate_rule [("rule_type", VStr "PII"); ("asset_id", VStr "a1");
                 ("conditions", VNone); ("actions", VList [])]
  = inl TypeError.
Proof. reflexivity. Qed.

(** ** The pipeline *)

Variable store_metadata : dict -> result value.
Variable put_events : dict -> result unit.

Lemma transformed_conditions_valid (cs cs' : list value) :
  Forall2 transforms_condition cs cs' ->
  for_all (all_in condition_keys) cs' = inr true.
Proof.
  intros H. apply for_all_true.
  induction H as [| c c' cs cs' Hc _ IH]; constructor; [| exact IH].
  destruct Hc as [d [f [o [v [_ [_ [_ [_ ->]]]]]]]]. reflexivity.
Qed.

Lemma transformed_actions_valid (xs xs' : list value) :
  Forall2 transforms_action xs xs' ->
  for_all (py_in "type") xs' = inr true.
Proof.
  intros H. apply for_all_true.
  induction H as [| x x' xs xs' Hx _ IH]; constructor; [| exact IH].
  destruct Hx as [d [t [_ [_ ->]]]]. reflexivity.
Qed.

Lemma transformed_valid (now : clock) (rule_data rule : dict) :
  transform_security_rule repr now rule_data = inr rule ->
  validate_rule rule = inr true.
Proof.
  intros H. apply transform_inr in H.
  destruct H as [rt [cs [cs' [xs [xs' [_ [Hrt [_ [Hc [_ [Hx ->]]]]]]]]]]].
  unfold validate_rule.
  replace (forallb (fun field => dict_mem field (transformed now rule_data rt cs' xs'))
             required_fields) with true by reflexivity.
  replace (dict_getitem (transformed now rule_data rt cs' xs') "rule_type")
    with (@inr exn value rt) by reflexivity.
  replace (dict_getitem (transformed now rule_data rt cs' xs') "conditions")
    with (@inr exn value (VList cs')) by reflexivity.
  replace (dict_getitem (transformed now rule_data rt cs' xs') "actions")
    with (@inr exn value (VList xs')) by reflexivity.
  cbn [bind ret negb py_iter]. rewrite Hrt. cbn [bind ret negb].
  rewrite (transformed_conditions_valid _ _ Hc). cbn [bind ret negb].
  rewrite (transformed_actions_valid _ _ Hx). reflexivity.
Qed.

(** C9: a rule the transformer returned passes [validate_rule], so
    [process_security_event] never takes its "Invalid security rule" branch:
    it goes on as if the gate were not there. *)
Theorem transformed_rule_is_valid (now : clock) (event rule : dict) :
  transform_security_rule repr now event = inr rule ->
  validate_rule rule = inr true /\
  process_security_event repr store_metadata put_events now event
    = process_validated repr store_metadata put_events rule.
Proof.
  intros H. pose proof (transformed_valid _ _ _ H) as Hv. split; [exact Hv |].
  unfold process_security_event. rewrite H. simpl. rewrite Hv. reflexivity.
Qed.

(** ** The fan-out *)

Lemma fan_out_with_isolated (format : dict -> string -> result dict)
    (rule : dict) (t : string) :
  In t ["snowflake"; "databricks"] ->
  match format rule t with
  | inr policy =>
      dict_lookup t (downstream_rules (fan_out_with format rule)) = Some (VDict policy)
  | inl e =>
      dict_lookup t (downstream_rules (fan_out_with format rule)) = None /\
      In e (map snd (printed (fan_out_with format rule)))
  end.
Proof.
  intros [<- | [<- | []]]; unfold fan_out_with, try_format;
    destruct (format rule "snowflake"), (format rule "databricks"); simpl; auto.
Qed.

(** With a transformer that formats one target and not the other, the other's
    entry is there all the same. *)
Lemma fan_out_with_one_failure (rule policy : dict) (e : exn) :
  let format := fun (_ : dict) (t : string) =>
    if String.eqb t "snowflake" then inl e else inr policy in
  downstream_rules (fan_out_with format rule) = [("databricks", VDict policy)].
Proof. reflexivity. Qed.

(** C7: the fan-out returns a mapping whatever the transformer's
    [format_for_downstream] does, target by target: a target whose formatting
    returns has its policy under its key, whether or not the other target
    failed; a target whose formatting raises is left out of the mapping (its
    exception goes to the printed lines), whether or not the other succeeded;
    when one target fails and the other succeeds the mapping holds the
    other's policy and nothing else; when no target succeeds the mapping is
    empty, and the pipeline still ends with status "processed". *)
Theorem fan_out_partial_failure (format : dict -> string -> result dict)
    (rule : dict) :
  (forall t policy, In t ["snowflake"; "databricks"] ->
     format rule t = inr policy ->
     dict_lookup t (downstream_rules (fan_out_with format rule))
       = Some (VDict policy)) /\
  (forall t e, In t ["snowflake"; "databricks"] ->
     format rule t = inl e ->
     dict_lookup t (downstream_rules (fan_out_with format rule)) = None /\
     In e (map snd (printed (fan_out_with format rule)))) /\
  (forall failing succeeding e policy,
     In failing ["snowflake"; "databricks"] ->
     In succeeding ["snowflake"; "databricks"] ->
     format rule failing = inl e ->
     format rule succeeding = inr policy ->
     downstream_rules (fan_out_with format rule) = [(succeeding, VDict policy)] /\
     map snd (printed (fan_out_with format rule)) = [e]) /\
  ((forall t, In t ["snowflake"; "databricks"] ->
      exists e, format rule t = inl e) ->
   downstream_rules (fan_out_with format rule) = []) /\
  _format_for_downstream_systems repr rule
    = fan_out_with (format_for_downstream repr) rule /\
  (forall rule_id metadata created_at event_id,
     dict_lookup "rule_id" rule = Some rule_id ->
     dict_lookup "metadata" rule = Some metadata ->
     py_getitem metadata "created_at" = inr created_at ->
     store_metadata [("event_id", rule_id);
                     ("event_type", VStr "security_rule");
                     ("timestamp", created_at);
                     ("source", VStr "atlan");
                     ("payload", VDict rule)] = inr event_id ->
     put_events rule = inr tt ->
     process_validated repr store_metadata put_events rule
       = inr [("event_id", event_id);
              ("status", VStr "processed");
              ("downstream_rules",
               VDict (downstream_rules (_format_for_downstream_systems repr rule)))]).
Proof.
  split; [| split; [| split; [| split; [| split; [reflexivity |]]]]].
  - intros t policy Ht Hf.
    pose proof (fan_out_with_isolated format rule t Ht) as H.
    rewrite Hf in H. exact H.
  - intros t e Ht Hf.
    pose proof (fan_out_with_isolated format rule t Ht) as H.
    rewrite Hf in H. exact H.
  - intros failing succeeding e policy Hfa Hsu Hf Hs.
    destruct Hfa as [<- | [<- | []]]; destruct Hsu as [<- | [<- | []]];
      try (rewrite Hf in Hs; discriminate Hs);
      unfold fan_out_with, try_format; rewrite Hf, Hs; split; reflexivity.
  - intros Hall.
    destruct (Hall "snowflake") as [e1 H1]; [simpl; auto |].
    destruct (Hall "databricks") as [e2 H2]; [simpl; auto |].
    unfold fan_out_with, try_format. rewrite H1, H2. reflexivity.
  - intros rule_id metadata created_at event_id Hid Hm Hc Hs Hp.
    unfold process_validated, dict_getitem. rewrite Hid, Hm. simpl.
    rewrite Hc. simpl. rewrite Hs. simpl. rewrite Hp. reflexivity.
Qed.

(** ** The update path *)

(** The second pass looks for [description] and [severity] next to [field],
    where the first pass did not put them. *)
Lemma retransform_conditions (cs cs1 : list value) :
  Forall2 transforms_condition cs cs1 ->
  exists cs2,
    Forall2 (fun c c' => transform_condition c = inr c') cs1 cs2 /\
    Forall2 resets_condition cs1 cs2.
Proof.
  induction 1 as [| c c1 cs cs1 Hc _ [cs2 [IH1 IH2]]].
  - exists []. split; constructor.
  - destruct Hc as [d [f [o [v [_ [_ [_ [_ ->]]]]]]]].
    eexists (_ :: cs2). split; constructor; try eassumption.
    + reflexivity.
    + unfold canonical_condition. repeat eexists.
Qed.

Lemma retransform_actions (xs xs1 : list value) :
  Forall2 transforms_action xs xs1 ->
  exists xs2,
    Forall2 (fun a a' => transform_action a = inr a') xs1 xs2 /\
    Forall2 resets_action xs1 xs2.
Proof.
  induction 1 as [| x x1 xs xs1 Hx _ [xs2 [IH1 IH2]]].
  - exists []. split; constructor.
  - destruct Hx as [d [t [_ [_ ->]]]].
    eexists (_ :: xs2). split; constructor; try eassumption.
    + reflexivity.
    + unfold canonical_action. repeat eexists.
Qed.

(** C10: the transformer is not idempotent on metadata.  When the update
    path sends a transformed rule through the transformer again, merged with
    incoming fields that leave [rule_type], [conditions] and [actions] alone,
    every condition keeps its [field], [operator] and [value] and gets the
    metadata description "" and severity "medium", and every action keeps
    its [type] and [parameters] and gets description "" and priority
    "normal", whatever the first pass had stored under [metadata] from the
    raw input. *)
Theorem retransform_resets_metadata (now now' : clock)
    (rule_data rule incoming : dict) :
  transform_security_rule repr now rule_data = inr rule ->
  dict_lookup "rule_type" incoming = None ->
  dict_lookup "conditions" incoming = None ->
  dict_lookup "actions" incoming = None ->
  exists raw_cs cs cs' raw_xs xs xs' rule',
    py_iter (dict_get "conditions" (VList []) rule_data) = inr raw_cs /\
    Forall2 transforms_condition raw_cs cs /\
    dict_lookup "conditions" rule = Some (VList cs) /\
    py_iter (dict_get "actions" (VList []) rule_data) = inr raw_xs /\
    Forall2 transforms_action raw_xs xs /\
    dict_lookup "actions" rule = Some (VList xs) /\
    update_transform repr now' rule incoming = inr rule' /\
    dict_lookup "conditions" rule' = Some (VList cs') /\
    Forall2 resets_condition cs cs' /\
    dict_lookup "actions" rule' = Some (VList xs') /\
    Forall2 resets_action xs xs'.
Proof.
  intros H Hrt Hc Hx. apply transform_inr in H.
  destruct H as [rt [raw_cs [cs [raw_xs [xs [_ [Hs [Hcs [HFc [Hxs [HFx ->]]]]]]]]]]].
  destruct (retransform_conditions _ _ HFc) as [cs' [Hcs' Hreset]].
  destruct (retransform_actions _ _ HFx) as [xs' [Hxs' Hreset']].
  set (rule := transformed now rule_data rt cs xs).
  exists raw_cs, cs, cs', raw_xs, xs, xs',
    (transformed now' (dict_merge rule incoming) rt cs' xs').
  repeat split; try assumption.
  unfold update_transform, transform_security_rule, dict_get.
  rewrite (dict_lookup_merge_absent "rule_type" rule incoming Hrt).
  rewrite (dict_lookup_merge_absent "conditions" rule incoming Hc).
  rewrite (dict_lookup_merge_absent "actions" rule incoming Hx).
  replace (dict_lookup "rule_type" rule) with (Some rt) by reflexivity.
  replace (dict_lookup "conditions" rule) with (Some (VList cs)) by reflexivity.
  replace (dict_lookup "actions" rule) with (Some (VList xs)) by reflexivity.
  rewrite Hs. cbn [negb].
  unfold _transform_conditions, _transform_actions. cbn [py_iter bind ret].
  rewrite (for_append_Forall2 _ _ _ [] Hcs'). cbn [bind ret app].
  rewrite (for_append_Forall2 _ _ _ [] Hxs'). reflexivity.
Qed.

(** ** What a malformed condition gets *)

(** C3, as the code has it: with conditions that are a sequence of mappings,
    one of them without [field], [operator] or [value] makes the transformer
    raise [ValueError]; under a supported rule type the message is the fixed
    text "Invalid condition format", whichever keys are missing. *)
Theorem malformed_condition_rejected (now : clock) (rule_data : dict)
    (cs : list value) :
  dict_get "conditions" (VList []) rule_data = VList cs ->
  forallb is_dict cs = true ->
  existsb (fun c => negb (has_keys condition_keys c)) cs = true ->
  (exists msg, transform_security_rule repr now rule_data = inl (ValueError msg)) /\
  (forall rule_type, dict_lookup "rule_type" rule_data = Some rule_type ->
     is_supported rule_type = true ->
     transform_security_rule repr now rule_data
       = inl (ValueError "Invalid condition format")).
Proof.
  intros Hcs Hd Hbad.
  assert (Hloop : for_append transform_condition cs []
                  = inl (ValueError "Invalid condition format")).
  { apply (for_append_malformed condition_keys); try assumption.
    exact transform_condition_dict. }
  unfold transform_security_rule. rewrite Hcs.
  unfold _transform_conditions. cbn [py_iter bind ret]. rewrite Hloop.
  split.
  - destruct (dict_lookup "rule_type" rule_data) as [rt |]; [| eauto].
    destruct (is_supported rt); cbn [negb bind]; eauto.
  - intros rt -> ->. reflexivity.
Qed.

(** ** The canonical rule *)

(** C4, as the code has it: in the rule the transformer returns, condition
    [i] is the record of [field], [operator], [value] of raw condition [i]
    with a [metadata] record of its description ("" by default) and severity
    ("medium" by default), and action [i] is the record of [type] and
    [parameters] (the empty mapping by default) of raw action [i] with a
    [metadata] record of its description ("" by default) and priority
    ("normal" by default). *)
Theorem transformed_records (now : clock) (rule_data rule : dict) :
  transform_security_rule repr now rule_data = inr rule ->
  exists raw_cs cs raw_xs xs,
    py_iter (dict_get "conditions" (VList []) rule_data) = inr raw_cs /\
    dict_lookup "conditions" rule = Some (VList cs) /\
    Forall2 (fun raw c =>
      exists d f o v,
        raw = VDict d /\
        dict_lookup "field" d = Some f /\
        dict_lookup "operator" d = Some o /\
        dict_lookup "value" d = Some v /\
        c = VDict [("field", f); ("operator", o); ("value", v);
                   ("metadata",
                    VDict [("description", dict_get "description" (VStr "") d);
                           ("severity", dict_get "severity" (VStr "medium") d)])])
      raw_cs cs /\
    py_iter (dict_get "actions" (VList []) rule_data) = inr raw_xs /\
    dict_lookup "actions" rule = Some (VList xs) /\
    Forall2 (fun raw a =>
      exists d t,
        raw = VDict d /\
        dict_lookup "type" d = Some t /\
        a = VDict [("type", t);
                   ("parameters", dict_get "parameters" (VDict []) d);
                   ("metadata",
                    VDict [("description", dict_get "description" (VStr "") d);
                           ("priority", dict_get "priority" (VStr "normal") d)])])
      raw_xs xs.
Proof.
  intros H. apply transform_inr in H.
  destruct H as [rt [raw_cs [cs [raw_xs [xs [_ [_ [Hcs [HFc [Hxs [HFx ->]]]]]]]]]]].
  exists raw_cs, cs, raw_xs, xs. repeat split; assumption.
Qed.

End Properties.

(** ** Examples *)

Example transform_email_rule :
  transform_security_rule plain_repr noon email_rule_data = inr email_rule.
Proof. reflexivity. Qed.

Example format_email_rule :
  format_for_downstream plain_repr email_rule "snowflake"
  = inr [("type", VStr "snowflake_policy");
         ("name", VStr "atlan_rule_20240315120000");
         ("database", VStr "PUBLIC");
         ("schema", VStr "PUBLIC");
         ("table", VNone);
         ("conditions",
          VList [VDict [("column", VStr "email"); ("operator", VStr "contains");
                        ("value", VStr "@")]]);
         ("actions",
          VList [VDict [("type", VStr "mask");
                        ("parameters", VDict [("mask_type", VStr "email")])]])].
Proof. reflexivity. Qed.

(** The update path sends the stored rule through the transformer again:
    the second pass keeps the identifier and loses the metadata. *)
Example retransform_email_rule :
  update_transform plain_repr later email_rule [("asset_type", VStr "view")]
  = inr [("rule_id", VStr "rule_20240315120000");
         ("rule_type", VStr "PII");
         ("asset_id", VStr "asset_123");
         ("asset_type", VStr "view");
         ("conditions",
          VList [VDict [("field", VStr "email"); ("operator", VStr "contains");
                        ("value", VStr "@");
                        ("metadata", default_condition_metadata)]]);
         ("actions",
          VList [VDict [("type", VStr "mask");
                        ("parameters", VDict [("mask_type", VStr "email")]);
                        ("metadata", default_action_metadata)]]);
         ("metadata", VDict [("created_at", VStr "2024-03-16T09:00:00.000100");
                             ("updated_at", VStr "2024-03-16T09:00:00.000200");
                             ("source", VStr "atlan");
                             ("version", VStr "1.0")])].
Proof. reflexivity. Qed.

(** A condition that is a string holding the three key names passes the
    membership test and fails at the subscript: outside sequences of
    mappings the error is not the transformer's own. *)
Example transform_string_condition :
  transform_security_rule plain_repr noon
    [("rule_type", VStr "PII");
     ("conditions", VList [VStr "field operator value"])]
  = inl TypeError.
Proof. reflexivity. Qed.

(** ** The theorems at the examples *)


Lemma snowflake_conditions_round_trip_witness :
  transform_security_rule plain_repr noon email_rule_data = inr email_rule /\
  exists cs policy ps,
    dict_lookup "conditions" email_rule = Some (VList cs) /\
    format_for_downstream plain_repr email_rule "snowflake" = inr policy /\
    dict_lookup "conditions" policy = Some (VList ps) /\
    List.length ps = List.length cs /\
    forall i c, nth_error cs i = Some c ->
      exists f o v,
        py_getitem c "field" = inr f /\
        py_getitem c "operator" = inr o /\
        py_getitem c "value" = inr v /\
        nth_error ps i = Some (VDict [("column", f); ("operator", o); ("value", v)]).
Proof.
  split; [reflexivity |].
  apply (snowflake_conditions_round_trip plain_repr noon email_rule_data email_rule).
  reflexivity.
Defined.

Lemma malformed_condition_rejected_witness :
  dict_get "conditions" (VList []) no_field_rule_data
    = VList [VDict [("operator", VStr "contains"); ("value", VStr "@")]] /\
  transform_security_rule plain_repr noon no_field_rule_data
    = inl (ValueError "Invalid condition format").
Proof.
  split; [reflexivity |].
  apply (proj2 (malformed_condition_rejected plain_repr noon no_field_rule_data
                  [VDict [("operator", VStr "contains"); ("value", VStr "@")]]
                  eq_refl eq_refl eq_refl)
           (VStr "PII")); reflexivity.
Defined.

(** C3 as the spec words it fails: the condition lacks [field], and the
    message does not name [field]; a condition that lacks [value] instead
    gets the very same message. *)
Lemma malformed_condition_message_counterexample :
  has_keys ["field"] (VDict [("operator", VStr "contains"); ("value", VStr "@")])
    = false /\
  ~ (exists msg,
       transform_security_rule plain_repr noon no_field_rule_data
         = inl (ValueError msg) /\
       is_substring "field" msg = true) /\
  transform_security_rule plain_repr noon no_field_rule_data
    = transform_security_rule plain_repr noon no_value_rule_data.
Proof.
  split; [reflexivity |]. split; [| reflexivity].
  intros [msg [H Hsub]]. vm_compute in H. inversion H; subst msg.
  vm_compute in Hsub. discriminate.
Qed.

Lemma transformed_records_witness :
  transform_security_rule plain_repr noon email_rule_data = inr email_rule /\
  exists raw_cs cs raw_xs xs,
    py_iter (dict_get "conditions" (VList []) email_rule_data) = inr raw_cs /\
    dict_lookup "conditions" email_rule = Some (VList cs) /\
    Forall2 (fun raw c =>
      exists d f o v,
        raw = VDict d /\
        dict_lookup "field" d = Some f /\
        dict_lookup "operator" d = Some o /\
        dict_lookup "value" d = Some v /\
        c = VDict [("field", f); ("operator", o); ("value", v);
                   ("metadata",
                    VDict [("description", dict_get "description" (VStr "") d);
                           ("severity", dict_get "severity" (VStr "medium") d)])])
      raw_cs cs /\
    py_iter (dict_get "actions" (VList []) email_rule_data) = inr raw_xs /\
    dict_lookup "actions" email_rule = Some (VList xs) /\
    Forall2 (fun raw a =>
      exists d t,
        raw = VDict d /\
        dict_lookup "type" d = Some t /\
        a = VDict [("type", t);
                   ("parameters", dict_get "parameters" (VDict []) d);
                   ("metadata",
                    VDict [("description", dict_get "description" (VStr "") d);
                           ("priority", dict_get "priority" (VStr "normal") d)])])
      raw_xs xs.
Proof.
  split; [reflexivity |].
  apply (transformed_records plain_repr noon email_rule_data email_rule).
  reflexivity.
Defined.

(** C4 as the spec words it fails: the condition of the returned rule has no
    field [description] and no field [severity], and its action none called
    [description] or [priority]; both have a [metadata] record instead. *)
Lemma flat_records_counterexample :
  transform_security_rule plain_repr noon email_rule_data = inr email_rule /\
  dict_lookup "conditions" email_rule = Some (VList [email_condition]) /\
  dict_lookup "actions" email_rule = Some (VList [email_action]) /\
  py_getitem email_condition "description" = inl (KeyError "description") /\
  py_getitem email_condition "severity" = inl (KeyError "severity") /\
  py_getitem email_action "description" = inl (KeyError "description") /\
  py_getitem email_action "priority" = inl (KeyError "priority") /\
  has_keys ["field"; "operator"; "value"; "description"; "severity"] email_condition
    = false /\
  has_keys ["type"; "parameters"; "description"; "priority"] email_action = false.
Proof. repeat split. Qed.

Lemma validate_rule_yes_no_witness :
  rule_typed email_rule = true /\
  (exists b, validate_rule email_rule = inr b) /\
  dict_lookup "actions" [("rule_type", VStr "PII"); ("asset_id", VStr "a1");
                         ("conditions", VList [])] = None /\
  validate_rule [("rule_type", VStr "PII"); ("asset_id", VStr "a1");
                 ("conditions", VList [])] = inr false.
Proof.
  split; [reflexivity |]. split.
  - apply (proj1 validate_rule_yes_no email_rule). reflexivity.
  - split; [reflexivity |].
    apply (proj1 (proj2 validate_rule_yes_no) _ "actions").
    + simpl. auto.
    + reflexivity.
Defined.

Lemma format_unsupported_target_witness :
  "unknown_target" <> "snowflake" /\
  "unknown_target" <> "databricks" /\
  format_for_downstream plain_repr email_rule "unknown_target"
    = inl (ValueError "Unsupported target system: unknown_target").
Proof.
  split; [discriminate |]. split; [discriminate |].
  apply (format_unsupported_target plain_repr email_rule "unknown_target");
    discriminate.
Defined.

Lemma fan_out_partial_failure_witness :
  (exists policy,
     snowflake_only email_rule "snowflake" = inr policy /\
     snowflake_only email_rule "databricks"
       = inl (ValueError "Unsupported target system: databricks") /\
     dict_lookup "snowflake"
       (downstream_rules (fan_out_with snowflake_only email_rule))
       = Some (VDict policy) /\
     dict_lookup "databricks"
       (downstream_rules (fan_out_with snowflake_only email_rule)) = None /\
     downstream_rules (fan_out_with snowflake_only email_rule)
       = [("snowflake", VDict policy)]) /\
  format_for_downstream plain_repr [] "databricks" = inl (KeyError "rule_id") /\
  dict_lookup "databricks"
    (downstream_rules (_format_for_downstream_systems plain_repr [])) = None /\
  downstream_rules (_format_for_downstream_systems plain_repr []) = [].
Proof.
  pose proof (fan_out_partial_failure plain_repr store_by_id put_nothing
                snowflake_only email_rule) as [Hok [Hfail [Hmixed _]]].
  pose proof (fan_out_partial_failure plain_repr store_by_id put_nothing
                (format_for_downstream plain_repr) [])
    as [_ [Hnone [_ [Hempty _]]]].
  split; [| split; [reflexivity | split]].
  - eexists. split; [reflexivity |]. split; [reflexivity |]. split; [| split].
    + apply Hok; [simpl; auto | reflexivity].
    + apply (Hfail "databricks"
               (ValueError "Unsupported target system: databricks"));
        [simpl; auto | reflexivity].
    + apply (Hmixed "databricks" "snowflake"
               (ValueError "Unsupported target system: databricks"));
        [simpl; auto | simpl; auto | reflexivity | reflexivity].
  - apply (Hnone "databricks" (KeyError "rule_id")); [simpl; auto | reflexivity].
  - apply Hempty. intros t [<- | [<- | []]]; eexists; reflexivity.
Defined.

Lemma format_policy_fields_witness :
  formattable email_rule = true /\
  exists rule_id sf db,
    dict_lookup "rule_id" email_rule = Some rule_id /\
    format_for_downstream plain_repr email_rule "snowflake" = inr sf /\
    format_for_downstream plain_repr email_rule "databricks" = inr db /\
    dict_lookup "type" sf = Some (VStr "snowflake_policy") /\
    dict_lookup "type" db = Some (VStr "databricks_policy") /\
    dict_lookup "name" sf = Some (VStr ("atlan_" ++ py_str plain_repr rule_id)) /\
    dict_lookup "database" sf = Some (VStr "PUBLIC") /\
    dict_lookup "catalog" db = Some (VStr "hive_metastore") /\
    dict_lookup "schema" sf = Some (VStr "PUBLIC") /\
    dict_lookup "schema" db = Some (VStr "default").
Proof.
  split; [reflexivity |].
  destruct (format_policy_fields plain_repr email_rule eq_refl)
    as [rule_id [sf [db [Hid [Hsf [Hdb [_ [_ [Ht [Ht' [Hn [_ [_
         [Hd [_ [Hc [_ [Hs _]]]]]]]]]]]]]]]]]].
  exists rule_id, sf, db.
  destruct (Hs eq_refl) as [Hs1 Hs2].
  pose proof (Hd eq_refl) as Hd'. pose proof (Hc eq_refl) as Hc'.
  repeat (split; [assumption |]). assumption.
Defined.

Lemma transformed_rule_is_valid_witness :
  transform_security_rule plain_repr noon email_rule_data = inr email_rule /\
  validate_rule email_rule = inr true /\
  process_security_event plain_repr store_by_id put_nothing noon email_rule_data
    = process_validated plain_repr store_by_id put_nothing email_rule.
Proof.
  split; [reflexivity |].
  apply (transformed_rule_is_valid plain_repr store_by_id put_nothing noon
           email_rule_data email_rule).
  reflexivity.
Defined.

Lemma retransform_resets_metadata_witness :
  transform_security_rule plain_repr noon email_rule_data = inr email_rule /\
  exists cs' xs' rule',
    update_transform plain_repr later email_rule [("asset_type", VStr "view")]
      = inr rule' /\
    dict_lookup "conditions" rule' = Some (VList cs') /\
    Forall2 resets_condition [email_condition] cs' /\
    dict_lookup "actions" rule' = Some (VList xs') /\
    Forall2 resets_action [email_action] xs'.
Proof.
  split; [reflexivity |].
  destruct (retransform_resets_metadata plain_repr noon later email_rule_data
              email_rule [("asset_type", VStr "view")]
              eq_refl eq_refl eq_refl eq_refl)
    as [raw_cs [cs [cs' [raw_xs [xs [xs' [rule' [_ [_ [Hc [_ [_ [Hx
         [Hu [Hc' [Hr [Hx' Hr']]]]]]]]]]]]]]]]].
  inversion Hc; subst cs. inversion Hx; subst xs.
  exists cs', xs', rule'. repeat (split; [assumption |]). assumption.
Defined.

(** * Beyond the claims *)

(** ** The validator, in full *)

Lemma for_all_forallb (check : value -> result bool) (p : value -> bool)
    (xs : list value) :
  (forall d, check (VDict d) = inr (p (VDict d))) ->
  forallb is_dict xs = true ->
  for_all check xs = inr (forallb p xs).
Proof.
  intros Hcheck. induction xs as [| x xs IH]; simpl; intros Hxs.
  - reflexivity.
  - apply andb_true_iff in Hxs. destruct Hxs as [Hx Hxs].
    destruct x as [| | | | s | l | d]; try discriminate.
    rewrite Hcheck. cbn [bind]. destruct (p (VDict d)); cbn [negb andb].
    + now apply IH.
    + reflexivity.
Qed.

Lemma all_in_TypeError (ks : list string) (v : value) (e : exn) :
  all_in ks v = inl e -> e = TypeError.
Proof.
  induction ks as [| k ks IH]; simpl; intros H.
  - discriminate.
  - destruct v; simpl in H; try (now inversion H);
      match type of H with
      | (if ?b then _ else _) = _ => destruct b; [now apply IH | discriminate]
      end.
Qed.

Lemma py_in_TypeError (k : string) (v : value) (e : exn) :
  py_in k v = inl e -> e = TypeError.
Proof. destruct v; simpl; intros H; now inversion H. Qed.

Lemma py_iter_TypeError (v : value) (e : exn) :
  py_iter v = inl e -> e = TypeError.
Proof. destruct v; simpl; intros H; now inversion H. Qed.

Lemma for_all_TypeError (check : value -> result bool) (xs : list value) (e : exn) :
  (forall x e', check x = inl e' -> e' = TypeError) ->
  for_all check xs = inl e -> e = TypeError.
Proof.
  intros Hcheck. induction xs as [| x xs IH]; simpl; intros H.
  - discriminate.
  - destruct (check x) as [e' | b] eqn:Hx; simpl in H.
    + inversion H; subst. now apply (Hcheck x).
    + destruct b; simpl in H; [now apply IH | discriminate].
Qed.

(** On a rule whose conditions and actions are sequences of mappings,
    [validate_rule] answers exactly whether the rule has its four keys, a
    supported type, conditions with [field], [operator], [value] and actions
    with [type]. *)
Theorem validate_rule_decides (rule : dict) :
  rule_typed rule = true ->
  validate_rule rule = inr (valid_shape rule).
Proof.
  intros Ht. unfold validate_rule, valid_shape.
  destruct (forallb (fun field => dict_mem field rule) required_fields) eqn:Hreq;
    cbn [negb andb]; [| reflexivity].
  simpl in Hreq. rewrite !andb_true_iff in Hreq.
  destruct Hreq as [Hrt [_ [Hc [Hx _]]]].
  apply dict_mem_lookup in Hrt, Hc, Hx.
  destruct Hrt as [rt Hrt], Hc as [c Hc], Hx as [x Hx].
  unfold rule_typed, dict_get in *. rewrite Hc, Hx in Ht. rewrite Hrt, Hc, Hx.
  apply andb_true_iff in Ht. destruct Ht as [Htc Htx].
  destruct c as [| | | | | cs |]; try discriminate.
  destruct x as [| | | | | xs |]; try discriminate.
  simpl in Htc, Htx.
  unfold dict_getitem. rewrite Hrt, Hc, Hx. cbn [bind ret negb py_iter sequence_of].
  destruct (is_supported rt); cbn [bind ret negb andb]; [| reflexivity].
  rewrite (for_all_forallb (all_in condition_keys) (has_keys condition_keys) cs);
    [| exact (all_in_dict condition_keys) | exact Htc].
  cbn [bind ret].
  destruct (forallb (has_keys condition_keys) cs); cbn [negb andb]; [| reflexivity].
  rewrite (for_all_forallb (py_in "type") (has_keys ["type"]) xs);
    [| intros d; simpl; now rewrite andb_true_r | exact Htx].
  cbn [bind ret]. destruct (forallb (has_keys ["type"]) xs); reflexivity.
Qed.

(** Whatever the rule, [validate_rule] raises nothing but [TypeError], and
    only once the rule has passed the first two checks: a rule that lacks one
    of its four keys, or whose type is not supported, gets [false] whatever
    its conditions and actions are, sequences or not; a rule for which
    [validate_rule] raises has its four keys and a supported type, and what
    is raised is [TypeError]. *)
Theorem validate_rule_raises_late (rule : dict) :
  (forallb (fun field => dict_mem field rule) required_fields = false ->
   validate_rule rule = inr false) /\
  (is_supported (dict_get "rule_type" VNone rule) = false ->
   validate_rule rule = inr false) /\
  (forall e, validate_rule rule = inl e ->
     e = TypeError /\
     forallb (fun field => dict_mem field rule) required_fields = true /\
     is_supported (dict_get "rule_type" VNone rule) = true).
Proof.
  unfold validate_rule.
  destruct (forallb (fun field => dict_mem field rule) required_fields) eqn:Hreq;
    cbn [negb].
  2: { split; [reflexivity |]. split; [reflexivity |]. discriminate. }
  pose proof Hreq as Hkeys.
  simpl in Hkeys. rewrite !andb_true_iff in Hkeys.
  destruct Hkeys as [Hrt [_ [Hc [Hx _]]]].
  apply dict_mem_lookup in Hrt, Hc, Hx.
  destruct Hrt as [rt Hrt], Hc as [c Hc], Hx as [x Hx].
  unfold dict_getitem, dict_get. rewrite Hrt, Hc, Hx. cbn [bind ret].
  split; [discriminate |].
  destruct (is_supported rt); cbn [negb bind ret].
  2: { split; [reflexivity | discriminate]. }
  split; [discriminate |].
  intros e H. split; [| split; reflexivity].
  destruct (py_iter c) as [e1 | cs] eqn:Hcs; cbn [bind] in H.
  { inversion H; subst. now apply (py_iter_TypeError c). }
  destruct (for_all (all_in condition_keys) cs) as [e2 | b] eqn:Hloop; cbn [bind] in H.
  { inversion H; subst.
    apply (for_all_TypeError _ _ _ (all_in_TypeError condition_keys) Hloop). }
  destruct b; cbn [negb ret] in H; [| discriminate].
  destruct (py_iter x) as [e3 | xs] eqn:Hxs; cbn [bind] in H.
  { inversion H; subst. now apply (py_iter_TypeError x). }
  destruct (for_all (py_in "type") xs) as [e4 | b'] eqn:Hloop'; cbn [bind] in H.
  { inversion H; subst.
    apply (for_all_TypeError _ _ _ (py_in_TypeError "type") Hloop'). }
  destruct b'; discriminate.
Qed.

Section Compositions.

Variable repr : value -> string.

(** ** The transformer and the formatter, end to end *)

(** With a supported type and well-formed conditions, a sequence of actions
    that are mappings, one of them without [type], makes the transformer
    raise [ValueError] with the text "Invalid action format". *)
Theorem malformed_action_rejected (now : clock) (rule_data : dict)
    (rule_type : value) (xs : list value) :
  dict_lookup "rule_type" rule_data = Some rule_type ->
  is_supported rule_type = true ->
  well_formed_conditions rule_data = true ->
  dict_get "actions" (VList []) rule_data = VList xs ->
  forallb is_dict xs = true ->
  existsb (fun a => negb (has_keys ["type"] a)) xs = true ->
  transform_security_rule repr now rule_data
    = inl (ValueError "Invalid action format").
Proof.
  intros Hrt Hs Hc Hxs Hd Hbad.
  unfold transform_security_rule. rewrite Hrt, Hs, Hxs. cbn [negb].
  unfold well_formed_conditions, sequence_of in Hc.
  destruct (dict_get "conditions" (VList []) rule_data) as [| | | | | cs |];
    try discriminate.
  unfold _transform_conditions, _transform_actions. cbn [py_iter bind ret].
  destruct (for_append_well_formed condition_keys transform_condition cs [])
    as [l Hl]; [| exact Hc |].
  { intros d Hk. destruct (transform_condition_dict d) as [[_ H] | [H _]];
      [exact H | congruence]. }
  rewrite Hl. cbn [bind ret].
  rewrite (for_append_malformed ["type"] transform_action
             (ValueError "Invalid action format") xs []);
    [reflexivity | exact transform_action_dict | exact Hd | exact Hbad].
Qed.

(** The placement a raw rule asks for never reaches a policy: whatever the
    raw rule says under [database], [schema], [table] or [catalog], the
    policies of the transformed rule carry the defaults and no table, and
    their name comes from the raw identifier or, without one, from the
    clock. *)
Theorem placement_is_dropped (now : clock) (rule_data rule : dict) :
  transform_security_rule repr now rule_data = inr rule ->
  exists name ps qs,
    name = "atlan_" ++
           py_str repr (dict_get "rule_id"
                          (VStr ("rule_" ++ strftime_YmdHMS (at_rule_id now)))
                          rule_data) /\
    format_for_downstream repr rule "snowflake"
      = inr [("type", VStr "snowflake_policy");
             ("name", VStr name);
             ("database", VStr "PUBLIC");
             ("schema", VStr "PUBLIC");
             ("table", VNone);
             ("conditions", VList ps);
             ("actions", VList qs)] /\
    format_for_downstream repr rule "databricks"
      = inr [("type", VStr "databricks_policy");
             ("name", VStr name);
             ("catalog", VStr "hive_metastore");
             ("schema", VStr "default");
             ("table", VNone);
             ("conditions", VList ps);
             ("actions", VList qs)].
Proof.
  intros H. pose proof (transformed_formattable repr _ _ _ H) as Hf.
  apply format_formattable with (repr := repr) in Hf.
  destruct Hf as [rule_id [cs [xs [ps [qs [Hid [_ [_ [_ [_ [Hsf Hdb]]]]]]]]]]].
  apply transform_inr in H.
  destruct H as [rt [rcs [cs' [rxs [xs' [_ [_ [_ [_ [_ [_ ->]]]]]]]]]]].
  inversion Hid; subst rule_id.
  eexists _, ps, qs. split; [reflexivity |].
  split; [exact Hsf | exact Hdb].
Qed.

(** The two targets stand or fall together: on any rule both formatters
    raise the same exception, or both return, with the same name, table,
    conditions and actions. *)
Theorem targets_agree (rule : dict) :
  match format_for_downstream repr rule "snowflake",
        format_for_downstream repr rule "databricks" with
  | inl e, inl e' => e = e'
  | inr sf, inr db =>
      forall k, In k ["name"; "table"; "conditions"; "actions"] ->
        dict_lookup k sf = dict_lookup k db
  | _, _ => False
  end.
Proof.
  unfold format_for_downstream. cbn [String.eqb Ascii.eqb Bool.eqb].
  unfold _format_for_snowflake, _format_for_databricks,
    _format_snowflake_conditions, _format_databricks_conditions,
    _format_snowflake_actions, _format_databricks_actions.
  destruct (dict_getitem rule "rule_id") as [e | rule_id]; cbn [bind ret];
    [reflexivity |].
  destruct (dict_getitem rule "conditions") as [e | c]; cbn [bind ret];
    [reflexivity |].
  destruct (py_iter c) as [e | cs]; cbn [bind ret]; [reflexivity |].
  destruct (comprehension format_condition cs) as [e | ps]; cbn [bind ret];
    [reflexivity |].
  destruct (dict_getitem rule "actions") as [e | x]; cbn [bind ret];
    [reflexivity |].
  destruct (py_iter x) as [e | xs]; cbn [bind ret]; [reflexivity |].
  destruct (comprehension format_action xs) as [e | qs]; cbn [bind ret];
    [reflexivity |].
  intros k [<- | [<- | [<- | [<- | []]]]]; reflexivity.
Qed.

(** ** The second pass, seen from downstream *)

Lemma retransform_transformed (now now' : clock) (rule_data incoming : dict)
    (rt : value) (raw_cs cs raw_xs xs : list value) :
  is_supported rt = true ->
  Forall2 transforms_condition raw_cs cs ->
  Forall2 transforms_action raw_xs xs ->
  dict_lookup "rule_type" incoming = None ->
  dict_lookup "conditions" incoming = None ->
  dict_lookup "actions" incoming = None ->
  exists cs' xs',
    Forall2 resets_condition cs cs' /\
    Forall2 resets_action xs xs' /\
    update_transform repr now' (transformed now rule_data rt cs xs) incoming
      = inr (transformed now'
               (dict_merge (transformed now rule_data rt cs xs) incoming)
               rt cs' xs').
Proof.
  intros Hs HFc HFx Hrt Hc Hx.
  destruct (retransform_conditions _ _ HFc) as [cs' [Hcs' Hreset]].
  destruct (retransform_actions _ _ HFx) as [xs' [Hxs' Hreset']].
  set (rule := transformed now rule_data rt cs xs).
  exists cs', xs'. split; [exact Hreset |]. split; [exact Hreset' |].
  unfold update_transform, transform_security_rule, dict_get.
  rewrite (dict_lookup_merge_absent "rule_type" rule incoming Hrt).
  rewrite (dict_lookup_merge_absent "conditions" rule incoming Hc).
  rewrite (dict_lookup_merge_absent "actions" rule incoming Hx).
  replace (dict_lookup "rule_type" rule) with (Some rt) by reflexivity.
  replace (dict_lookup "conditions" rule) with (Some (VList cs)) by reflexivity.
  replace (dict_lookup "actions" rule) with (Some (VList xs)) by reflexivity.
  rewrite Hs. cbn [negb].
  unfold _transform_conditions, _transform_actions. cbn [py_iter bind ret].
  rewrite (for_append_Forall2 _ _ _ [] Hcs'). cbn [bind ret app].
  rewrite (for_append_Forall2 _ _ _ [] Hxs'). reflexivity.
Qed.

Lemma reset_conditions_format (cs cs' : list value) :
  Forall2 resets_condition cs cs' ->
  comprehension format_condition cs' = comprehension format_condition cs.
Proof.
  induction 1 as [| c c' cs cs' Hc _ IH]; [reflexivity |].
  destruct Hc as [f [o [v [m [-> ->]]]]]. simpl. rewrite IH. reflexivity.
Qed.

Lemma reset_actions_format (xs xs' : list value) :
  Forall2 resets_action xs xs' ->
  comprehension format_action xs' = comprehension format_action xs.
Proof.
  induction 1 as [| a a' xs xs' Ha _ IH]; [reflexivity |].
  destruct Ha as [t [p [m [-> ->]]]]. simpl. rewrite IH. reflexivity.
Qed.

Lemma format_transformed (now : clock) (rule_data : dict) (rt : value)
    (cs xs : list value) (target : string) :
  format_for_downstream repr (transformed now rule_data rt cs xs) target
  = if String.eqb target "snowflake" then
      ps <- comprehension format_condition cs ;;
      qs <- comprehension format_action xs ;;
      ret (snowflake_policy repr [] 
             (dict_get "rule_id" (VStr (_generate_rule_id (at_rule_id now))) rule_data)
             ps qs)
    else if String.eqb target "databricks" then
      ps <- comprehension format_condition cs ;;
      qs <- comprehension format_action xs ;;
      ret (databricks_policy repr []
             (dict_get "rule_id" (VStr (_generate_rule_id (at_rule_id now))) rule_data)
             ps qs)
    else raise (ValueError ("Unsupported target system: " ++ target)).
Proof.
  unfold format_for_downstream.
  destruct (String.eqb target "snowflake"); [| destruct (String.eqb target "databricks")].
  - unfold _format_for_snowflake, _format_snowflake_conditions,
      _format_snowflake_actions.
    replace (dict_getitem (transformed now rule_data rt cs xs) "rule_id")
      with (@inr exn value
              (dict_get "rule_id" (VStr (_generate_rule_id (at_rule_id now))) rule_data))
      by reflexivity.
    replace (dict_getitem (transformed now rule_data rt cs xs) "conditions")
      with (@inr exn value (VList cs)) by reflexivity.
    replace (dict_getitem (transformed now rule_data rt cs xs) "actions")
      with (@inr exn value (VList xs)) by reflexivity.
    cbn [bind ret py_iter].
    destruct (comprehension format_condition cs); cbn [bind ret]; [reflexivity |].
    destruct (comprehension format_action xs); reflexivity.
  - unfold _format_for_databricks, _format_databricks_conditions,
      _format_databricks_actions.
    replace (dict_getitem (transformed now rule_data rt cs xs) "rule_id")
      with (@inr exn value
              (dict_get "rule_id" (VStr (_generate_rule_id (at_rule_id now))) rule_data))
      by reflexivity.
    replace (dict_getitem (transformed now rule_data rt cs xs) "conditions")
      with (@inr exn value (VList cs)) by reflexivity.
    replace (dict_getitem (transformed now rule_data rt cs xs) "actions")
      with (@inr exn value (VList xs)) by reflexivity.
    cbn [bind ret py_iter].
    destruct (comprehension format_condition cs); cbn [bind ret]; [reflexivity |].
    destruct (comprehension format_action xs); reflexivity.
  - reflexivity.
Qed.

(** What the second pass loses is nothing a target reads: when the update
    path sends a transformed rule through the transformer again, with
    incoming fields that leave [rule_id], [rule_type], [conditions] and
    [actions] alone, every target gets the policy it got before. *)
Theorem update_keeps_policies (now now' : clock)
    (rule_data rule incoming : dict) :
  transform_security_rule repr now rule_data = inr rule ->
  dict_lookup "rule_id" incoming = None ->
  dict_lookup "rule_type" incoming = None ->
  dict_lookup "conditions" incoming = None ->
  dict_lookup "actions" incoming = None ->
  exists rule',
    update_transform repr now' rule incoming = inr rule' /\
    forall target,
      format_for_downstream repr rule' target
      = format_for_downstream repr rule target.
Proof.
  intros H Hid Hrt Hc Hx. apply transform_inr in H.
  destruct H as [rt [raw_cs [cs [raw_xs [xs [_ [Hs [_ [HFc [_ [HFx ->]]]]]]]]]]].
  destruct (retransform_transformed now now' rule_data incoming rt _ _ _ _
              Hs HFc HFx Hrt Hc Hx) as [cs' [xs' [Hr [Hr' Hu]]]].
  eexists. split; [exact Hu |]. intros target.
  assert (Hrid :
    dict_get "rule_id" (VStr (_generate_rule_id (at_rule_id now')))
      (dict_merge (transformed now rule_data rt cs xs) incoming)
    = dict_get "rule_id" (VStr (_generate_rule_id (at_rule_id now))) rule_data).
  { unfold dict_get at 1.
    rewrite (dict_lookup_merge_absent "rule_id" _ incoming Hid). reflexivity. }
  rewrite !format_transformed, Hrid.
  rewrite (reset_conditions_format _ _ Hr), (reset_actions_format _ _ Hr').
  reflexivity.
Qed.

(** From the second pass on the transformer has nothing left to change: a
    rule that has been through it twice is returned as it is by a further
    pass at the same clock readings. *)
Theorem second_pass_is_fixed (now now' : clock) (rule_data rule rule' : dict) :
  transform_security_rule repr now rule_data = inr rule ->
  transform_security_rule repr now' rule = inr rule' ->
  transform_security_rule repr now' rule' = inr rule'.
Proof.
  intros H H'. apply transform_inr in H.
  destruct H as [rt [raw_cs [cs [raw_xs [xs [_ [Hs [_ [HFc [_ [HFx ->]]]]]]]]]]].
  destruct (retransform_transformed now now' rule_data [] rt _ _ _ _
              Hs HFc HFx eq_refl eq_refl eq_refl) as [cs' [xs' [Hr [Hr' Hu]]]].
  unfold update_transform in Hu. cbn [dict_merge fold_left] in Hu.
  rewrite Hu in H'. inversion H'; subst rule'. clear H' Hu.
  assert (Hcs : Forall2 (fun c c' => transform_condition c = inr c') cs' cs').
  { clear - Hr. induction Hr as [| c c' cs cs' Hc _ IH]; constructor; [| exact IH].
    destruct Hc as [f [o [v [m [_ ->]]]]]. reflexivity. }
  assert (Hxs : Forall2 (fun a a' => transform_action a = inr a') xs' xs').
  { clear - Hr'. induction Hr' as [| a a' xs xs' Ha _ IH]; constructor; [| exact IH].
    destruct Ha as [t [p [m [_ ->]]]]. reflexivity. }
  set (rule := transformed now rule_data rt cs xs).
  unfold transform_security_rule, dict_get.
  replace (dict_lookup "rule_type" (transformed now' rule rt cs' xs'))
    with (Some rt) by reflexivity.
  replace (dict_lookup "conditions" (transformed now' rule rt cs' xs'))
    with (Some (VList cs')) by reflexivity.
  replace (dict_lookup "actions" (transformed now' rule rt cs' xs'))
    with (Some (VList xs')) by reflexivity.
  rewrite Hs. cbn [negb].
  unfold _transform_conditions, _transform_actions. cbn [py_iter bind ret].
  rewrite (for_append_Forall2 _ _ _ [] Hcs). cbn [bind ret app].
  rewrite (for_append_Forall2 _ _ _ [] Hxs). reflexivity.
Qed.

End Compositions.

(** ** The store *)

Section StorageProperties.

Variable env : services.

(** [store_metadata] without an [event_id] raises [ValueError] and asks
    nothing of the table; with one it puts a single item of nine keys (the
    caller's values or the defaults, and timestamps of its own) and returns
    the identifier, or raises what the table raised. *)
Theorem store_metadata_effect (now : store_clock) (metadata : dict)
    (h : list call) :
  match dict_lookup "event_id" metadata with
  | None =>
      DynamoDBStorage.store_metadata env now metadata h
      = (inl (Raised (ValueError "Missing required field: event_id")), h)
  | Some event_id =>
      exists item,
        DynamoDBStorage.build_item now metadata = inr item /\
        map fst item = ["event_id"; "event_type"; "timestamp"; "source";
                        "tenant_id"; "payload"; "metadata"; "created_at";
                        "updated_at"] /\
        dict_lookup "event_id" item = Some event_id /\
        dict_lookup "created_at" item = Some (VStr (isoformat (at_item_created now))) /\
        dict_lookup "updated_at" item = Some (VStr (isoformat (at_item_updated now))) /\
        DynamoDBStorage.store_metadata env now metadata h
        = (match respond env h (PutItem item) with
           | inl e => inl e
           | inr _ => inr event_id
           end, (h ++ [PutItem item])%list)
  end.
Proof.
  unfold DynamoDBStorage.store_metadata, DynamoDBStorage.build_item,
    dict_mem, dict_getitem.
  destruct (dict_lookup "event_id" metadata) as [event_id |]; cbn [negb].
  - eexists. split; [reflexivity |]. repeat split.
    unfold io_bind, lift, request. cbn [bind ret].
    destruct (respond env h _); reflexivity.
  - reflexivity.
Qed.

Lemma collect_updates_names (updates : dict) (parts : DynamoDBStorage.update_parts)
    (key : string) :
  DynamoDBStorage.immutable key = true ->
  dict_lookup ("#" ++ key) (DynamoDBStorage.expression_names parts) = None ->
  dict_lookup ("#" ++ key)
    (DynamoDBStorage.expression_names (DynamoDBStorage.collect_updates updates parts))
  = None.
Proof.
  intros Hk. revert parts.
  induction updates as [| [k v] updates IH]; simpl; intros parts Hp.
  - exact Hp.
  - destruct (DynamoDBStorage.immutable k) eqn:Hi.
    + now apply IH.
    + apply IH. simpl. rewrite dict_lookup_set_other; [exact Hp |].
      intros Heq. inversion Heq; subst. congruence.
Qed.

Lemma collect_updates_empty (updates : dict) (parts : DynamoDBStorage.update_parts) :
  DynamoDBStorage.update_expressions (DynamoDBStorage.collect_updates updates parts) = [] <->
  DynamoDBStorage.update_expressions parts = [] /\
  forallb (fun kv => DynamoDBStorage.immutable (fst kv)) updates = true.
Proof.
  revert parts. induction updates as [| [k v] updates IH]; simpl; intros parts.
  - tauto.
  - destruct (DynamoDBStorage.immutable k); simpl.
    + apply IH.
    + rewrite IH. simpl. split.
      * intros [H _]. destruct (DynamoDBStorage.update_expressions parts); discriminate.
      * intros [_ H]. discriminate.
Qed.

(** [update_metadata] never raises.  With nothing to update but [event_id]
    and [created_at] it returns false and asks nothing of the table.
    Otherwise it sends one update, which never names [event_id] or
    [created_at] and always sets [updated_at] to its own reading of the
    clock, and returns whether the table took it; a refusal is printed. *)
Theorem update_metadata_effect (now : datetime) (event_id : value)
    (updates : dict) (h : list call) :
  (forallb (fun kv => DynamoDBStorage.immutable (fst kv)) updates = true /\
   DynamoDBStorage.update_metadata env now event_id updates h = (inr false, h)) \/
  (forallb (fun kv => DynamoDBStorage.immutable (fst kv)) updates = false /\
   exists expression values names,
     let update := UpdateItem [("event_id", event_id)] expression values names in
     dict_lookup "#event_id" names = None /\
     dict_lookup "#created_at" names = None /\
     dict_lookup ":updated_at" values = Some (VStr (isoformat now)) /\
     dict_lookup "#updated_at" names = Some (VStr "updated_at") /\
     DynamoDBStorage.update_metadata env now event_id updates h
     = match respond env h update with
       | inr _ => (inr true, (h ++ [update])%list)
       | inl e =>
           (inr false,
            (h ++ [update; Print "Error updating metadata: " e])%list)
       end).
Proof.
  unfold DynamoDBStorage.update_metadata.
  set (start := {| DynamoDBStorage.update_expressions := [];
                   DynamoDBStorage.expression_values := [];
                   DynamoDBStorage.expression_names := [] |}).
  pose proof (collect_updates_empty updates start) as Hempty.
  pose proof (collect_updates_names updates start "event_id" eq_refl eq_refl) as Hn1.
  pose proof (collect_updates_names updates start "created_at" eq_refl eq_refl) as Hn2.
  destruct (DynamoDBStorage.update_expressions
              (DynamoDBStorage.collect_updates updates start)) as [| clause clauses] eqn:Hparts.
  - left. split; [apply Hempty; reflexivity | reflexivity].
  - right. split.
    + destruct (forallb (fun kv => DynamoDBStorage.immutable (fst kv)) updates);
        [| reflexivity].
      destruct Hempty as [_ Hempty]. discriminate Hempty. now split.
    + set (parts := DynamoDBStorage.add_update
                      (DynamoDBStorage.collect_updates updates start)
                      "updated_at" (VStr (isoformat now))).
      exists ("SET " ++ String.concat ", " (DynamoDBStorage.update_expressions parts)),
        (DynamoDBStorage.expression_values parts),
        (DynamoDBStorage.expression_names parts).
      cbv zeta. split; [| split; [| split; [| split]]].
      * unfold parts. simpl.
        rewrite dict_lookup_set_other by discriminate. exact Hn1.
      * unfold parts. simpl.
        rewrite dict_lookup_set_other by discriminate. exact Hn2.
      * unfold parts. simpl. apply dict_lookup_set_same.
      * unfold parts. simpl. apply dict_lookup_set_same.
      * unfold try_except, io_bind, request, print, io_ret.
        fold parts.
        destruct (respond env h _); [| reflexivity].
        rewrite <- app_assoc. reflexivity.
Qed.

End StorageProperties.

(** ** The further theorems at the examples *)

Lemma validate_rule_decides_witness :
  rule_typed email_rule = true /\
  validate_rule email_rule = inr (valid_shape email_rule).
Proof.
  split; [reflexivity |]. apply (validate_rule_decides email_rule). reflexivity.
Defined.

Lemma validate_rule_raises_late_witness :
  (forallb (fun field => dict_mem field untyped_partial_rule) required_fields
   = false /\
   validate_rule untyped_partial_rule = inr false) /\
  (is_supported (dict_get "rule_type" VNone untyped_other_rule) = false /\
   validate_rule untyped_other_rule = inr false) /\
  validate_rule untyped_rule = inl TypeError /\
  TypeError = TypeError /\
  forallb (fun field => dict_mem field untyped_rule) required_fields = true /\
  is_supported (dict_get "rule_type" VNone untyped_rule) = true.
Proof.
  destruct (validate_rule_raises_late untyped_partial_rule) as [Hkeys _].
  destruct (validate_rule_raises_late untyped_other_rule) as [_ [Htype _]].
  destruct (validate_rule_raises_late untyped_rule) as [_ [_ Hraise]].
  split; [split; [reflexivity | apply Hkeys; reflexivity] |].
  split; [split; [reflexivity | apply Htype; reflexivity] |].
  split; [reflexivity |].
  apply (Hraise TypeError). reflexivity.
Defined.

Lemma malformed_action_rejected_witness :
  dict_lookup "rule_type" no_type_rule_data = Some (VStr "PII") /\
  transform_security_rule plain_repr noon no_type_rule_data
    = inl (ValueError "Invalid action format").
Proof.
  split; [reflexivity |].
  apply (malformed_action_rejected plain_repr noon no_type_rule_data (VStr "PII")
           [VDict [("parameters", VDict [])]]); reflexivity.
Defined.

Lemma placement_is_dropped_witness :
  dict_lookup "database" placed_rule_data = Some (VStr "SALES") /\
  exists rule policy,
    transform_security_rule plain_repr noon placed_rule_data = inr rule /\
    format_for_downstream plain_repr rule "snowflake" = inr policy /\
    dict_lookup "name" policy = Some (VStr "atlan_r7") /\
    dict_lookup "database" policy = Some (VStr "PUBLIC") /\
    dict_lookup "table" policy = Some VNone.
Proof.
  split; [reflexivity |].
  destruct (transform_security_rule plain_repr noon placed_rule_data)
    as [e | rule] eqn:Ht; [discriminate Ht |].
  destruct (placement_is_dropped plain_repr noon placed_rule_data rule Ht)
    as [name [ps [qs [Hn [Hsf _]]]]].
  exists rule. eexists. split; [reflexivity |]. split; [exact Hsf |].
  subst name. split; [reflexivity |]. split; reflexivity.
Defined.

Lemma targets_agree_witness :
  format_for_downstream plain_repr [] "snowflake" = inl (KeyError "rule_id") /\
  format_for_downstream plain_repr [] "databricks" = inl (KeyError "rule_id") /\
  KeyError "rule_id" = KeyError "rule_id".
Proof.
  split; [reflexivity |]. split; [reflexivity |].
  exact (targets_agree plain_repr []).
Defined.

Lemma update_keeps_policies_witness :
  transform_security_rule plain_repr noon email_rule_data = inr email_rule /\
  exists rule',
    update_transform plain_repr later email_rule [("asset_type", VStr "view")]
      = inr rule' /\
    forall target,
      format_for_downstream plain_repr rule' target
      = format_for_downstream plain_repr email_rule target.
Proof.
  split; [reflexivity |].
  apply (update_keeps_policies plain_repr noon later email_rule_data email_rule
           [("asset_type", VStr "view")]); reflexivity.
Defined.

Lemma second_pass_is_fixed_witness :
  exists rule',
    transform_security_rule plain_repr noon email_rule_data = inr email_rule /\
    transform_security_rule plain_repr later email_rule = inr rule' /\
    rule' <> email_rule /\
    transform_security_rule plain_repr later rule' = inr rule'.
Proof.
  destruct (transform_security_rule plain_repr later email_rule)
    as [e | rule'] eqn:H2; [discriminate H2 |].
  exists rule'. split; [reflexivity |]. split; [reflexivity |]. split.
  - vm_compute in H2. inversion H2. discriminate.
  - apply (second_pass_is_fixed plain_repr noon later email_rule_data email_rule
             rule'); [reflexivity | exact H2].
Defined.

(** ** Computations that make calls *)

Lemma io_bind_inr {A B : Type} (m : io A) (k : A -> io B) (h h' : list call)
    (b : B) :
  io_bind m k h = (inr b, h') ->
  exists a h1, m h = (inr a, h1) /\ k a h1 = (inr b, h').
Proof.
  unfold io_bind. destruct (m h) as [[e | a] h1]; intros H.
  - discriminate.
  - now exists a, h1.
Qed.

Lemma lift_inr {A : Type} (r : result A) (h h' : list call) (a : A) :
  lift r h = (inr a, h') -> r = inr a /\ h' = h.
Proof.
  unfold lift. destruct r; intros H; inversion H; auto.
Qed.

Lemma io_bind_lift {A B : Type} (r : result A) (k : A -> io B) (h : list call) :
  io_bind (lift r) k h
  = match r with
    | inl e => (inl (Raised e), h)
    | inr a => k a h
    end.
Proof. unfold io_bind, lift. destruct r; reflexivity. Qed.

Lemma io_bind_run {A B : Type} (m : io A) (k : A -> io B) (h h' : list call)
    (r : failure + A) :
  m h = (r, h') ->
  io_bind m k h
  = match r with
    | inl e => (inl e, h')
    | inr a => k a h'
    end.
Proof. unfold io_bind. intros ->. destruct r; reflexivity. Qed.

Lemma io_bind_request {B : Type} (env : services) (c : call) (k : value -> io B)
    (h : list call) :
  io_bind (request env c) k h
  = match respond env h c with
    | inl e => (inl e, (h ++ [c])%list)
    | inr v => k v (h ++ [c])%list
    end.
Proof. unfold io_bind, request. destruct (respond env h c); reflexivity. Qed.

Lemma try_except_run {A : Type} (body : io A) (handler : failure -> io A)
    (h h' : list call) (r : failure + A) :
  body h = (r, h') ->
  try_except body handler h
  = match r with
    | inl e => handler e h'
    | inr a => (inr a, h')
    end.
Proof. unfold try_except. intros ->. destruct r; reflexivity. Qed.

Lemma store_metadata_run (env : services) (now : store_clock) (metadata : dict)
    (event_id : value) (h : list call) :
  dict_lookup "event_id" metadata = Some event_id ->
  exists item,
    DynamoDBStorage.build_item now metadata = inr item /\
    DynamoDBStorage.store_metadata env now metadata h
    = (match respond env h (PutItem item) with
       | inl e => inl e
       | inr _ => inr event_id
       end, (h ++ [PutItem item])%list).
Proof.
  intros Hid.
  unfold DynamoDBStorage.store_metadata, DynamoDBStorage.build_item,
    dict_mem, dict_getitem.
  rewrite Hid. cbn [negb bind ret]. eexists. split; [reflexivity |].
  unfold io_bind, lift, request, ret.
  destruct (respond env h _); reflexivity.
Qed.

Ltac io_inv H :=
  let a := fresh "a" in
  let h1 := fresh "h" in
  let Ha := fresh "Ha" in
  apply io_bind_inr in H; destruct H as [a [h1 [Ha H]]].

Ltac lift_inv H :=
  let Heq := fresh "Heq" in
  apply lift_inr in H; destruct H as [H Heq]; subst.

(** ** The webhook client *)

Lemma require_fields_dict (fields : list string) (payload : dict) :
  match MonteCarloClient.require_fields fields (VDict payload) with
  | inr _ => forallb (fun f => dict_mem f payload) fields = true
  | inl e =>
      exists before field after,
        fields = (before ++ field :: after)%list /\
        forallb (fun f => dict_mem f payload) before = true /\
        dict_mem field payload = false /\
        e = ValueError ("Missing required field: " ++ field)
  end.
Proof.
  induction fields as [| f fields IH]; simpl.
  - reflexivity.
  - destruct (dict_mem f payload) eqn:Hf; simpl.
    + destruct (MonteCarloClient.require_fields fields (VDict payload)).
      * destruct IH as [before [field [after [-> [Hb [Hm ->]]]]]].
        exists (f :: before), field, after. simpl. rewrite Hf, Hb. auto.
      * exact IH.
    + exists [], f, fields. auto.
Qed.

(** On a payload that is a mapping, [parse_webhook_event] returns exactly
    when the payload has [id], [type], [timestamp] and [data], and then the
    event is these four under their new names with the source
    "monte_carlo"; otherwise it raises [ValueError] with a message that
    names the first of the four, in this order, that the payload lacks. *)
Theorem parse_webhook_event_first_missing (payload : dict) :
  match MonteCarloClient.parse_webhook_event (VDict payload) with
  | inr event =>
      exists id type timestamp data,
        dict_lookup "id" payload = Some id /\
        dict_lookup "type" payload = Some type /\
        dict_lookup "timestamp" payload = Some timestamp /\
        dict_lookup "data" payload = Some data /\
        event = [("event_id", id); ("event_type", type);
                 ("timestamp", timestamp); ("source", VStr "monte_carlo");
                 ("payload", data)]
  | inl e =>
      exists before field after,
        ["id"; "type"; "timestamp"; "data"] = (before ++ field :: after)%list /\
        (forall f, In f before -> dict_lookup f payload <> None) /\
        dict_lookup field payload = None /\
        e = ValueError ("Missing required field: " ++ field)
  end.
Proof.
  unfold MonteCarloClient.parse_webhook_event.
  pose proof (require_fields_dict MonteCarloClient.required_fields payload) as Hreq.
  destruct (MonteCarloClient.require_fields MonteCarloClient.required_fields
              (VDict payload)) as [e | []]; cbn [bind].
  - destruct Hreq as [before [field [after [Hsplit [Hb [Hm ->]]]]]].
    exists before, field, after. repeat split; try assumption.
    + intros f Hf. rewrite forallb_forall in Hb. specialize (Hb f Hf).
      unfold dict_mem in Hb. destruct (dict_lookup f payload); congruence.
    + unfold dict_mem in Hm. destruct (dict_lookup field payload); congruence.
  - simpl in Hreq. rewrite !andb_true_iff in Hreq.
    destruct Hreq as [Hi [Ht [Hs [Hd _]]]].
    apply dict_mem_lookup in Hi, Ht, Hs, Hd.
    destruct Hi as [id Hi], Ht as [type Ht], Hs as [ts Hs], Hd as [data Hd].
    unfold py_getitem, dict_getitem. rewrite Hi, Ht, Hs, Hd. cbn [bind ret].
    exists id, type, ts, data. repeat split; assumption.
Qed.

Section ClientProperties.

Variable env : services.

(** When [enrich_incident_data] returns, it has asked for the details and
    then for the assets of the incident's [id], and nothing else; the
    enriched incident is the incident with [details] and [affected_assets]
    set to the two answers and [metadata] to the source and the
    [updated_at] of the details.  The incident's own values under these
    three names are overwritten, every other key keeps its value. *)
Theorem enrich_incident_data_keys (incident_data : value) (enriched : dict)
    (h h' : list call) :
  MonteCarloClient.enrich_incident_data env incident_data h = (inr enriched, h') ->
  exists incident incident_id details assets,
    let id := py_str (render env) incident_id in
    let get_details :=
      HttpGet (MonteCarloClient.base_url ++ "/incidents/" ++ id)
        (MonteCarloClient.headers env) in
    let get_assets :=
      HttpGet (MonteCarloClient.base_url ++ "/incidents/" ++ id ++ "/assets")
        (MonteCarloClient.headers env) in
    incident_data = VDict incident /\
    dict_lookup "id" incident = Some incident_id /\
    h' = (h ++ [get_details; get_assets])%list /\
    respond env h get_details = inr (VDict details) /\
    respond env (h ++ [get_details]) get_assets = inr assets /\
    dict_lookup "details" enriched = Some (VDict details) /\
    dict_lookup "affected_assets" enriched = Some assets /\
    dict_lookup "metadata" enriched
      = Some (VDict [("source", VStr "monte_carlo");
                     ("enrichment_timestamp", dict_get "updated_at" VNone details)]) /\
    forall k, k <> "details" -> k <> "affected_assets" -> k <> "metadata" ->
      dict_lookup k enriched = dict_lookup k incident.
Proof.
  unfold MonteCarloClient.enrich_incident_data. intros H.
  io_inv H. rename a into incident_id. lift_inv Ha.
  io_inv H. rename a into details, Ha0 into Hd.
  io_inv H. rename a into assets, Ha0 into Has.
  io_inv H. rename a into items. lift_inv Ha0.
  io_inv H. rename a into stamp. lift_inv Ha1.
  destruct incident_data as [| | | | | | incident]; try discriminate.
  cbn [py_getitem] in Ha. unfold dict_getitem in Ha.
  destruct (dict_lookup "id" incident) as [id |] eqn:Hid; [| discriminate].
  inversion Ha; subst id. inversion Ha0; subst items.
  destruct details as [| | | | | | details]; try discriminate.
  inversion Ha1; subst stamp.
  unfold MonteCarloClient.get_incident_details, MonteCarloClient.get_affected_assets,
    request in Hd, Has.
  injection Hd as Hrd Hh. subst h0. injection Has as Hra Hh. subst h1.
  unfold io_ret in H. injection H as He Hh. subst enriched h'.
  clear Ha Ha0 Ha1.
  exists incident, incident_id, details, assets. cbv zeta.
  split; [reflexivity |]. split; [exact Hid |].
  split; [now rewrite <- app_assoc |].
  split; [exact Hrd |]. split; [exact Hra |].
  split; [| split; [| split]].
  - rewrite dict_lookup_set_other by discriminate.
    rewrite dict_lookup_set_other by discriminate.
    apply dict_lookup_set_same.
  - rewrite dict_lookup_set_other by discriminate.
    apply dict_lookup_set_same.
  - apply dict_lookup_set_same.
  - intros k Hk1 Hk2 Hk3. now rewrite !dict_lookup_set_other.
Qed.

End ClientProperties.

(** ** The outbound pipeline, with its services *)

Section OutboundProperties.

Variable env : services.

(** After the transformer both targets are formatted: the fan-out prints
    nothing and returns both policies. *)
Lemma fan_out_transformed (now : clock) (event rule : dict) :
  transform_security_rule (render env) now event = inr rule ->
  exists sf db,
    format_for_downstream (render env) rule "snowflake" = inr sf /\
    format_for_downstream (render env) rule "databricks" = inr db /\
    _format_for_downstream_systems (render env) rule
    = {| downstream_rules := [("snowflake", VDict sf); ("databricks", VDict db)];
         printed := [] |}.
Proof.
  intros H. apply transformed_formattable, format_formattable with (repr := render env) in H.
  destruct H as [rule_id [cs [xs [ps [qs [_ [_ [_ [_ [_ [Hsf Hdb]]]]]]]]]]].
  eexists _, _. split; [exact Hsf |]. split; [exact Hdb |].
  unfold _format_for_downstream_systems, fan_out_with, try_format.
  rewrite Hsf, Hdb. reflexivity.
Qed.

(** [process_security_event], outcome by outcome.  When the transformer
    raises, nothing is stored and nothing published.  Otherwise the rule is
    put in the table under its [rule_id]; if the table refuses, nothing is
    published; if the bus refuses, the error is printed and raised and the
    item stays in the table; and when both accept, the result carries the
    policies of both targets. *)
Theorem process_security_event_outcomes (now : clock) (stored : store_clock)
    (event : dict) (h : list call) :
  match transform_security_rule (render env) now event with
  | inl e =>
      OutboundProcessor.process_security_event env now stored event h
      = (inl (Raised e), h)
  | inr rule =>
      exists rule_id item sf db,
        dict_lookup "rule_id" rule = Some rule_id /\
        dict_lookup "event_id" item = Some rule_id /\
        dict_lookup "event_type" item = Some (VStr "security_rule") /\
        dict_lookup "payload" item = Some (VDict rule) /\
        format_for_downstream (render env) rule "snowflake" = inr sf /\
        format_for_downstream (render env) rule "databricks" = inr db /\
        let put := PutItem item in
        let publish :=
          PutEvents [("Source", VStr "atlan.lily");
                     ("DetailType", VStr "security_rule");
                     ("Detail", VStr (json_dumps env (VDict rule)));
                     ("EventBusName", VStr (EVENT_BUS_NAME env))] in
        OutboundProcessor.process_security_event env now stored event h
        = match respond env h put with
          | inl e => (inl e, (h ++ [put])%list)
          | inr _ =>
              match respond env (h ++ [put]) publish with
              | inl e =>
                  (inl e,
                   (h ++ [put; publish;
                          Print "Error publishing to EventBridge: " e])%list)
              | inr _ =>
                  (inr [("event_id", rule_id);
                        ("status", VStr "processed");
                        ("downstream_rules",
                         VDict [("snowflake", VDict sf); ("databricks", VDict db)])],
                   (h ++ [put; publish])%list)
              end
          end
  end.
Proof.
  unfold OutboundProcessor.process_security_event.
  destruct (transform_security_rule (render env) now event) as [e | rule] eqn:Ht.
  - reflexivity.
  - destruct (fan_out_transformed _ _ _ Ht) as [sf [db [Hsf [Hdb Hfan]]]].
    pose proof (transformed_valid _ _ _ _ Ht) as Hv.
    apply transform_inr in Ht.
    destruct Ht as [rt [rcs [cs [rxs [xs [_ [_ [_ [_ [_ [_ Hrule]]]]]]]]]]].
    set (rule_id := dict_get "rule_id" (VStr (_generate_rule_id (at_rule_id now))) event).
    assert (Hid : dict_lookup "rule_id" rule = Some rule_id) by (subst rule; reflexivity).
    assert (Hmeta : dict_getitem rule "metadata"
                    = inr (VDict [("created_at", VStr (isoformat (at_created now)));
                                  ("updated_at", VStr (isoformat (at_updated now)));
                                  ("source", VStr "atlan");
                                  ("version", VStr "1.0")]))
      by (subst rule; reflexivity).
    clear Hrule.
    set (metadata := [("event_id", rule_id);
                      ("event_type", VStr "security_rule");
                      ("timestamp", VStr (isoformat (at_created now)));
                      ("source", VStr "atlan");
                      ("payload", VDict rule)]).
    destruct (store_metadata_run env stored metadata rule_id h eq_refl)
      as [item [Hitem Hstore]].
    injection Hitem as Hitem.
    exists rule_id, item, sf, db.
    split; [exact Hid |].
    split; [subst item; reflexivity |].
    split; [subst item; reflexivity |].
    split; [subst item; reflexivity |].
    split; [exact Hsf |]. split; [exact Hdb |].
    cbv zeta.
    rewrite io_bind_lift, io_bind_lift, Hv. cbn [negb].
    rewrite io_bind_lift. unfold dict_getitem at 1. rewrite Hid. cbn [ret].
    rewrite io_bind_lift, Hmeta, io_bind_lift.
    replace (py_getitem
               (VDict [("created_at", VStr (isoformat (at_created now)));
                       ("updated_at", VStr (isoformat (at_updated now)));
                       ("source", VStr "atlan"); ("version", VStr "1.0")])
               "created_at")
      with (@inr exn value (VStr (isoformat (at_created now)))) by reflexivity.
    fold metadata. rewrite (io_bind_run _ _ _ _ _ Hstore).
    destruct (respond env h (PutItem item)); [reflexivity |].
    rewrite Hfan. cbn [printed downstream_rules OutboundProcessor.print_all].
    unfold OutboundProcessor._publish_to_eventbridge, try_except, io_bind,
      request, print, io_ret, io_raise.
    destruct (respond env (h ++ [PutItem item]) _);
      rewrite <- !app_assoc; reflexivity.
Qed.

End OutboundProperties.

(** ** What computations ask for, step by step *)

Section Calls.

Variable p : call -> bool.

Lemma only_calls_ret {A : Type} (a : A) : only_calls p (io_ret a).
Proof. intros h. exists []. now rewrite app_nil_r. Qed.

Lemma only_calls_raise {A : Type} (e : failure) : only_calls p (@io_raise A e).
Proof. intros h. exists []. now rewrite app_nil_r. Qed.

Lemma only_calls_lift {A : Type} (r : result A) : only_calls p (lift r).
Proof. intros h. exists []. unfold lift. destruct r; now rewrite app_nil_r. Qed.

Lemma only_calls_lift_outcome {A : Type} (r : failure + A) :
  only_calls p (lift_outcome r).
Proof. intros h. exists []. now rewrite app_nil_r. Qed.

Lemma only_calls_history : only_calls p history.
Proof. intros h. exists []. now rewrite app_nil_r. Qed.

Lemma only_calls_bind {A B : Type} (m : io A) (k : A -> io B) :
  only_calls p m -> (forall a, only_calls p (k a)) -> only_calls p (io_bind m k).
Proof.
  intros Hm Hk h. unfold io_bind.
  destruct (Hm h) as [calls [Hh Hp]].
  destruct (m h) as [[e | a] h1]; simpl in Hh; subst h1.
  - now exists calls.
  - destruct (Hk a (h ++ calls)%list) as [calls' [Hh' Hp']].
    exists (calls ++ calls')%list. rewrite Hh', app_assoc. split; [reflexivity |].
    rewrite forallb_app, Hp, Hp'. reflexivity.
Qed.

Lemma only_calls_try {A : Type} (body : io A) (handler : failure -> io A) :
  only_calls p body -> (forall e, only_calls p (handler e)) ->
  only_calls p (try_except body handler).
Proof.
  intros Hb Hh h. unfold try_except.
  destruct (Hb h) as [calls [Heq Hp]].
  destruct (body h) as [[e | a] h1]; simpl in Heq; subst h1.
  - destruct (Hh e (h ++ calls)%list) as [calls' [Hh' Hp']].
    exists (calls ++ calls')%list. rewrite Hh', app_assoc. split; [reflexivity |].
    rewrite forallb_app, Hp, Hp'. reflexivity.
  - now exists calls.
Qed.

Lemma only_calls_request (env : services) (c : call) :
  p c = true -> only_calls p (request env c).
Proof. intros Hc h. exists [c]. simpl. now rewrite Hc. Qed.

Lemma only_calls_print (text : string) (e : failure) :
  p (Print text e) = true -> only_calls p (print text e).
Proof. intros Hc h. exists [Print text e]. simpl. now rewrite Hc. Qed.

End Calls.

Lemma returns_ret {A : Type} (a : A) : returns (io_ret a).
Proof. intros h. now exists a, h. Qed.

Lemma returns_print (text : string) (e : failure) : returns (print text e).
Proof. intros h. now eexists tt, _. Qed.

Lemma returns_bind {A B : Type} (m : io A) (k : A -> io B) :
  returns m -> (forall a, returns (k a)) -> returns (io_bind m k).
Proof.
  intros Hm Hk h. unfold io_bind. destruct (Hm h) as [a [h1 ->]]. apply Hk.
Qed.

(** A handler that returns makes the whole [try] return, whatever the body
    does. *)
Lemma returns_try {A : Type} (body : io A) (handler : failure -> io A) :
  (forall e, returns (handler e)) -> returns (try_except body handler).
Proof.
  intros Hh h. unfold try_except. destruct (body h) as [[e | a] h1].
  - apply Hh.
  - now exists a, h1.
Qed.

(** ** The queue *)

Section QueueProperties.

Variable env : services.

Lemma store_metadata_calls (now : store_clock) (metadata : dict) :
  only_calls not_delete_message (DynamoDBStorage.store_metadata env now metadata).
Proof.
  unfold DynamoDBStorage.store_metadata.
  destruct (negb (dict_mem "event_id" metadata)).
  - apply only_calls_raise.
  - apply only_calls_bind; [apply only_calls_lift |]. intros item.
    apply only_calls_bind; [now apply only_calls_request |]. intros _.
    apply only_calls_lift.
Qed.

Lemma print_all_calls (lines : list (string * exn)) :
  only_calls not_delete_message (OutboundProcessor.print_all lines).
Proof.
  induction lines as [| [text e] lines IH]; simpl.
  - apply only_calls_ret.
  - apply only_calls_bind; [now apply only_calls_print |]. intros _. exact IH.
Qed.

Lemma publish_calls (event : dict) :
  only_calls not_delete_message (OutboundProcessor._publish_to_eventbridge env event).
Proof.
  unfold OutboundProcessor._publish_to_eventbridge. apply only_calls_try.
  - apply only_calls_bind; [now apply only_calls_request |]. intros _.
    apply only_calls_ret.
  - intros e. apply only_calls_bind; [now apply only_calls_print |]. intros _.
    apply only_calls_raise.
Qed.

Lemma process_security_event_calls (now : clock) (stored : store_clock)
    (event : dict) :
  only_calls not_delete_message
    (OutboundProcessor.process_security_event env now stored event).
Proof.
  unfold OutboundProcessor.process_security_event.
  apply only_calls_bind; [apply only_calls_lift |]. intros rule.
  apply only_calls_bind; [apply only_calls_lift |]. intros valid.
  destruct (negb valid); [apply only_calls_raise |].
  apply only_calls_bind; [apply only_calls_lift |]. intros rule_id.
  apply only_calls_bind; [apply only_calls_lift |]. intros metadata.
  apply only_calls_bind; [apply only_calls_lift |]. intros created_at.
  apply only_calls_bind; [apply store_metadata_calls |]. intros event_id.
  apply only_calls_bind; [apply print_all_calls |]. intros _.
  apply only_calls_bind; [apply publish_calls |]. intros _.
  apply only_calls_ret.
Qed.

Lemma process_body_calls (now : clock) (stored : store_clock) (body : value) :
  only_calls not_delete_message (OutboundProcessor.process_body env now stored body).
Proof.
  assert (Hother : forall v,
    only_calls not_delete_message
      (present <-- lift (py_in "rule_type" v) ;;
       if negb present
       then io_raise (Raised (ValueError "Missing required field: rule_type"))
       else _ <-- lift (py_getitem v "rule_type") ;;
            @io_raise dict (Raised TypeError))).
  { intros v. apply only_calls_bind; [apply only_calls_lift |]. intros present.
    destruct (negb present); [apply only_calls_raise |].
    apply only_calls_bind; [apply only_calls_lift |]. intros _.
    apply only_calls_raise. }
  destruct body; try apply Hother. apply process_security_event_calls.
Qed.

Lemma loads_calls (v : value) :
  only_calls not_delete_message (OutboundProcessor.loads env v).
Proof.
  destruct v; try apply only_calls_raise. apply only_calls_lift_outcome.
Qed.

Lemma loads_run (v : value) (h h' : list call) (r : failure + value) :
  OutboundProcessor.loads env v h = (r, h') -> h' = h.
Proof.
  destruct v; unfold OutboundProcessor.loads, io_raise, lift_outcome;
    intros H; now inversion H.
Qed.

Lemma print_checked_run (text : string) (e : failure) (h : list call)
    (k : io dict) :
  (_ <-- OutboundProcessor.print_checked env text e ;; k) h
  = match respond env h (Print text e) with
    | inl refused => (inl refused, h)
    | inr _ => k (h ++ [Print text e])%list
    end.
Proof.
  unfold io_bind, OutboundProcessor.print_checked.
  destruct (respond env h (Print text e)); reflexivity.
Qed.

(** [process_sqs_message] deletes a message only once it has been
    processed, and as the last thing it asks of a service.  When it returns,
    the body of the message was decoded, [process_security_event] returned on
    it the very result that is returned, without asking for any delete, and
    the delete of the message's receipt handle was then asked for and
    accepted.  When it raises, either no delete was asked for at all, or the
    message had been processed and the delete itself is what failed; the
    error is then handed to [print], last, and it is the error raised unless
    standard output refuses it, in which case what standard output raised is
    raised in its place and nothing is printed. *)
Theorem process_sqs_message_deletes_last (now : clock) (stored : store_clock)
    (message : value) (h h' : list call) (r : failure + dict) :
  OutboundProcessor.process_sqs_message env now stored message h = (r, h') ->
  match r with
  | inr result =>
      exists before receipt_handle answer,
        processed env now stored message h result before /\
        py_getitem message "ReceiptHandle" = inr receipt_handle /\
        respond env (h ++ before)
          (DeleteMessage (OUTBOUND_QUEUE_URL env) receipt_handle) = inr answer /\
        h' = (h ++ before
                ++ [DeleteMessage (OUTBOUND_QUEUE_URL env) receipt_handle])%list
  | inl e =>
      exists cause calls,
        (forallb not_delete_message calls = true \/
         exists result before receipt_handle,
           processed env now stored message h result before /\
           py_getitem message "ReceiptHandle" = inr receipt_handle /\
           respond env (h ++ before)
             (DeleteMessage (OUTBOUND_QUEUE_URL env) receipt_handle)
           = inl cause /\
           calls = (before
                      ++ [DeleteMessage (OUTBOUND_QUEUE_URL env) receipt_handle])%list) /\
        match respond env (h ++ calls)
                (Print "Error processing SQS message: " cause) with
        | inr _ =>
            e = cause /\
            h' = (h ++ calls
                    ++ [Print "Error processing SQS message: " cause])%list
        | inl refused => e = refused /\ h' = (h ++ calls)%list
        end
  end.
Proof.
  unfold OutboundProcessor.process_sqs_message, try_except.
  assert (Hhandler : forall (cause : failure) (g : list call),
    (_ <-- OutboundProcessor.print_checked env "Error processing SQS message: "
             cause ;; @io_raise dict cause) g = (r, h') ->
    match r with
    | inr _ => False
    | inl e =>
        match respond env g (Print "Error processing SQS message: " cause) with
        | inr _ =>
            e = cause /\
            h' = (g ++ [Print "Error processing SQS message: " cause])%list
        | inl refused => e = refused /\ h' = g
        end
    end).
  { intros cause g. rewrite print_checked_run.
    destruct (respond env g _); unfold io_raise; intros H;
      inversion H; subst; now split. }
  unfold io_bind at 1. unfold lift at 1.
  destruct (py_getitem message "Body") as [e0 | text] eqn:Hbody.
  { intros H. specialize (Hhandler (Raised e0) h H).
    destruct r as [e | result]; [| contradiction].
    exists (Raised e0), []. split; [now left |].
    rewrite ?app_assoc, ?app_nil_r. exact Hhandler. }
  unfold io_bind at 1.
  destruct (OutboundProcessor.loads env text h) as [[e1 | body] h1] eqn:Hloads;
    pose proof (loads_run _ _ _ _ Hloads) as ->.
  { intros H. specialize (Hhandler e1 h H).
    destruct r as [e | result]; [| contradiction].
    exists e1, []. split; [now left |].
    rewrite ?app_assoc, ?app_nil_r. exact Hhandler. }
  unfold io_bind at 1.
  destruct (process_body_calls now stored body h) as [before [Hh Hp]].
  destruct (OutboundProcessor.process_body env now stored body h)
    as [[e2 | result] h2] eqn:Hrun; simpl in Hh; subst h2.
  { intros H. specialize (Hhandler e2 _ H).
    destruct r as [e | result]; [| contradiction].
    exists e2, before. split; [now left |].
    rewrite ?app_assoc. exact Hhandler. }
  assert (Hdone : processed env now stored message h result before).
  { exists text, body. repeat split; assumption. }
  unfold io_bind at 1. unfold lift at 1.
  destruct (py_getitem message "ReceiptHandle") as [e3 | receipt_handle]
    eqn:Hhandle.
  { intros H. specialize (Hhandler (Raised e3) _ H).
    destruct r as [e | result']; [| contradiction].
    exists (Raised e3), before. split; [now left |].
    rewrite ?app_assoc. exact Hhandler. }
  unfold io_bind at 1. unfold request at 1.
  destruct (respond env (h ++ before)
              (DeleteMessage (OUTBOUND_QUEUE_URL env) receipt_handle))
    as [e4 | answer] eqn:Hdelete.
  - intros H. specialize (Hhandler e4 _ H).
    destruct r as [e | result']; [| contradiction].
    exists e4,
      (before ++ [DeleteMessage (OUTBOUND_QUEUE_URL env) receipt_handle])%list.
    split.
    + right. exists result, before, receipt_handle. now repeat split.
    + rewrite ?app_assoc. exact Hhandler.
  - unfold io_ret. intros H. inversion H; subst.
    exists before, receipt_handle, answer.
    split; [exact Hdone |]. split; [reflexivity |]. split; [exact Hdelete |].
    now rewrite app_assoc.
Qed.

Lemma process_messages_returns (messages : list value) :
  returns (OutboundProcessor.process_messages env messages).
Proof.
  induction messages as [| message rest IH]; simpl.
  - apply returns_ret.
  - apply returns_bind; [| intros _; exact IH].
    apply returns_try. intros e. apply returns_print.
Qed.


End QueueProperties.

(** ** The API *)

Lemma always_raises_raise {A : Type} (e : failure) : always_raises (@io_raise A e).
Proof. intros h. now exists e, h. Qed.

(** Once a step that always raises lies ahead on every path, the whole
    raises. *)
Lemma always_raises_bind {A B : Type} (m : io A) (k : A -> io B) :
  (forall a, always_raises (k a)) -> always_raises (io_bind m k).
Proof.
  intros Hk h. unfold io_bind. destruct (m h) as [[e | a] h1].
  - now exists e, h1.
  - apply Hk.
Qed.

Lemma always_raises_if {A : Type} (b : bool) (m1 m2 : io A) :
  always_raises m1 -> always_raises m2 -> always_raises (if b then m1 else m2).
Proof. destruct b; auto. Qed.

Lemma always_raises_first {A B : Type} (m : io A) (k : A -> io B) :
  always_raises m -> always_raises (io_bind m k).
Proof.
  intros Hm h. unfold io_bind. destruct (Hm h) as [e [h1 ->]]. now exists e, h1.
Qed.

Section ApiProperties.

Variable env : services.

Lemma handlers_answer {A : Type} (body : io A) :
  always_raises body ->
  answers_400_or_500 (try_except body (@Api.handlers A)).
Proof.
  intros Hb h. unfold try_except. destruct (Hb h) as [e [h1 ->]].
  unfold Api.handlers, io_raise. destruct (Api.is_ValueError e); eauto 6.
Qed.

Lemma format_without_target_raises (rule : dict) :
  always_raises (Api.format_without_target rule).
Proof. apply always_raises_raise. Qed.

(** Neither [create_security_rule] nor [update_security_rule] ever returns:
    on every path the call of [format_for_downstream] without its target
    lies ahead, so both end in an [HTTPException] with status 400 or 500,
    never with "created" or "updated" and never with 404. *)
Theorem create_and_update_never_return (now : clock) (stored : store_clock)
    (updated written : datetime) (rule_id : value) (rule : dict) :
  answers_400_or_500 (Api.create_security_rule env now stored rule) /\
  answers_400_or_500 (Api.update_security_rule env now updated written rule_id rule).
Proof.
  split.
  - unfold Api.create_security_rule. apply handlers_answer.
    apply always_raises_bind. intros transformed_rule.
    apply always_raises_bind. intros valid.
    apply always_raises_if; [apply always_raises_raise |].
    apply always_raises_bind. intros id.
    apply always_raises_bind. intros metadata.
    apply always_raises_bind. intros created_at.
    apply always_raises_bind. intros event_id.
    apply always_raises_first, format_without_target_raises.
  - unfold Api.update_security_rule. apply handlers_answer.
    apply always_raises_bind. intros existing_rule.
    apply always_raises_if; [apply always_raises_raise |].
    apply always_raises_bind. intros payload.
    apply always_raises_bind. intros items.
    apply always_raises_bind. intros transformed_rule.
    apply always_raises_bind. intros valid.
    apply always_raises_if; [apply always_raises_raise |].
    apply always_raises_bind. intros done.
    apply always_raises_first, format_without_target_raises.
Qed.

(** A rule that passes the transformer is stored before the answer fails:
    [create_security_rule] puts the item of the transformed rule in the
    table and then answers 500 with the [TypeError] of the formatter call
    (or with what the table raised); a [ValueError] of the transformer is
    answered 400 with nothing stored. *)
Theorem create_stores_then_fails (now : clock) (stored : store_clock)
    (rule : dict) (h : list call) :
  match transform_security_rule (render env) now rule with
  | inl e =>
      Api.create_security_rule env now stored rule h
      = (inl (HTTPException
                (match e with ValueError _ => 400 | _ => 500 end)
                (StrOf (Raised e))), h)
  | inr transformed_rule =>
      exists rule_id item,
        dict_lookup "rule_id" transformed_rule = Some rule_id /\
        dict_lookup "event_id" item = Some rule_id /\
        dict_lookup "payload" item = Some (VDict transformed_rule) /\
        Api.create_security_rule env now stored rule h
        = (inl (HTTPException
                  (match respond env h (PutItem item) with
                   | inl e => if Api.is_ValueError e then 400 else 500
                   | inr _ => 500
                   end)
                  (StrOf (match respond env h (PutItem item) with
                          | inl e => e
                          | inr _ => Raised TypeError
                          end))),
           (h ++ [PutItem item])%list)
  end.
Proof.
  unfold Api.create_security_rule.
  destruct (transform_security_rule (render env) now rule) as [e | tr] eqn:Ht.
  - unfold try_except, io_bind, lift, Api.handlers, io_raise.
    destruct e; reflexivity.
  - pose proof (transformed_valid _ _ _ _ Ht) as Hv.
    apply transform_inr in Ht.
    destruct Ht as [rt [rcs [cs [rxs [xs [_ [_ [_ [_ [_ [_ Hrule]]]]]]]]]]].
    set (rule_id := dict_get "rule_id" (VStr (_generate_rule_id (at_rule_id now))) rule).
    assert (Hid : dict_lookup "rule_id" tr = Some rule_id) by (subst tr; reflexivity).
    assert (Hmeta : dict_getitem tr "metadata"
                    = inr (VDict [("created_at", VStr (isoformat (at_created now)));
                                  ("updated_at", VStr (isoformat (at_updated now)));
                                  ("source", VStr "atlan");
                                  ("version", VStr "1.0")]))
      by (subst tr; reflexivity).
    clear Hrule.
    set (metadata := [("event_id", rule_id);
                      ("event_type", VStr "security_rule");
                      ("timestamp", VStr (isoformat (at_created now)));
                      ("source", VStr "atlan");
                      ("payload", VDict tr)]).
    destruct (store_metadata_run env stored metadata rule_id h eq_refl)
      as [item [Hitem Hstore]].
    injection Hitem as Hitem.
    exists rule_id, item.
    split; [exact Hid |].
    split; [subst item; reflexivity |].
    split; [subst item; reflexivity |].
    unfold try_except.
    rewrite io_bind_lift, io_bind_lift, Hv. cbn [negb].
    rewrite io_bind_lift. unfold dict_getitem at 1. rewrite Hid. cbn [ret].
    rewrite io_bind_lift, Hmeta, io_bind_lift.
    replace (py_getitem
               (VDict [("created_at", VStr (isoformat (at_created now)));
                       ("updated_at", VStr (isoformat (at_updated now)));
                       ("source", VStr "atlan"); ("version", VStr "1.0")])
               "created_at")
      with (@inr exn value (VStr (isoformat (at_created now)))) by reflexivity.
    fold metadata. rewrite (io_bind_run _ _ _ _ _ Hstore).
    destruct (respond env h (PutItem item)) as [e | v].
    + unfold Api.handlers, io_raise. destruct (Api.is_ValueError e); reflexivity.
    + reflexivity.
Qed.

(** Updating a rule the table does not have is answered 500, not 404: the
    [HTTPException] with status 404 is raised inside the [try] and taken by
    [except Exception], which answers 500 with the [str] of it; the table is
    asked for the rule and for nothing more. *)
Theorem update_missing_rule_is_500 (now : clock) (updated written : datetime)
    (rule_id : value) (rule : dict) (h : list call) (response existing : value) :
  respond env h (GetItem [("event_id", rule_id)]) = inr response ->
  py_get response "Item" VNone = inr existing ->
  py_truthy existing = false ->
  Api.update_security_rule env now updated written rule_id rule h
  = (inl (HTTPException 500
            (StrOf (HTTPException 404 (Text "Rule not found")))),
     (h ++ [GetItem [("event_id", rule_id)]])%list).
Proof.
  intros Hr Hitem Hfalsy.
  unfold Api.update_security_rule, try_except, DynamoDBStorage.get_metadata,
    io_bind, request, lift, io_raise, io_ret.
  rewrite Hr. cbv beta iota. rewrite Hitem. cbv beta iota.
  rewrite Hfalsy. reflexivity.
Qed.

(** [delete_security_rule] never answers 404 either: it answers "deleted"
    when the table took the delete, and 500 around its own 404 when the
    table raised, the table's error being printed, not answered. *)
Theorem delete_answers (rule_id : value) (h : list call) :
  let delete := DeleteItem [("event_id", rule_id)] in
  Api.delete_security_rule env rule_id h
  = match respond env h delete with
    | inr _ =>
        (inr [("rule_id", rule_id); ("status", VStr "deleted")],
         (h ++ [delete])%list)
    | inl e =>
        (inl (HTTPException 500
                (StrOf (HTTPException 404 (Text "Rule not found")))),
         (h ++ [delete; Print "Error deleting metadata: " e])%list)
    end.
Proof.
  cbv zeta.
  unfold Api.delete_security_rule, DynamoDBStorage.delete_metadata, try_except,
    io_bind, request, print, io_ret, io_raise.
  destruct (respond env h _); [| reflexivity].
  rewrite <- app_assoc. reflexivity.
Qed.

End ApiProperties.

(** ** More of the store *)

Section MoreStorageProperties.

Variable env : services.

Lemma collect_updates_keeps (updates : dict) (parts : DynamoDBStorage.update_parts)
    (clause : string) :
  In clause (DynamoDBStorage.update_expressions parts) ->
  In clause (DynamoDBStorage.update_expressions
               (DynamoDBStorage.collect_updates updates parts)).
Proof.
  revert parts. induction updates as [| [k v] updates IH]; simpl; intros parts H.
  - exact H.
  - destruct (DynamoDBStorage.immutable k); apply IH; [exact H |].
    simpl. apply in_or_app. now left.
Qed.

Lemma collect_updates_clause (updates : dict) (parts : DynamoDBStorage.update_parts)
    (key : string) (v : value) :
  dict_lookup key updates = Some v ->
  DynamoDBStorage.immutable key = false ->
  In ("#" ++ key ++ " = :" ++ key)
    (DynamoDBStorage.update_expressions
       (DynamoDBStorage.collect_updates updates parts)).
Proof.
  intros Hk Hm. revert parts.
  induction updates as [| [k w] updates IH]; simpl in *; intros parts.
  - discriminate.
  - destruct (String.eqb_spec key k) as [<- | Hne].
    + rewrite Hm. apply collect_updates_keeps. simpl.
      apply in_or_app. right. now left.
    + destruct (DynamoDBStorage.immutable k); now apply IH.
Qed.

(** A caller that passes [updated_at] among the updates, as the update path
    of the API does, gets an update expression that assigns [#updated_at]
    twice, its own value being replaced by the clock reading of
    [update_metadata]. *)
Theorem update_metadata_repeats_updated_at (now : datetime) (event_id v : value)
    (updates : dict) (h : list call) :
  dict_lookup "updated_at" updates = Some v ->
  exists clauses values names,
    let update :=
      UpdateItem [("event_id", event_id)]
        ("SET " ++ String.concat ", " clauses) values names in
    2 <= count_occ string_dec clauses "#updated_at = :updated_at" /\
    dict_lookup ":updated_at" values = Some (VStr (isoformat now)) /\
    DynamoDBStorage.update_metadata env now event_id updates h
    = match respond env h update with
      | inr _ => (inr true, (h ++ [update])%list)
      | inl e =>
          (inr false,
           (h ++ [update; Print "Error updating metadata: " e])%list)
      end.
Proof.
  intros Hv. unfold DynamoDBStorage.update_metadata.
  set (start := {| DynamoDBStorage.update_expressions := [];
                   DynamoDBStorage.expression_values := [];
                   DynamoDBStorage.expression_names := [] |}).
  pose proof (collect_updates_clause updates start "updated_at" v Hv eq_refl) as Hin.
  set (collected := DynamoDBStorage.collect_updates updates start) in *.
  set (parts := DynamoDBStorage.add_update collected "updated_at" (VStr (isoformat now))).
  exists (DynamoDBStorage.update_expressions parts),
    (DynamoDBStorage.expression_values parts),
    (DynamoDBStorage.expression_names parts).
  cbv zeta. split; [| split].
  - apply (count_occ_In string_dec) in Hin.
    unfold parts, DynamoDBStorage.add_update.
    cbn [DynamoDBStorage.update_expressions].
    rewrite count_occ_app.
    change ("#" ++ "updated_at" ++ " = :" ++ "updated_at")
      with "#updated_at = :updated_at" in *.
    rewrite (count_occ_cons_eq string_dec [] (eq_refl "#updated_at = :updated_at")).
    simpl count_occ. lia.
  - unfold parts. simpl. apply dict_lookup_set_same.
  - destruct (DynamoDBStorage.update_expressions collected) as [| c cs] eqn:Hc;
      [contradiction |].
    fold parts.
    unfold try_except, io_bind, request, print, io_ret.
    destruct (respond env h _); [| reflexivity].
    rewrite <- app_assoc. reflexivity.
Qed.

Lemma batch_loop_accepted (now : nat -> store_clock) (metadata_list : list dict) :
  (forall h item, exists v, respond env h (BatchPutItem item) = inr v) ->
  forall (i : nat) (stored_ids : list value) (h : list call),
  exists items,
    Forall2 (fun item metadata =>
               dict_lookup "event_id" item = dict_lookup "event_id" metadata /\
               dict_lookup "payload" item
               = Some (dict_get "payload" (VDict []) metadata))
      items (filter (dict_mem "event_id") metadata_list) /\
    DynamoDBStorage.batch_loop env now i metadata_list stored_ids h
    = (inr (stored_ids
            ++ map (dict_get "event_id" VNone)
                 (filter (dict_mem "event_id") metadata_list))%list,
       (h ++ map BatchPutItem items)%list).
Proof.
  intros Hok. induction metadata_list as [| metadata rest IH]; intros i ids h.
  - exists []. split; [constructor |]. simpl. now rewrite !app_nil_r.
  - simpl. destruct (dict_mem "event_id" metadata) eqn:Hm; cbn [negb].
    + pose proof Hm as Hid. apply dict_mem_lookup in Hid.
      destruct Hid as [event_id Hid].
      unfold DynamoDBStorage.build_item, dict_getitem. rewrite Hid. cbn [bind ret].
      set (item := [("event_id", event_id);
                    ("event_type", dict_get "event_type" (VStr "unknown") metadata);
                    ("timestamp", _); ("source", _); ("tenant_id", _);
                    ("payload", dict_get "payload" (VDict []) metadata);
                    ("metadata", _); ("created_at", _); ("updated_at", _)]).
      rewrite io_bind_lift. unfold ret, raise. cbv beta iota.
      rewrite io_bind_request.
      destruct (Hok h item) as [v ->].
      rewrite io_bind_lift.
      change (dict_lookup "event_id" item) with (Some event_id).
      cbv beta iota.
      destruct (IH (S i) (ids ++ [event_id])%list (h ++ [BatchPutItem item])%list)
        as [items [HF ->]].
      exists (item :: items). split.
      * constructor; [| exact HF]. split; [now rewrite Hid | reflexivity].
      * simpl. unfold dict_get at 2. rewrite Hid, <- !app_assoc. reflexivity.
    + destruct (IH (S i) ids h) as [items [HF ->]]. exists items. now split.
Qed.

(** [batch_store_metadata] leaves out, without a word, the entries that
    have no [event_id] (where [store_metadata] raises): when the table takes
    every put, it returns the identifiers of the entries that have one, in
    their order, and has put exactly one item for each of them, with the
    entry's identifier and payload. *)
Theorem batch_store_metadata_skips (now : nat -> store_clock)
    (metadata_list : list dict) (h : list call) :
  (forall h item, exists v, respond env h (BatchPutItem item) = inr v) ->
  exists items,
    Forall2 (fun item metadata =>
               dict_lookup "event_id" item = dict_lookup "event_id" metadata /\
               dict_lookup "payload" item
               = Some (dict_get "payload" (VDict []) metadata))
      items (filter (dict_mem "event_id") metadata_list) /\
    DynamoDBStorage.batch_store_metadata env now metadata_list h
    = (inr (map (dict_get "event_id" VNone)
              (filter (dict_mem "event_id") metadata_list)),
       (h ++ map BatchPutItem items)%list).
Proof.
  intros Hok. exact (batch_loop_accepted now metadata_list Hok 0 [] h).
Qed.

End MoreStorageProperties.

(** ** The inbound pipeline *)

Section InboundProperties.

Variable env : services.

(** When [process_webhook] returns, the payload has been decoded, parsed and
    enriched, and then exactly two more things have been asked for: a put of
    the parsed event with the enriched incident as its payload, and the
    publication of the parsed event as it was, its payload not enriched.
    The result carries the payload's [id]. *)
Theorem process_webhook_stores_enriched (now : store_clock)
    (payload signature : string) (result : dict) (h h' : list call) :
  InboundProcessor.process_webhook env now payload signature h = (inr result, h') ->
  exists event_data parsed_event event_id event_type incident enriched h1 item,
    json_loads env payload = inr event_data /\
    MonteCarloClient.parse_webhook_event event_data = inr parsed_event /\
    dict_lookup "event_id" parsed_event = Some event_id /\
    dict_lookup "event_type" parsed_event = Some event_type /\
    dict_lookup "payload" parsed_event = Some incident /\
    MonteCarloClient.enrich_incident_data env incident h = (inr enriched, h1) /\
    dict_lookup "event_id" item = Some event_id /\
    dict_lookup "payload" item = Some (VDict enriched) /\
    h' = (h1 ++ [PutItem item;
                 PutEvents [("Source", VStr "atlan.lily");
                            ("DetailType", event_type);
                            ("Detail", VStr (json_dumps env (VDict parsed_event)));
                            ("EventBusName", VStr (EVENT_BUS_NAME env))]])%list /\
    result = [("event_id", event_id); ("status", VStr "processed")].
Proof.
  unfold InboundProcessor.process_webhook. intros H.
  io_inv H. rename a into verified, h0 into hv, Ha into Hverify.
  assert (Hhv : hv = h).
  { unfold MonteCarloClient.verify_webhook_signature in Hverify.
    destruct (negb _); [now inversion Hverify |].
    unfold lift_outcome in Hverify. now inversion Hverify. }
  subst hv.
  destruct verified; cbn [negb] in H; [| discriminate].
  io_inv H. rename a into event_data.
  unfold lift_outcome in Ha. injection Ha as Hloads Hh. subst h0.
  io_inv H. rename a into parsed_event. lift_inv Ha.
  io_inv H. rename a into incident. lift_inv Ha0.
  io_inv H. rename a into enriched, h0 into h1, Ha1 into Henrich.
  io_inv H. rename a into stored_id, h0 into h2, Ha1 into Hstore.
  io_inv H. destruct a. rename h0 into h3, Ha1 into Hpublish.
  unfold io_ret in H. injection H as Hres Hh. subst result h'.
  (* the parsed event has its five keys *)
  assert (Hparsed : exists id type timestamp,
            parsed_event = [("event_id", id); ("event_type", type);
                            ("timestamp", timestamp);
                            ("source", VStr "monte_carlo");
                            ("payload", incident)]).
  { unfold MonteCarloClient.parse_webhook_event in Ha.
    bind_inv Ha. bind_inv Ha. bind_inv Ha. bind_inv Ha. bind_inv Ha.
    inversion Ha; subst parsed_event.
    unfold dict_getitem in Ha0. simpl in Ha0. inversion Ha0; subst. eauto. }
  destruct Hparsed as [id [type [timestamp Hparsed]]].
  (* the put *)
  destruct (store_metadata_run env now
              (dict_set "payload" (VDict enriched) parsed_event) id h1)
    as [item [Hitem Hrun]]; [subst parsed_event; reflexivity |].
  rewrite Hrun in Hstore. injection Hstore as Hput Hh2. subst h2.
  destruct (respond env h1 (PutItem item)) as [e | v]; [discriminate |].
  injection Hput as Hput. subst stored_id.
  (* the publication *)
  unfold InboundProcessor._publish_to_eventbridge, try_except in Hpublish.
  rewrite io_bind_lift in Hpublish.
  assert (Htype : dict_getitem parsed_event "event_type" = inr type)
    by (subst parsed_event; reflexivity).
  rewrite Htype, io_bind_request in Hpublish.
  destruct (respond env (h1 ++ [PutItem item]) _) as [e | v'].
  { unfold io_bind, print, io_raise in Hpublish. discriminate. }
  unfold io_ret in Hpublish. injection Hpublish as Hh3. subst h3.
  exists event_data, parsed_event, id, type, incident, enriched, h1, item.
  split; [exact Hloads |]. split; [exact Ha |].
  split; [subst parsed_event; reflexivity |].
  split; [subst parsed_event; reflexivity |].
  split; [subst parsed_event; reflexivity |].
  split; [exact Henrich |].
  unfold DynamoDBStorage.build_item in Hitem. subst parsed_event.
  cbn in Hitem. injection Hitem as Hitem. subst item.
  split; [reflexivity |]. split; [reflexivity |].
  split; [now rewrite <- app_assoc | reflexivity].
Qed.

End InboundProperties.

(** ** The theorems on the services at the examples *)

Lemma parse_webhook_event_first_missing_witness :
  MonteCarloClient.parse_webhook_event
    (VDict [("id", VStr "evt_1"); ("timestamp", VStr "2024-03-15T10:00:00Z")])
  = inl (ValueError "Missing required field: type") /\
  exists before field after,
    ["id"; "type"; "timestamp"; "data"] = (before ++ field :: after)%list /\
    (forall f, In f before ->
       dict_lookup f [("id", VStr "evt_1");
                      ("timestamp", VStr "2024-03-15T10:00:00Z")] <> None) /\
    dict_lookup field [("id", VStr "evt_1");
                       ("timestamp", VStr "2024-03-15T10:00:00Z")] = None /\
    ValueError "Missing required field: type"
    = ValueError ("Missing required field: " ++ field).
Proof.
  split; [reflexivity |].
  exact (parse_webhook_event_first_missing
           [("id", VStr "evt_1"); ("timestamp", VStr "2024-03-15T10:00:00Z")]).
Defined.

Lemma enrich_incident_data_keys_witness :
  exists enriched h',
    MonteCarloClient.enrich_incident_data quiet
      (VDict [("id", VStr "inc_123"); ("severity", VStr "high");
              ("details", VStr "none yet")]) []
    = (inr enriched, h') /\
    dict_lookup "details" enriched = Some (VDict []) /\
    dict_lookup "severity" enriched = Some (VStr "high") /\
    List.length h' = 2.
Proof.
  destruct (MonteCarloClient.enrich_incident_data quiet
              (VDict [("id", VStr "inc_123"); ("severity", VStr "high");
                      ("details", VStr "none yet")]) [])
    as [[e | enriched] h'] eqn:Hrun; [vm_compute in Hrun; discriminate |].
  exists enriched, h'. split; [reflexivity |].
  destruct (enrich_incident_data_keys quiet _ _ _ _ Hrun)
    as [incident [id [details [assets [Hi [_ [Hh [Hd [_ [Hde [_ [_ Hk]]]]]]]]]]]].
  inversion Hi; subst incident. inversion Hd; subst details.
  split; [exact Hde |]. split.
  - rewrite Hk by discriminate. reflexivity.
  - rewrite Hh. reflexivity.
Defined.

Lemma process_sqs_message_deletes_last_witness :
  (exists result before,
     OutboundProcessor.process_sqs_message rule_queue noon
       (storage_clock rule_queue []) queued_message []
     = (inr result, (before ++ [DeleteMessage "outbound" (VStr "r1")])%list) /\
     processed rule_queue noon (storage_clock rule_queue []) queued_message []
       result before) /\
  (exists before,
     OutboundProcessor.process_sqs_message keeping_queue noon
       (storage_clock keeping_queue []) queued_message []
     = (inl (External "ClientError" false),
        (before ++ [DeleteMessage "outbound" (VStr "r1");
                    Print "Error processing SQS message: "
                      (External "ClientError" false)])%list) /\
     forallb not_delete_message before = true) /\
  OutboundProcessor.process_sqs_message mute_queue noon
    (storage_clock mute_queue []) queued_message []
  = (inl (External "UnicodeEncodeError" true), []).
Proof.
  split; [| split].
  - destruct (OutboundProcessor.process_sqs_message rule_queue noon
                (storage_clock rule_queue []) queued_message [])
      as [[e | result] h'] eqn:Hrun; [vm_compute in Hrun; discriminate |].
    destruct (process_sqs_message_deletes_last rule_queue _ _ _ _ _ _ Hrun)
      as [before [receipt_handle [answer [Hdone [Hhandle [_ ->]]]]]].
    inversion Hhandle; subst receipt_handle.
    exists result, before. split; [reflexivity | exact Hdone].
  - destruct (OutboundProcessor.process_sqs_message keeping_queue noon
                (storage_clock keeping_queue []) queued_message [])
      as [[e | result] h'] eqn:Hrun; [| vm_compute in Hrun; discriminate].
    destruct (process_sqs_message_deletes_last keeping_queue _ _ _ _ _ _ Hrun)
      as [cause [calls [[Hnone | Hdelete] Hprint]]].
    + exfalso. cbv beta iota delta [keeping_queue respond] in Hprint.
      destruct Hprint as [_ ->].
      assert (Hlast : existsb (fun c => negb (not_delete_message c))
                        (snd (OutboundProcessor.process_sqs_message keeping_queue
                                noon (storage_clock keeping_queue [])
                                queued_message [])) = true)
        by (vm_compute; reflexivity).
      rewrite Hrun in Hlast. simpl in Hlast.
      rewrite existsb_app in Hlast. simpl in Hlast. rewrite orb_false_r in Hlast.
      clear Hrun. induction calls as [| c calls IH]; [discriminate |].
      simpl in Hnone, Hlast. apply andb_true_iff in Hnone.
      destruct Hnone as [Hc Hnone]. rewrite Hc in Hlast. now apply IH.
    + destruct Hdelete
        as [result [before [receipt_handle [[text [body [_ [_ [_ Hb]]]]]
             [Hhandle [Hrefused ->]]]]]].
      inversion Hhandle; subst receipt_handle.
      cbv beta iota delta [keeping_queue respond] in Hprint, Hrefused.
      inversion Hrefused; subst cause. destruct Hprint as [-> ->].
      exists before. split; [| exact Hb].
      simpl. now rewrite <- app_assoc.
  - reflexivity.
Defined.

Lemma update_missing_rule_is_500_witness :
  py_truthy VNone = false /\
  Api.update_security_rule quiet later morning morning (VStr "r404")
    [("conditions", VList [])] []
  = (inl (HTTPException 500
            (StrOf (HTTPException 404 (Text "Rule not found")))),
     [GetItem [("event_id", VStr "r404")]]).
Proof.
  split; [reflexivity |].
  apply (update_missing_rule_is_500 quiet later morning morning (VStr "r404")
           [("conditions", VList [])] [] (VDict []) VNone); reflexivity.
Defined.

Lemma update_metadata_repeats_updated_at_witness :
  dict_lookup "updated_at"
    [("payload", VDict email_rule); ("updated_at", VStr "2024-03-17T07:59:59")]
  = Some (VStr "2024-03-17T07:59:59") /\
  exists clauses values names,
    let update :=
      UpdateItem [("event_id", VStr "r7")]
        ("SET " ++ String.concat ", " clauses) values names in
    2 <= count_occ string_dec clauses "#updated_at = :updated_at" /\
    dict_lookup ":updated_at" values = Some (VStr (isoformat morning)) /\
    DynamoDBStorage.update_metadata quiet morning (VStr "r7")
      [("payload", VDict email_rule); ("updated_at", VStr "2024-03-17T07:59:59")] []
    = match respond quiet [] update with
      | inr _ => (inr true, ([] ++ [update])%list)
      | inl e =>
          (inr false,
           ([] ++ [update; Print "Error updating metadata: " e])%list)
      end.
Proof.
  split; [reflexivity |].
  apply (update_metadata_repeats_updated_at quiet morning (VStr "r7")
           (VStr "2024-03-17T07:59:59")).
  reflexivity.
Defined.

Lemma batch_store_metadata_skips_witness :
  (forall h item, exists v, respond quiet h (BatchPutItem item) = inr v) /\
  exists items,
    DynamoDBStorage.batch_store_metadata quiet (fun _ => storage_clock quiet [])
      [[("event_id", VStr "a")]; [("payload", VDict [])]; [("event_id", VStr "b")]] []
    = (inr [VStr "a"; VStr "b"], map BatchPutItem items) /\
    List.length items = 2.
Proof.
  assert (Hok : forall h item, exists v, respond quiet h (BatchPutItem item) = inr v)
    by (intros h item; now exists (VDict [])).
  split; [exact Hok |].
  destruct (batch_store_metadata_skips quiet (fun _ => storage_clock quiet [])
              [[("event_id", VStr "a")]; [("payload", VDict [])];
               [("event_id", VStr "b")]] [] Hok) as [items [HF Hrun]].
  exists items. split; [exact Hrun |].
  apply Forall2_length in HF. exact HF.
Defined.

Lemma process_webhook_stores_enriched_witness :
  exists result h',
    InboundProcessor.process_webhook quiet (storage_clock quiet []) "{}" "" []
    = (inr result, h') /\
    result = [("event_id", VStr "evt_1"); ("status", VStr "processed")] /\
    List.length h' = 4.
Proof.
  destruct (InboundProcessor.process_webhook quiet (storage_clock quiet []) "{}" "" [])
    as [[e | result] h'] eqn:Hrun; [vm_compute in Hrun; discriminate |].
  exists result, h'. split; [reflexivity |].
  destruct (process_webhook_stores_enriched quiet _ _ _ _ _ _ Hrun)
    as [event [parsed [id [type [incident [enriched [h1 [item
         [Hl [Hp [Hid [_ [Hinc [He [_ [_ [Hh Hres]]]]]]]]]]]]]]]]].
  inversion Hl; subst event. vm_compute in Hp. inversion Hp; subst parsed.
  inversion Hid; subst id. inversion Hinc; subst incident.
  split; [exact Hres |].
  subst h'. rewrite length_app.
  assert (Hlen : List.length h1 = 2).
  { clear - He. vm_compute in He. injection He as _ Hh1. subst h1. reflexivity. }
  rewrite Hlen. reflexivity.
Defined.

(** ** The transformer on typed input *)

Lemma forallb_false_existsb {A : Type} (p : A -> bool) (l : list A) :
  forallb p l = false -> existsb (fun x => negb (p x)) l = true.
Proof.
  induction l as [| x l IH]; simpl; intros H.
  - discriminate.
  - destruct (p x); simpl in *; [now apply IH | reflexivity].
Qed.

Lemma for_append_typed (ks : list string) (body : value -> result value)
    (e : exn) (xs acc : list value) :
  (forall d, (has_keys ks (VDict d) = true /\ exists y, body (VDict d) = inr y) \/
             (has_keys ks (VDict d) = false /\ body (VDict d) = inl e)) ->
  forallb is_dict xs = true ->
  if forallb (has_keys ks) xs
  then exists l, for_append body xs acc = inr l
  else for_append body xs acc = inl e.
Proof.
  intros Hbody Hd. destruct (forallb (has_keys ks) xs) eqn:Hk.
  - apply (for_append_well_formed ks); [| exact Hk].
    intros d Hd'. destruct (Hbody d) as [[_ H] | [H _]]; [exact H | congruence].
  - apply (for_append_malformed ks); try assumption.
    now apply forallb_false_existsb.
Qed.

Section TypedTransform.

Variable repr : value -> string.

(** On a raw rule whose conditions and actions are sequences of mappings the
    transformer returns exactly when the rule type is supported, every
    condition has [field], [operator] and [value], and every action has
    [type]; otherwise what it raises is a [ValueError]. *)
Theorem transform_typed_outcome (now : clock) (rule_data : dict) :
  rule_typed rule_data = true ->
  match transform_security_rule repr now rule_data with
  | inr _ => accepted rule_data = true
  | inl e => accepted rule_data = false /\ exists msg, e = ValueError msg
  end.
Proof.
  unfold rule_typed, accepted, well_formed_conditions, well_formed_actions,
    transform_security_rule, dict_get.
  intros Ht. apply andb_true_iff in Ht. destruct Ht as [Htc Htx].
  destruct (dict_lookup "rule_type" rule_data) as [rt |];
    [| split; [reflexivity | eauto]].
  destruct (is_supported rt); cbn [negb andb]; [| split; [reflexivity | eauto]].
  destruct (match dict_lookup "conditions" rule_data with
            | Some v => v | None => VList [] end) as [| | | | | cs |];
    try discriminate.
  destruct (match dict_lookup "actions" rule_data with
            | Some v => v | None => VList [] end) as [| | | | | xs |];
    try discriminate.
  cbn [sequence_of] in *.
  unfold _transform_conditions, _transform_actions. cbn [py_iter bind ret].
  pose proof (for_append_typed condition_keys transform_condition
                (ValueError "Invalid condition format") cs []
                transform_condition_dict Htc) as Hc.
  destruct (forallb (has_keys condition_keys) cs); cbn [andb].
  - destruct Hc as [l ->]. cbn [bind ret].
    pose proof (for_append_typed ["type"] transform_action
                  (ValueError "Invalid action format") xs []
                  transform_action_dict Htx) as Hx.
    destruct (forallb (has_keys ["type"]) xs).
    + destruct Hx as [l' ->]. reflexivity.
    + rewrite Hx. split; [reflexivity | eauto].
  - rewrite Hc. split; [reflexivity | eauto].
Qed.

End TypedTransform.

(** ** Queries *)

Section QueryProperties.

Variable env : services.

(** The scan [query_metadata] asks for always carries the limit and never
    attribute names.  A filter counts exactly when it is a string that is not
    empty (an empty string is taken like no filter at all): with none that
    counts the scan carries the limit alone, otherwise it carries the clauses
    of those that count, joined by [" AND "] in the order of the parameters,
    and their texts under their placeholders. *)
Theorem query_params_filters
    (event_type source tenant_id start_time end_time : option string)
    (limit : Z) :
  let chosen :=
    effective (scan_filters event_type source tenant_id start_time end_time) in
  let params :=
    DynamoDBStorage.query_params event_type source tenant_id start_time
      end_time limit in
  dict_lookup "Limit" params = Some (VInt limit) /\
  dict_lookup "ExpressionAttributeNames" params = None /\
  params
  = match chosen with
    | [] => [("Limit", VInt limit)]
    | _ :: _ =>
        [("Limit", VInt limit);
         ("FilterExpression",
          VStr (String.concat " AND " (map (fun c => fst (fst c)) chosen)));
         ("ExpressionAttributeValues",
          VDict (map (fun c => (snd (fst c), VStr (snd c))) chosen))]
    end.
Proof.
  cbv zeta.
  unfold DynamoDBStorage.query_params, DynamoDBStorage.add_filter, effective,
    scan_filters.
  cbn [py_truthy flat_map fst snd].
  destruct event_type as [a |], source as [b |], tenant_id as [c |],
    start_time as [d |], end_time as [e |];
  cbv beta iota;
  repeat match goal with
         | |- context [String.eqb ?x ""] => destruct (String.eqb x "")
         end;
  cbn [negb DynamoDBStorage.filter_expressions DynamoDBStorage.filter_values app
       map fst snd];
  (split; [reflexivity |]); (split; reflexivity).
Qed.

(** [query_security_rules] asks the table for one scan, the same whatever
    [rule_type], [asset_id] and [asset_type] it is given: these three filters
    are not passed on, the scan filters on the event type and the source
    alone.  What it answers is the payloads of the items of the scan, in
    their order, under [rules]; whatever fails, the scan or the reading of
    an item, it answers 500. *)
Theorem query_security_rules_ignores_filters
    (rule_type asset_id asset_type : option string) (limit : Z) (h : list call) :
  let scan :=
    Scan [("Limit", VInt limit);
          ("FilterExpression",
           VStr "event_type = :event_type AND source = :source");
          ("ExpressionAttributeValues",
           VDict [(":event_type", VStr "security_rule");
                  (":source", VStr "atlan")])] in
  let run := Api.query_security_rules env rule_type asset_id asset_type limit h in
  run = Api.query_security_rules env None None None limit h /\
  snd run = (h ++ [scan])%list /\
  match fst run with
  | inr answer =>
      exists response rules items payloads,
        respond env h scan = inr response /\
        py_get response "Items" (VList []) = inr rules /\
        py_iter rules = inr items /\
        comprehension (fun rule => py_getitem rule "payload") items
        = inr payloads /\
        answer = [("rules", VList payloads)]
  | inl e => exists cause, e = HTTPException 500 (StrOf cause)
  end.
Proof.
  cbv zeta. split; [reflexivity |].
  unfold Api.query_security_rules, try_except, DynamoDBStorage.query_metadata.
  unfold io_bind, request, lift, io_ret, io_raise.
  change (DynamoDBStorage.query_params (Some "security_rule") (Some "atlan")
            None None None limit)
    with [("Limit", VInt limit);
          ("FilterExpression",
           VStr "event_type = :event_type AND source = :source");
          ("ExpressionAttributeValues",
           VDict [(":event_type", VStr "security_rule");
                  (":source", VStr "atlan")])].
  destruct (respond env h _) as [e | response];
    [split; [reflexivity | cbn [fst]; now exists e] |].
  destruct (py_get response "Items" (VList [])) as [e | rules] eqn:Hitems;
    [split; [reflexivity | cbn [fst]; now eexists] |].
  destruct (py_iter rules) as [e | items] eqn:Hiter;
    [split; [reflexivity | cbn [fst]; now eexists] |].
  destruct (comprehension _ items) as [e | payloads] eqn:Hpayloads;
    [split; [reflexivity | cbn [fst]; now eexists] |].
  split; [reflexivity |]. cbn [fst].
  exists response, rules, items, payloads.
  split; [reflexivity |]. split; [exact Hitems |]. split; [exact Hiter |].
  split; [exact Hpayloads | reflexivity].
Qed.

(** The signature gate of [process_webhook].  With no secret configured the
    signature is not looked at: whatever two signatures come with a payload,
    [process_webhook] does the same.  With a secret, a signature that does
    not compare equal to the digest of the payload makes [process_webhook]
    raise [ValueError] before the payload is decoded and before anything is
    asked of a service, and a signature the comparison itself raises on (one
    that is not ASCII) makes it raise that exception, no [ValueError] of its
    own, at the same point. *)
Theorem process_webhook_signature_gate (now : store_clock)
    (payload signature : string) (h : list call) :
  (MONTE_CARLO_WEBHOOK_SECRET env = "" ->
   MonteCarloClient.verify_webhook_signature env payload signature h
   = (inr true, h) /\
   forall other,
     InboundProcessor.process_webhook env now payload signature h
     = InboundProcessor.process_webhook env now payload other h) /\
  (MONTE_CARLO_WEBHOOK_SECRET env <> "" ->
   compare_digest env signature
     (hmac_sha256_hexdigest env (MONTE_CARLO_WEBHOOK_SECRET env) payload)
   = inr false ->
   InboundProcessor.process_webhook env now payload signature h
   = (inl (Raised (ValueError "Invalid webhook signature")), h)) /\
  (forall e,
   MONTE_CARLO_WEBHOOK_SECRET env <> "" ->
   compare_digest env signature
     (hmac_sha256_hexdigest env (MONTE_CARLO_WEBHOOK_SECRET env) payload)
   = inl e ->
   InboundProcessor.process_webhook env now payload signature h = (inl e, h)).
Proof.
  unfold InboundProcessor.process_webhook, MonteCarloClient.verify_webhook_signature.
  split; [| split].
  - intros ->. split; reflexivity.
  - intros Hs Hc. cbn [py_truthy].
    destruct (String.eqb_spec (MONTE_CARLO_WEBHOOK_SECRET env) ""); [contradiction |].
    cbn [negb]. unfold io_bind, lift_outcome. rewrite Hc. reflexivity.
  - intros e Hs Hc. cbn [py_truthy].
    destruct (String.eqb_spec (MONTE_CARLO_WEBHOOK_SECRET env) ""); [contradiction |].
    cbn [negb]. unfold io_bind, lift_outcome. rewrite Hc. reflexivity.
Qed.

End QueryProperties.

(** ** Sample runs of the queries and of the signature gate *)

Lemma transform_typed_outcome_witness :
  (rule_typed email_rule_data = true /\
   match transform_security_rule plain_repr noon email_rule_data with
   | inr _ => accepted email_rule_data = true
   | inl e => accepted email_rule_data = false /\ exists msg, e = ValueError msg
   end) /\
  (rule_typed no_type_rule_data = true /\
   match transform_security_rule plain_repr noon no_type_rule_data with
   | inr _ => accepted no_type_rule_data = true
   | inl e =>
       accepted no_type_rule_data = false /\ exists msg, e = ValueError msg
   end).
Proof.
  split; (split; [reflexivity |]).
  - apply (transform_typed_outcome plain_repr noon email_rule_data). reflexivity.
  - apply (transform_typed_outcome plain_repr noon no_type_rule_data).
    reflexivity.
Defined.

Lemma process_webhook_signature_gate_witness :
  (MONTE_CARLO_WEBHOOK_SECRET quiet = "" /\
   InboundProcessor.process_webhook quiet (storage_clock quiet []) "{}" "none" []
   = InboundProcessor.process_webhook quiet (storage_clock quiet []) "{}"
       "0a1b" []) /\
  (MONTE_CARLO_WEBHOOK_SECRET (signing "0a1b") <> "" /\
   InboundProcessor.process_webhook (signing "0a1b")
     (storage_clock (signing "0a1b") []) "{}" "ffff" []
   = (inl (Raised (ValueError "Invalid webhook signature")), [])) /\
  InboundProcessor.process_webhook (signing "0a1b")
    (storage_clock (signing "0a1b") []) "{}" (String (ascii_of_nat 233) "") []
  = (inl (Raised TypeError), []).
Proof.
  split; [| split].
  - split; [reflexivity |].
    destruct (process_webhook_signature_gate quiet (storage_clock quiet [])
                "{}" "none" []) as [Hopen _].
    destruct (Hopen eq_refl) as [_ Hsame]. apply Hsame.
  - split; [discriminate |].
    destruct (process_webhook_signature_gate (signing "0a1b")
                (storage_clock (signing "0a1b") []) "{}" "ffff" [])
      as [_ [Hclosed _]].
    apply Hclosed; [discriminate | reflexivity].
  - destruct (process_webhook_signature_gate (signing "0a1b")
                (storage_clock (signing "0a1b") []) "{}"
                (String (ascii_of_nat 233) "") [])
      as [_ [_ Hraises]].
    apply (Hraises (Raised TypeError)); [discriminate | reflexivity].
Defined.
